(** * DAO dashboard: the task / case-file mutation-and-notification pipeline

    A shallow embedding of the Express back end of the DAO dashboard
    ([backend-express/routes/dao-simple.ts], [backend-express/routes/tasks.ts],
    [backend-express/services/daoService.ts] and
    [backend-express/services/emailService.ts]) and the properties of its
    specification.

    Conventions of the embedding:
    - a JavaScript string is the list of its UTF-16 code units ([jsstring]);
    - a JavaScript number that the code only uses as an integer (task ids,
      progress, list suffixes) is a [Z];
    - [undefined] / [null] are [None];
    - the storage is the in-memory fall-back of [DaoService] (an array of
      case files);
    - collaborators that live outside the repository's routes (the
      notification sink, the user directory, the mail transport, dynamic
      module loading, the clock) are fields of an environment [Env]; each of
      them may throw. *)

From Stdlib Require Import ZArith NArith List String Ascii Lia Bool.
From Stdlib Require Import DecimalString.
From stdpp Require Import base tactics option list numbers.
Import ListNotations.

Local Open Scope N_scope.

(* ===================================================================== *)
(** ** JavaScript strings *)
(* ===================================================================== *)

Module JsString.

(** A string is its sequence of UTF-16 code units. *)
Abbreviation jsstring := (list N).

(** Source literals are written as UTF-8 text and decoded to code units
    (all literals of this development are in the Basic Multilingual Plane:
    one to three bytes per character). *)
Fixpoint utf8_decode (bs : list N) : jsstring :=
  match bs with
  | [] => []
  | b :: r =>
      if b <? 128 then b :: utf8_decode r
      else if b <? 224 then
        match r with
        | c :: r' => ((b - 192) * 64 + (c - 128)) :: utf8_decode r'
        | [] => []
        end
      else
        match r with
        | c :: d :: r' =>
            ((b - 224) * 4096 + (c - 128) * 64 + (d - 128)) :: utf8_decode r'
        | _ => []
        end
  end.

Definition js (s : string) : jsstring :=
  utf8_decode (List.map N_of_ascii (list_ascii_of_string s)).

(** The double quote, which a literal cannot hold. *)
Definition dq : jsstring := [34].

Definition ch_lt : N := 60.  (* < *)
Definition ch_gt : N := 62.  (* > *)

(** ECMAScript WhiteSpace and LineTerminator code points: what
    [String.prototype.trim] removes. *)
Definition is_ws (c : N) : bool :=
  (c =? 9) || (c =? 10) || (c =? 11) || (c =? 12) || (c =? 13) || (c =? 32)
  || (c =? 160) || (c =? 5760) || ((8192 <=? c) && (c <=? 8202))
  || (c =? 8232) || (c =? 8233) || (c =? 8239) || (c =? 8287)
  || (c =? 12288) || (c =? 65279).

Fixpoint trimStart (s : jsstring) : jsstring :=
  match s with
  | [] => []
  | c :: r => if is_ws c then trimStart r else s
  end.

Definition trimEnd (s : jsstring) : jsstring := rev (trimStart (rev s)).

Definition trim (s : jsstring) : jsstring := trimEnd (trimStart s).

(** [has_gt s]: some [>] occurs in [s]. *)
Fixpoint has_gt (s : jsstring) : bool :=
  match s with
  | [] => false
  | c :: r => (c =? ch_gt) || has_gt r
  end.

(** [input.replace(/<[^>]*>/g, "")].  The scanner reads the string once.
    Outside a match, a [<] that has a [>] somewhere after it opens a match
    (the leftmost match of [<[^>]*>] starts there and runs to the first
    [>]); any other code unit is copied.  Inside a match everything up to
    and including the first [>] is dropped. *)
Fixpoint strip_from (inside : bool) (s : jsstring) : jsstring :=
  match s with
  | [] => []
  | c :: r =>
      if inside then
        if c =? ch_gt then strip_from false r else strip_from true r
      else if (c =? ch_lt) && has_gt r then strip_from true r
      else c :: strip_from false r
  end.

Definition strip_tags (s : jsstring) : jsstring := strip_from false s.

(** [function sanitizeString(input) { return input.replace(/<[^>]*>/g, "").trim(); }]
    (the same helper in [dao-simple.ts] and in [tasks.ts]). *)
Definition sanitizeString (input : jsstring) : jsstring :=
  trim (strip_tags input).

(** [s] holds a match of [/<[^>]*>/]: a [<] with a [>] after it. *)
Fixpoint has_tag (s : jsstring) : bool :=
  match s with
  | [] => false
  | c :: r => ((c =? ch_lt) && has_gt r) || has_tag r
  end.

(** [str.startsWith(p)] *)
Fixpoint startsWith (p s : jsstring) : bool :=
  match p, s with
  | [], _ => true
  | _ :: _, [] => false
  | a :: p', b :: s' => (a =? b) && startsWith p' s'
  end.

(** [str.includes(p)] *)
Fixpoint includes (p s : jsstring) : bool :=
  startsWith p s ||
  match s with
  | [] => false
  | _ :: s' => includes p s'
  end.

(** Truthiness of a string: non-empty. *)
Definition truthy (s : jsstring) : bool :=
  match s with [] => false | _ => true end.

(** Truthiness of an optional string ([undefined] is falsy). *)
Definition truthy_opt (o : option jsstring) : bool :=
  match o with Some s => truthy s | None => false end.

(** [Number.prototype.toString()] on an integer. *)
Definition showN (n : N) : jsstring :=
  js (NilZero.string_of_uint (N.to_uint n)).

Definition showZ (z : Z) : jsstring :=
  if (z <? 0)%Z then 45 :: showN (Z.to_N (- z)) else showN (Z.to_N z).

(** [s.padStart(3, "0")] *)
Definition padStart3 (s : jsstring) : jsstring :=
  List.repeat 48 (3 - List.length s)%nat ++ s.

(** [arr.join(", ")] *)
Fixpoint join (sep : jsstring) (l : list jsstring) : jsstring :=
  match l with
  | [] => []
  | [x] => x
  | x :: r => x ++ sep ++ join sep r
  end.

End JsString.
Import JsString.

(* ===================================================================== *)
(** ** Data model ([shared/dao], as the routes use it) *)
(* ===================================================================== *)

Local Open Scope Z_scope.

Inductive Role := chef_equipe | membre_equipe.

#[global] Instance Role_eq_dec : EqDecision Role.
Proof. solve_decision. Defined.

Definition showRole (r : Role) : jsstring :=
  match r with
  | chef_equipe => js "chef_equipe"
  | membre_equipe => js "membre_equipe"
  end.

Record TeamMember := mkMember {
  member_id : jsstring;
  member_name : jsstring;
  role : Role;
  email : option jsstring;
}.

Record DaoTask := mkTask {
  task_id : Z;
  task_name : jsstring;
  progress : option Z;               (* number | null *)
  comment : option jsstring;         (* comment?: string *)
  isApplicable : bool;
  assignedTo : option jsstring;      (* assignedTo?: string *)
  lastUpdatedBy : option jsstring;
  lastUpdatedAt : option jsstring;
}.

Record Dao := mkDao {
  dao_id : jsstring;
  numeroListe : jsstring;
  objetDossier : jsstring;
  reference : jsstring;
  autoriteContractante : jsstring;
  dateDepot : jsstring;
  equipe : list TeamMember;
  tasks : list DaoTask;
  createdAt : jsstring;
  updatedAt : jsstring;
}.

(** [Partial<Dao>] as the routes build it: the fields an update may carry. *)
Record DaoUpdates := mkUpdates {
  u_numeroListe : option jsstring;
  u_objetDossier : option jsstring;
  u_reference : option jsstring;
  u_autoriteContractante : option jsstring;
  u_equipe : option (list TeamMember);
  u_tasks : option (list DaoTask);
}.

Definition no_updates : DaoUpdates := mkUpdates None None None None None None.

Definition only_tasks (ts : list DaoTask) : DaoUpdates :=
  mkUpdates None None None None None (Some ts).

(** Notification kinds consumed by the client. *)
Inductive NotifKind :=
| role_update | comment_added | comment_updated | comment_deleted
| task_created | task_deleted | task_updated | task_assigned
| task_unassigned | dao_created | dao_updated | task_reordered | system.

#[global] Instance NotifKind_eq_dec : EqDecision NotifKind.
Proof. solve_decision. Defined.

(** The opaque payload object of a notification. *)
Record Payload := mkPayload {
  p_daoId : jsstring;
  p_taskId : option Z;
  p_changes : option (list jsstring);
  p_changedFields : option (list jsstring);
  p_assignedTo : option jsstring;
}.

Definition payload_dao (daoId : jsstring) : Payload :=
  mkPayload daoId None None None None.

Definition payload_task (daoId : jsstring) (taskId : Z) : Payload :=
  mkPayload daoId (Some taskId) None None None.

Record Notification := mkNotification {
  n_kind : NotifKind;
  n_title : jsstring;
  n_message : jsstring;
  n_data : Payload;
}.

(** The argument of [sendMail]. *)
Record Mail := mkMail {
  mail_to : jsstring;
  mail_subject : jsstring;
  mail_text : jsstring;
  mail_html : jsstring;
}.

Record AuthUser := mkUser {
  user_id : jsstring;
  user_email : jsstring;
}.

(** A task as a request or the default template carries it ([t: any] in the
    create route): the id may be missing or not a number. *)
Record TaskInput := mkTaskInput {
  in_id : option Z;
  in_name : jsstring;
  in_progress : option Z;
  in_comment : option jsstring;
  in_isApplicable : bool;
  in_assignedTo : option jsstring;
}.

(** Modules loaded with [await import(...)]. *)
Inductive ServiceModule := notificationService | authService | emailService.

(* ===================================================================== *)
(** ** World, environment and the effect monad *)
(* ===================================================================== *)

(** What a request can change. *)
Record World := mkWorld {
  daos : list Dao;                    (* daoStorage: the in-memory array *)
  notifications : list Notification;  (* published in-app events, oldest first *)
  outbox : list Mail;                 (* every call of sendMail, oldest first *)
}.

(** What a request reads from outside the routes.  Every collaborator may
    throw; whether it does may depend on everything that happened so far.
    The engine bounds the number of arguments of a call: spreading a longer
    list into one ([Math.max(...ids)]) throws a [RangeError]. *)
Record Env := mkEnv {
  nowISO : jsstring;                              (* new Date().toISOString() *)
  nowMs : Z;                                      (* Date.now() *)
  fullYear : Z;                                   (* new Date().getFullYear() *)
  DEFAULT_TASKS : list TaskInput;                 (* shared/dao *)
  brandWrap : jsstring -> jsstring -> jsstring;   (* HTML frame of a mail *)
  importThrows : World -> ServiceModule -> bool;
  broadcastThrows : World -> Notification -> bool;
  allUsers : World -> option (list AuthUser);     (* None: getAllUsers throws *)
  sendMailThrows : World -> Mail -> bool;
  spreadThrows : nat -> bool;   (* f(...args) with that many arguments throws *)
}.

Inductive JsError :=
| ZodError (details : list (jsstring * jsstring))
| OtherError.

Inductive Outcome (A : Type) :=
| Ret (a : A)
| Throw (err : JsError).
Arguments Ret {A} a.
Arguments Throw {A} err.

(** A computation reads the environment, changes the world, and either
    returns or throws.  What it did to the world before throwing stays. *)
Definition Eff (A : Type) : Type := Env -> World -> Outcome A * World.

Definition ret {A} (a : A) : Eff A := fun _ w => (Ret a, w).

Definition throw {A} (err : JsError) : Eff A := fun _ w => (Throw err, w).

Definition bind {A B} (m : Eff A) (k : A -> Eff B) : Eff B :=
  fun e w =>
    match m e w with
    | (Ret a, w') => k a e w'
    | (Throw err, w') => (Throw err, w')
    end.

(** [try { m } catch (err) { h err }] *)
Definition try_catch {A} (m : Eff A) (h : JsError -> Eff A) : Eff A :=
  fun e w =>
    match m e w with
    | (Ret a, w') => (Ret a, w')
    | (Throw err, w') => h err e w'
    end.

(** [try { m } catch (_) {}] *)
Definition try_ (m : Eff unit) : Eff unit := try_catch m (fun _ => ret tt).

Definition ask : Eff Env := fun e w => (Ret e, w).
Definition get : Eff World := fun _ w => (Ret w, w).
Definition put (w : World) : Eff unit := fun _ _ => (Ret tt, w).

Declare Scope eff_scope.
Delimit Scope eff_scope with eff.
Notation "x <- m ;; k" := (bind m (fun x => k))
  (at level 100, m at next level, right associativity) : eff_scope.
Notation "m ;; k" := (bind m (fun _ => k))
  (at level 100, right associativity) : eff_scope.
Local Open Scope eff_scope.

(** [for (const x of l) body x] *)
Fixpoint for_each {A} (l : list A) (body : A -> Eff unit) : Eff unit :=
  match l with
  | [] => ret tt
  | x :: r => body x ;; for_each r body
  end.

(** A loop that carries the value of a local variable. *)
Fixpoint for_fold {A S} (l : list A) (s : S) (body : S -> A -> Eff S) : Eff S :=
  match l with
  | [] => ret s
  | x :: r => s' <- body s x ;; for_fold r s' body
  end.

Definition when (b : bool) (m : Eff unit) : Eff unit :=
  if b then m else ret tt.

(** *** Collaborators *)

(** [await import("../services/...")] *)
Definition import_ (m : ServiceModule) : Eff unit :=
  fun e w => if importThrows e w m then (Throw OtherError, w) else (Ret tt, w).

(** [NotificationService.broadcast(kind, title, message, payload)]:
    publishes one event, or throws and publishes nothing. *)
Definition broadcast (k : NotifKind) (title message : jsstring) (data : Payload)
  : Eff unit :=
  fun e w =>
    let n := mkNotification k title message data in
    if broadcastThrows e w n then (Throw OtherError, w)
    else (Ret tt, mkWorld (daos w) (notifications w ++ [n]) (outbox w)).

(** [AuthService.getAllUsers()] *)
Definition getAllUsers : Eff (list AuthUser) :=
  fun e w =>
    match allUsers e w with
    | Some us => (Ret us, w)
    | None => (Throw OtherError, w)
    end.

(** [sendMail({to, subject, text, html})]: the attempt is recorded, then the
    transport accepts the mail or throws. *)
Definition sendMail (m : Mail) : Eff unit :=
  fun e w =>
    let w' := mkWorld (daos w) (notifications w) (outbox w ++ [m]) in
    if sendMailThrows e w m then (Throw OtherError, w') else (Ret tt, w').

(* ===================================================================== *)
(** ** EmailService *)
(* ===================================================================== *)

Module EmailService.

(** [async sendNotificationEmail(to, subject, body)] *)
Definition sendNotificationEmail (to subject body : jsstring) : Eff unit :=
  e <- ask ;;
  let inner :=
    js "<p style=" ++ dq ++ js "margin:0; white-space:pre-wrap;" ++ dq
       ++ js ">" ++ body ++ js "</p>" in
  let html := brandWrap e inner subject in
  let text := body in
  sendMail (mkMail to subject text html).

(** [new Set(list)] followed by [Array.from]: every value once, in the order
    of first insertion. *)
Fixpoint set_from (seen : list jsstring) (l : list jsstring) : list jsstring :=
  match l with
  | [] => []
  | x :: r =>
      if bool_decide (x ∈ seen) then set_from seen r
      else x :: set_from (x :: seen) r
  end.

(** [Array.from(new Set(toList.filter(Boolean)))] *)
Definition unique_recipients (toList : list jsstring) : list jsstring :=
  set_from [] (List.filter truthy toList).

(** [async sendBulkNotification(toList, subject, body)]; the result is the
    [sent] field of the returned object. *)
Definition sendBulkNotification (toList : list jsstring) (subject body : jsstring)
  : Eff nat :=
  let unique := unique_recipients toList in
  for_each unique (fun to => try_ (sendNotificationEmail to subject body)) ;;
  ret (List.length unique).

(** [buildResetEmailHtml(code)]: the markup handed to [brandWrap]. *)
Definition reset_inner (code : jsstring) : jsstring :=
  [10%N] ++ js "    <p>Voici votre code de vérification&nbsp;:</p>" ++ [10%N]
  ++ js "    <div style=" ++ dq
  ++ js "display:inline-block; font-size:22px; letter-spacing:4px; font-weight:700; background:#111827; color:#fff; padding:10px 14px; border-radius:8px;"
  ++ dq ++ js ">" ++ code ++ js "</div>" ++ [10%N]
  ++ js "    <p style=" ++ dq ++ js "margin-top:16px;" ++ dq
  ++ js ">Ce code est valable 15 minutes. Ne le partagez avec personne.</p>"
  ++ [10%N]
  ++ js "    <p style=" ++ dq ++ js "font-size:12px;color:#6b7280;margin-top:24px;"
  ++ dq
  ++ js ">Si vous n'êtes pas à l'origine de cette demande, vous pouvez ignorer cet email.</p>"
  ++ [10%N] ++ js "  ".

(** [async sendPasswordResetEmail(email, code)] *)
Definition sendPasswordResetEmail (email code : jsstring) : Eff unit :=
  e <- ask ;;
  let subject := js "Réinitialisation du mot de passe" in
  let text :=
    js "Code de vérification: " ++ code ++ [10%N] ++ js "Valable 15 minutes." in
  let html :=
    brandWrap e (reset_inner code) (js "Réinitialisation du mot de passe") in
  sendMail (mkMail email subject text html).

End EmailService.

(* ===================================================================== *)
(** ** Storage and DaoService (in-memory mode) *)
(* ===================================================================== *)

Module daoStorage.

(** Modelled from the spec: [data/daoStorage], the shared in-memory array
    behind [DaoService] with its helper operations (spec 4.1 and 5: find
    all, find by id, add, update at index, delete).  A lookup by id returns
    the first case file with that id; [add] appends; [updateAtIndex]
    replaces the element.  The spec takes the ids of the stored case files
    to be distinct; for an id stored twice it does not say which case file
    a lookup returns. *)
Definition getAll : Eff (list Dao) :=
  w <- get ;; ret (daos w).

Definition find_dao (id : jsstring) (l : list Dao) : option (nat * Dao) :=
  list_find (fun d => dao_id d = id) l.

Definition findById (id : jsstring) : Eff (option Dao) :=
  w <- get ;; ret (snd <$> find_dao id (daos w)).

Definition findIndexById (id : jsstring) : Eff (option nat) :=
  w <- get ;; ret (fst <$> find_dao id (daos w)).

Definition set_daos (l : list Dao) : Eff unit :=
  w <- get ;; put (mkWorld l (notifications w) (outbox w)).

Definition add (d : Dao) : Eff unit :=
  w <- get ;; set_daos (daos w ++ [d]).

Definition updateAtIndex (i : nat) (d : Dao) : Eff unit :=
  w <- get ;; set_daos (<[i := d]> (daos w)).

Definition with_tasks (d : Dao) (ts : list DaoTask) : Dao :=
  mkDao (dao_id d) (numeroListe d) (objetDossier d) (reference d)
        (autoriteContractante d) (dateDepot d) (equipe d) ts
        (createdAt d) (updatedAt d).

(** A route that changes [dao.tasks] of the object it got from [findById]
    changes the stored object itself (the array holds that very object). *)
Definition mutate_tasks (id : jsstring) (ts : list DaoTask) : Eff unit :=
  w <- get ;;
  match find_dao id (daos w) with
  | Some (i, d) => set_daos (<[i := with_tasks d ts]> (daos w))
  | None => ret tt
  end.

End daoStorage.

Module DaoService.

Definition is_digit (c : N) : bool := ((48 <=? c) && (c <=? 57))%N.

(** *** The pattern [/DAO-\d{4}-(\d{3})/] *)

(** A literal at the head of the string: the rest after it. *)
Definition lit (p s : jsstring) : option jsstring :=
  if startsWith p s then Some (drop (List.length p) s) else None.

(** [\d{n}] at the head of the string: the digits and the rest. *)
Fixpoint digits (n : nat) (s : jsstring) : option (jsstring * jsstring) :=
  match n with
  | O => Some ([], s)
  | S n' =>
      match s with
      | c :: r =>
          if is_digit c then
            '(m, r') ← digits n' r; Some (c :: m, r')
          else None
      | [] => None
      end
  end.

(** The pattern matched at the head of [s]: its capture group. *)
Definition match_here (s : jsstring) : option jsstring :=
  r1 ← lit (js "DAO-") s;
  '(_, r2) ← digits 4 r1;
  r3 ← lit (js "-") r2;
  '(g, _) ← digits 3 r3;
  Some g.

(** [s.match(/DAO-\d{4}-(\d{3})/)?.[1]]: the capture of the leftmost match,
    [undefined] when the pattern matches nowhere. *)
Fixpoint regex_match (s : jsstring) : option jsstring :=
  match match_here s with
  | Some g => Some g
  | None =>
      match s with
      | [] => None
      | _ :: r => regex_match r
      end
  end.

Fixpoint parse_digits (acc : Z) (s : jsstring) : Z :=
  match s with
  | c :: r =>
      if is_digit c then parse_digits (acc * 10 + (Z.of_N c - 48)) r else acc
  | [] => acc
  end.

Definition parse_unsigned (s : jsstring) : option Z :=
  match s with
  | c :: _ => if is_digit c then Some (parse_digits 0 s) else None
  | [] => None
  end.

(** [parseInt(s, 10)]: leading blanks, an optional sign, then the longest
    run of decimal digits; [None] is [NaN]. *)
Definition parseInt10 (s : jsstring) : option Z :=
  match trimStart s with
  | [] => None
  | c :: r =>
      if (c =? 45)%N then Z.opp <$> parse_unsigned r
      else if (c =? 43)%N then parse_unsigned r
      else parse_unsigned (c :: r)
  end.

(** [Math.max(x, ...xs)] *)
Definition Math_max (x : Z) (xs : list Z) : Z := fold_left Z.max xs x.

(** [`DAO-${year}-`] *)
Definition year_prefix (year : Z) : jsstring :=
  js "DAO-" ++ showZ year ++ js "-".

(** The numbers read from the retained case files:
    [.map(d => d.numeroListe.match(...)?.[1])
     .map(n => n ? parseInt(n, 10) : 0).filter(n => !isNaN(n))] *)
Definition suffix_numbers (existing : list Dao) : list Z :=
  omap (fun o : option Z => o)
    (List.map (fun n : option jsstring =>
                 if truthy_opt n then parseInt10 (default [] n) else Some 0)
       (List.map (fun d => regex_match (numeroListe d)) existing)).

(** The pure core of [generateNextDaoNumber]: the year and the stored case
    files in, the number out. *)
Definition next_dao_number (year : Z) (all : list Dao) : jsstring :=
  let existing :=
    List.filter (fun d => startsWith (year_prefix year) (numeroListe d)) all in
  match existing with
  | [] => year_prefix year ++ js "001"
  | _ :: _ =>
      let next :=
        match suffix_numbers existing with
        | n :: ns => Math_max n ns + 1
        | [] => 1
        end in
      year_prefix year ++ padStart3 (showZ next)
  end.

(** [static async generateNextDaoNumber()] *)
Definition generateNextDaoNumber : Eff jsstring :=
  e <- ask ;;
  let year := fullYear e in
  all <- daoStorage.getAll ;;
  ret (next_dao_number year all).

(** [static async getDaoById(id)] *)
Definition getDaoById (id : jsstring) : Eff (option Dao) :=
  daoStorage.findById id.

(** [Omit<Dao, "id" | "createdAt" | "updatedAt">] *)
Record DaoData := mkDaoData {
  data_numeroListe : jsstring;
  data_objetDossier : jsstring;
  data_reference : jsstring;
  data_autoriteContractante : jsstring;
  data_dateDepot : jsstring;
  data_equipe : list TeamMember;
  data_tasks : list DaoTask;
}.

(** [static async createDao(daoData)] *)
Definition createDao (daoData : DaoData) : Eff Dao :=
  e <- ask ;;
  let id := showZ (nowMs e) in
  let now := nowISO e in
  numero <-
    (if negb (truthy (data_numeroListe daoData))
        || includes (js "001") (data_numeroListe daoData)
     then generateNextDaoNumber
     else ret (data_numeroListe daoData)) ;;
  let newDao :=
    mkDao id numero (data_objetDossier daoData) (data_reference daoData)
      (data_autoriteContractante daoData) (data_dateDepot daoData)
      (data_equipe daoData) (data_tasks daoData) now now in
  daoStorage.add newDao ;;
  ret newDao.

(** [{ ...existing, ...updates, updatedAt }] *)
Definition merge (existing : Dao) (updates : DaoUpdates) (now : jsstring) : Dao :=
  mkDao (dao_id existing)
    (default (numeroListe existing) (u_numeroListe updates))
    (default (objetDossier existing) (u_objetDossier updates))
    (default (reference existing) (u_reference updates))
    (default (autoriteContractante existing) (u_autoriteContractante updates))
    (dateDepot existing)
    (default (equipe existing) (u_equipe updates))
    (default (tasks existing) (u_tasks updates))
    (createdAt existing)
    now.

(** [static async updateDao(id, updates)]: [findIndexById] and [findById]
    read the same array, so both come from one lookup. *)
Definition updateDao (id : jsstring) (updates : DaoUpdates) : Eff (option Dao) :=
  e <- ask ;;
  w <- get ;;
  match daoStorage.find_dao id (daos w) with
  | None => ret None
  | Some (index, existing) =>
      let updated := merge existing updates (nowISO e) in
      daoStorage.updateAtIndex index updated ;;
      ret (Some updated)
  end.

End DaoService.

(* ===================================================================== *)
(** ** Requests and responses *)
(* ===================================================================== *)

(** An element of a JSON array that should hold task ids: an integer, or
    anything else (a string, a fraction, null, ...), which is never equal
    ([===], [includes]) to a stored task id. *)
Inductive JsValue :=
| JNum (z : Z)
| JOther.

Definition js_is (v : JsValue) (z : Z) : bool :=
  match v with
  | JNum z' => bool_decide (z' = z)
  | JOther => false
  end.

(** The JSON bodies the routes send. *)
Inductive Body :=
| JsonDao (dao : option Dao)
| JsonError (error code : jsstring)
| JsonValidation (error : jsstring) (details : list (jsstring * jsstring))
    (code : jsstring)
| JsonInvalidIds (error code : jsstring) (invalidIds : list JsValue)
| JsonDeleted (message : jsstring) (deleted_id : Z) (deleted_name : jsstring)
    (dao : option Dao).

Record Response := mkResponse {
  status : Z;
  body : Body;
}.

(** The outcome of [schema.parse(req.body)]: the typed value, or the
    per-field messages of the [ZodError] it throws.  The schemas are a
    validate-or-reject contract; their output types are the records below. *)
Inductive Parsed (T : Type) :=
| Valid (v : T)
| Invalid (details : list (jsstring * jsstring)).
Arguments Valid {T} v.
Arguments Invalid {T} details.

Definition parse {T} (p : Parsed T) : Eff T :=
  match p with
  | Valid v => ret v
  | Invalid d => throw (ZodError d)
  end.

(** [createDaoSchema] *)
Record CreateDaoBody := mkCreateDaoBody {
  c_numeroListe : jsstring;
  c_objetDossier : jsstring;
  c_reference : jsstring;
  c_autoriteContractante : jsstring;
  c_dateDepot : jsstring;
  c_equipe : list TeamMember;
  c_tasks : option (list DaoTask);
}.

(** [updateDaoSchema = createDaoSchema.partial()] *)
Record UpdateDaoBody := mkUpdateDaoBody {
  v_numeroListe : option jsstring;
  v_objetDossier : option jsstring;
  v_reference : option jsstring;
  v_autoriteContractante : option jsstring;
  v_dateDepot : option jsstring;
  v_equipe : option (list TeamMember);
  v_tasks : option (list DaoTask);
}.

(** [taskUpdateSchema] *)
Record TaskUpdateBody := mkTaskUpdateBody {
  tu_progress : option Z;
  tu_comment : option jsstring;
  tu_isApplicable : option bool;
  tu_assignedTo : option jsstring;
}.

(** [createTaskSchema] *)
Record CreateTaskBody := mkCreateTaskBody {
  ct_name : jsstring;
  ct_isApplicable : bool;
  ct_progress : option Z;
  ct_comment : option jsstring;
  ct_assignedTo : option jsstring;
}.

(** [!id || id.length > 100] *)
Definition bad_id (id : jsstring) : bool :=
  negb (truthy id) || (100 <? Z.of_nat (List.length id)).

(** A route reads [parseInt(taskId)] as an [option Z] ([None] is [NaN]) and
    rejects [isNaN(parsedTaskId) || parsedTaskId < 1]. *)

Definition error_response (st : Z) (error code : string) : Response :=
  mkResponse st (JsonError (js error) (js code)).

Definition validation_response (details : list (jsstring * jsstring)) : Response :=
  mkResponse 400
    (JsonValidation (js "Validation error") details (js "VALIDATION_ERROR")).

(** *** JavaScript [Map], in insertion order *)

Section JsMap.
Context {K V : Type} `{EqDecision K}.

Definition Map_get (k : K) (m : list (K * V)) : option V :=
  snd <$> (snd <$> list_find (fun kv => fst kv = k) m).

Definition Map_has (k : K) (m : list (K * V)) : bool :=
  bool_decide (is_Some (Map_get k m)).

(** [map.set(k, v)]: a known key keeps its place and takes the new value. *)
Definition Map_set (k : K) (v : V) (m : list (K * V)) : list (K * V) :=
  match list_find (fun kv => fst kv = k) m with
  | Some (i, _) => <[i := (k, v)]> m
  | None => m ++ [(k, v)]
  end.

(** [new Map(entries)] *)
Definition Map_from (entries : list (K * V)) : list (K * V) :=
  fold_left (fun m kv => Map_set (fst kv) (snd kv) m) entries [].

End JsMap.

Definition nonempty {A} (l : list A) : bool :=
  match l with [] => false | _ => true end.

(** [users.map((u) => u.email)] *)
Definition emails_of (users : list AuthUser) : list jsstring :=
  List.map user_email users.

(* ===================================================================== *)
(** ** routes/dao-simple.ts *)
(* ===================================================================== *)

Module DaoRoutes.

Import EmailService.

(** *** POST /api/dao *)

(** [{ ...task, progress: null, comment: "" }] *)
Definition seed_task (task : TaskInput) : TaskInput :=
  mkTaskInput (in_id task) (in_name task) None (Some [])
    (in_isApplicable task) (in_assignedTo task).

(** A schema-validated task seen as [t: any]: its id is a number. *)
Definition as_input (t : DaoTask) : TaskInput :=
  mkTaskInput (Some (task_id t)) (task_name t) (progress t) (comment t)
    (isApplicable t) (assignedTo t).

(** The second [.map((t, idx) => ...)] of the create route. *)
Definition stamp_task (user now : jsstring) (idx : nat) (t : TaskInput) : DaoTask :=
  mkTask
    (default (Z.of_nat idx + 1) (in_id t))
    (sanitizeString (in_name t))
    (if in_isApplicable t then in_progress t else None)
    (if truthy_opt (in_comment t) then sanitizeString <$> in_comment t else None)
    (in_isApplicable t)
    (in_assignedTo t)
    (Some user)
    (Some now).

(** [validatedData.tasks && validatedData.tasks.length ? validatedData.tasks
     : DEFAULT_TASKS.map(...)] *)
Definition task_source (defaults : list TaskInput) (supplied : option (list DaoTask))
  : list TaskInput :=
  match supplied with
  | Some (t :: ts) => List.map as_input (t :: ts)
  | _ => List.map seed_task defaults
  end.

Definition initial_tasks (defaults : list TaskInput) (supplied : option (list DaoTask))
    (user now : jsstring) : list DaoTask :=
  imap (stamp_task user now) (task_source defaults supplied).

Definition sanitize_member (m : TeamMember) : TeamMember :=
  mkMember (member_id m) (sanitizeString (member_name m)) (role m) (email m).

Definition notify_created (newDao : Dao) : Eff unit :=
  import_ notificationService ;;
  import_ authService ;;
  import_ emailService ;;
  broadcast dao_created (js "Nouveau DAO créé")
    (numeroListe newDao ++ js " – " ++ objetDossier newDao)
    (payload_dao (dao_id newDao)) ;;
  users <- getAllUsers ;;
  sendBulkNotification (emails_of users) (js "Nouveau DAO")
    (js "Un nouveau DAO a été créé: " ++ numeroListe newDao ++ js " – "
       ++ objetDossier newDao ++ js ".") ;;
  ret tt.

(** The route's [catch] also maps a duplicate-key error of the database
    (code 11000) to 400 DUPLICATE_NUMBER; the in-memory store never raises
    it. *)
Definition create_dao (req_body : Parsed CreateDaoBody) (user : jsstring)
  : Eff Response :=
  try_catch
    (validatedData <- parse req_body ;;
     e <- ask ;;
     let now := nowISO e in
     let tasks :=
       initial_tasks (DEFAULT_TASKS e) (c_tasks validatedData) user now in
     newDao <- DaoService.createDao
       (DaoService.mkDaoData
          (sanitizeString (c_numeroListe validatedData))
          (sanitizeString (c_objetDossier validatedData))
          (sanitizeString (c_reference validatedData))
          (sanitizeString (c_autoriteContractante validatedData))
          (c_dateDepot validatedData)
          (List.map sanitize_member (c_equipe validatedData))
          tasks) ;;
     try_ (notify_created newDao) ;;
     ret (mkResponse 201 (JsonDao (Some newDao))))
    (fun error =>
       match error with
       | ZodError details => ret (validation_response details)
       | OtherError => ret (error_response 500 "Failed to create DAO" "CREATE_ERROR")
       end).

(** *** PUT /api/dao/:id *)

(** [if (validatedData.x) updates.x = sanitizeString(validatedData.x)] *)
Definition sanitized_field (o : option jsstring) : option jsstring :=
  if truthy_opt o then sanitizeString <$> o else None.

Definition updates_of (validatedData : UpdateDaoBody) : DaoUpdates :=
  mkUpdates
    (sanitized_field (v_numeroListe validatedData))
    (sanitized_field (v_objetDossier validatedData))
    (sanitized_field (v_reference validatedData))
    (sanitized_field (v_autoriteContractante validatedData))
    (List.map sanitize_member <$> v_equipe validatedData)
    (v_tasks validatedData).

(** The team difference: additions and role changes in the order of the new
    team, then removals in the order of the old one. *)
Definition team_changes (before_equipe after_equipe : list TeamMember)
  : list jsstring :=
  let beforeMap := Map_from (List.map (fun m => (member_id m, m)) before_equipe) in
  let afterMap := Map_from (List.map (fun m => (member_id m, m)) after_equipe) in
  flat_map
    (fun kv : jsstring * TeamMember =>
       let after := snd kv in
       match Map_get (fst kv) beforeMap with
       | None => [member_name after ++ js " ajouté"]
       | Some prev =>
           if bool_decide (role prev <> role after) then
             [member_name after ++ js ": " ++ showRole (role prev) ++ js " → "
                ++ showRole (role after)]
           else []
       end)
    afterMap
  ++ flat_map
       (fun kv : jsstring * TeamMember =>
          if Map_has (fst kv) afterMap then []
          else [member_name (snd kv) ++ js " retiré"])
       beforeMap.

(** [updated.equipe.concat(before.equipe).filter(m => m.email)
     .map(m => m.email).slice(0, 50)] *)
Definition team_emails (updated before : Dao) : list jsstring :=
  take 50
    (omap (fun m => if truthy_opt (email m) then email m else None)
       (equipe updated ++ equipe before)).

Definition notify_team (before updated : Dao) : Eff unit :=
  let changed := team_changes (equipe before) (equipe updated) in
  when (nonempty changed)
    (broadcast role_update (js "Modification de l'équipe")
       (join (js ", ") changed)
       (mkPayload (dao_id updated) None (Some changed) None None) ;;
     let emails := team_emails updated before in
     when (nonempty emails)
       (sendBulkNotification emails (js "Mise à jour de l'équipe du DAO")
          (js "Modifications: " ++ join (js ", ") changed) ;;
        ret tt)).

Definition Oui_Non (b : bool) : jsstring := if b then js "Oui" else js "Non".

(** The per-task difference computed by the case-file update. *)
Definition dao_task_diffs (prev t : DaoTask) : list jsstring :=
  (if bool_decide (isApplicable prev <> isApplicable t) then
     [js "applicabilité " ++ Oui_Non (isApplicable prev) ++ js " → "
        ++ Oui_Non (isApplicable t)]
   else [])
  ++ (let p1 := default 0 (progress prev) in
      let p2 := default 0 (progress t) in
      if bool_decide (p1 <> p2) && isApplicable t then
        [js "progression " ++ showZ p1 ++ js "% → " ++ showZ p2 ++ js "%"]
      else [])
  ++ (if bool_decide (comment prev <> comment t) then [js "commentaire modifié"]
      else [])
  ++ (if bool_decide (assignedTo prev <> assignedTo t) then
        [if truthy_opt (assignedTo prev) then
           js "réassignée (" ++ default [] (assignedTo prev) ++ js " → "
             ++ default (js "aucun") (assignedTo t) ++ js ")"
         else js "assignée à " ++ default (js "aucun") (assignedTo t)]
      else []).

(** One round of [for (const t of updated.tasks)]; the carried value is the
    local [hasTaskChanges]. *)
Definition notify_task_of_dao (id : jsstring) (before updated : Dao)
    (hasTaskChanges : bool) (t : DaoTask) : Eff bool :=
  let byIdBefore := Map_from (List.map (fun t => (task_id t, t)) (tasks before)) in
  match Map_get (task_id t) byIdBefore with
  | None => ret hasTaskChanges
  | Some prev =>
      let diffs := dao_task_diffs prev t in
      if nonempty diffs then
        broadcast task_updated (js "Tâche mise à jour")
          (js "DAO " ++ numeroListe updated ++ js " – Tâche #"
             ++ showZ (task_id t) ++ js " (" ++ task_name t ++ js "): "
             ++ join (js ", ") diffs)
          (mkPayload id (Some (task_id t)) (Some diffs) None None) ;;
        try_
          (import_ authService ;;
           users <- getAllUsers ;;
           sendBulkNotification (emails_of users) (js "Tâche mise à jour")
             (js "DAO " ++ numeroListe updated ++ js " – Tâche #"
                ++ showZ (task_id t) ++ js " (" ++ task_name t
                ++ js ") mise à jour: " ++ join (js ", ") diffs ++ js ".") ;;
           ret tt) ;;
        ret true
      else ret hasTaskChanges
  end.

(** The first [try] block of the update route; its value is what it leaves
    in [res.hasTaskChanges]. *)
Definition notify_changes (id : jsstring) (validatedData : UpdateDaoBody)
    (before : option Dao) (updated : Dao) : Eff bool :=
  import_ notificationService ;;
  import_ emailService ;;
  match before, v_equipe validatedData with
  | Some b, Some _ => notify_team b updated
  | _, _ => ret tt
  end ;;
  match before, v_tasks validatedData with
  | Some b, Some _ =>
      for_fold (tasks updated) false (notify_task_of_dao id b updated)
  | _, _ => ret false
  end.

Definition changed_fields (before updated : Dao) : list jsstring :=
  (if bool_decide (numeroListe before <> numeroListe updated)
   then [js "numéro de liste"] else [])
  ++ (if bool_decide (objetDossier before <> objetDossier updated)
      then [js "objet du dossier"] else [])
  ++ (if bool_decide (reference before <> reference updated)
      then [js "référence"] else [])
  ++ (if bool_decide (autoriteContractante before <> autoriteContractante updated)
      then [js "autorité contractante"] else [])
  ++ (if bool_decide (dateDepot before <> dateDepot updated)
      then [js "date de dépôt"] else []).

(** The second [try] block; [flag] is [res.hasTaskChanges] ([None]:
    undefined, the first block did not reach its last statement). *)
Definition notify_updated (before : option Dao) (updated : Dao)
    (flag : option bool) : Eff unit :=
  import_ notificationService ;;
  let changedFields :=
    match before with
    | Some b => changed_fields b updated
    | None => []
    end in
  let hasTaskChanges := bool_decide (flag = Some true) in
  when (nonempty changedFields || negb hasTaskChanges)
    (broadcast dao_updated (js "DAO mis à jour")
       (if nonempty changedFields then
          js "DAO " ++ numeroListe updated ++ js " – Champs modifiés: "
            ++ join (js ", ") changedFields
        else js "DAO " ++ numeroListe updated ++ js " modifié")
       (mkPayload (dao_id updated) None None (Some changedFields) None) ;;
     import_ authService ;;
     import_ emailService ;;
     users <- getAllUsers ;;
     sendBulkNotification (emails_of users) (js "DAO mis à jour")
       (if nonempty changedFields then
          js "Le DAO " ++ numeroListe updated
            ++ js " a été mis à jour. Champs modifiés: "
            ++ join (js ", ") changedFields ++ js "."
        else js "Le DAO " ++ numeroListe updated ++ js " a été modifié.") ;;
     ret tt).

Definition update_dao (id : jsstring) (req_body : Parsed UpdateDaoBody)
  : Eff Response :=
  try_catch
    (if bad_id id then ret (error_response 400 "Invalid DAO ID" "INVALID_ID")
     else
       validatedData <- parse req_body ;;
       let updates := updates_of validatedData in
       before <- DaoService.getDaoById id ;;
       updated <- DaoService.updateDao id updates ;;
       match updated with
       | None => ret (error_response 404 "DAO not found" "DAO_NOT_FOUND")
       | Some updated =>
           flag <- try_catch
                     (b <- notify_changes id validatedData before updated ;;
                      ret (Some b))
                     (fun _ => ret None) ;;
           try_ (notify_updated before updated flag) ;;
           ret (mkResponse 200 (JsonDao (Some updated)))
       end)
    (fun error =>
       match error with
       | ZodError details => ret (validation_response details)
       | OtherError => ret (error_response 500 "Failed to update DAO" "UPDATE_ERROR")
       end).

(** *** PUT /api/dao/:id/tasks/reorder *)

Definition notify_reordered (id : jsstring) (dao : Dao) : Eff unit :=
  import_ notificationService ;;
  import_ authService ;;
  import_ emailService ;;
  broadcast task_reordered (js "Réorganisation des tâches")
    (js "Les tâches du DAO " ++ numeroListe dao ++ js " ont été réordonnées")
    (payload_dao id) ;;
  users <- getAllUsers ;;
  sendBulkNotification (emails_of users) (js "Réorganisation des tâches")
    (js "Les tâches du DAO " ++ id ++ js " ont été réordonnées") ;;
  ret tt.

(** [taskIds.filter((tid) => !existingTaskIds.includes(tid))] *)
Definition invalid_ids (existingTaskIds : list Z) (taskIds : list JsValue)
  : list JsValue :=
  List.filter (fun tid => negb (existsb (js_is tid) existingTaskIds)) taskIds.

(** [taskIds.length !== dao.tasks.length ||
     !existingTaskIds.every((tid) => taskIds.includes(tid))] *)
Definition incomplete (dao : Dao) (taskIds : list JsValue) : bool :=
  negb (Nat.eqb (List.length taskIds) (List.length (tasks dao)))
  || negb (forallb (fun tid => existsb (fun v => js_is v tid) taskIds)
             (List.map task_id (tasks dao))).

(** [taskIds.map((taskId) => dao.tasks.find((task) => task.id === taskId)!)];
    it runs only after every id was found to exist, so [find] does not miss. *)
Definition reordered (dao : Dao) (taskIds : list JsValue) : list DaoTask :=
  omap (fun taskId => List.find (fun task => js_is taskId (task_id task)) (tasks dao))
    taskIds.

(** [taskIds] is [None] when [req.body.taskIds] is not an array. *)
Definition reorder_tasks (id : jsstring) (taskIds : option (list JsValue))
  : Eff Response :=
  try_catch
    (if bad_id id then ret (error_response 400 "Invalid DAO ID" "INVALID_DAO_ID")
     else
       match taskIds with
       | None | Some [] =>
           ret (error_response 400 "Invalid task IDs array" "INVALID_TASK_IDS")
       | Some taskIds =>
           dao <- DaoService.getDaoById id ;;
           match dao with
           | None => ret (error_response 404 "DAO not found" "DAO_NOT_FOUND")
           | Some dao =>
               let existingTaskIds := List.map task_id (tasks dao) in
               let invalidIds := invalid_ids existingTaskIds taskIds in
               if nonempty invalidIds then
                 ret (mkResponse 400
                        (JsonInvalidIds (js "Some task IDs do not exist")
                           (js "INVALID_TASK_IDS") invalidIds))
               else if incomplete dao taskIds then
                 ret (error_response 400 "Task IDs must include all existing tasks"
                        "INCOMPLETE_TASK_LIST")
               else
                 let reorderedTasks := reordered dao taskIds in
                 updated <- DaoService.updateDao id (only_tasks reorderedTasks) ;;
                 try_ (notify_reordered id dao) ;;
                 ret (mkResponse 200 (JsonDao updated))
           end
       end)
    (fun _ => ret (error_response 500 "Failed to reorder tasks" "REORDER_ERROR")).

(** *** PUT /api/dao/:id/tasks/:taskId *)

(** The four conditional assignments and the two stamps on [task]. *)
Definition apply_task_update (validatedData : TaskUpdateBody)
    (user now : jsstring) (task : DaoTask) : DaoTask :=
  mkTask
    (task_id task)
    (task_name task)
    (match tu_progress validatedData with
     | Some p => Some p
     | None => progress task
     end)
    (match tu_comment validatedData with
     | Some c => Some (sanitizeString c)
     | None => comment task
     end)
    (default (isApplicable task) (tu_isApplicable validatedData))
    (match tu_assignedTo validatedData with
     | Some a => Some (sanitizeString a)
     | None => assignedTo task
     end)
    (Some user)
    (Some now).

Definition oui_non (b : bool) : jsstring := if b then js "oui" else js "non".

(** The assignment descriptor of a change list. *)
Definition assignment_change (previous task : DaoTask) : jsstring :=
  if truthy_opt (assignedTo previous) then
    js "réassignée (" ++ default [] (assignedTo previous) ++ js " → "
      ++ default (js "aucun") (assignedTo task) ++ js ")"
  else js "assignée à " ++ default (js "aucun") (assignedTo task).

(** [changes], the precise change list of the task update. *)
Definition task_changes (previous task : DaoTask) : list jsstring :=
  (if bool_decide (default 0 (progress previous) <> default 0 (progress task))
   then [js "progression " ++ showZ (default 0 (progress previous)) ++ js "% → "
           ++ showZ (default 0 (progress task)) ++ js "%"]
   else [])
  ++ (if bool_decide (comment previous <> comment task)
      then [js "commentaire modifié"] else [])
  ++ (if bool_decide (isApplicable previous <> isApplicable task)
      then [js "applicabilité " ++ oui_non (isApplicable previous) ++ js " → "
              ++ oui_non (isApplicable task)]
      else [])
  ++ (if bool_decide (assignedTo previous <> assignedTo task)
      then [assignment_change previous task] else []).

(** [changes.join(", ") || "modification"] *)
Definition changes_text (changes : list jsstring) : jsstring :=
  let s := join (js ", ") changes in
  if truthy s then s else js "modification".

Definition notify_task_update (id : jsstring) (dao : Dao)
    (previous task : DaoTask) : Eff unit :=
  import_ notificationService ;;
  import_ emailService ;;
  let changes := task_changes previous task in
  (if bool_decide (assignedTo previous <> assignedTo task) then
     let isUnassign := negb (truthy_opt (assignedTo task)) in
     broadcast (if isUnassign then task_unassigned else task_assigned)
       (if isUnassign then js "Tâche désassignée" else js "Tâche assignée")
       (js "DAO " ++ numeroListe dao ++ js " – Tâche #" ++ showZ (task_id task)
          ++ js " (" ++ task_name task ++ js "): " ++ join (js ", ") changes)
       (mkPayload id (Some (task_id task)) None None (assignedTo task)) ;;
     let newAssignee :=
       List.find (fun m => bool_decide (Some (member_id m) = assignedTo task))
         (equipe dao) in
     match newAssignee with
     | Some m =>
         match email m with
         | Some address =>
             when (truthy address)
               (sendNotificationEmail address (js "Nouvelle tâche assignée")
                  (js "La tâche " ++ dq ++ task_name task ++ dq
                     ++ js " vous a été assignée sur le DAO " ++ numeroListe dao
                     ++ js "."))
         | None => ret tt
         end
     | None => ret tt
     end
   else
     broadcast task_updated (js "Tâche mise à jour")
       (js "DAO " ++ numeroListe dao ++ js " – Tâche #" ++ showZ (task_id task)
          ++ js " (" ++ task_name task ++ js "): " ++ changes_text changes)
       (mkPayload id (Some (task_id task)) (Some changes) None None)) ;;
  try_
    (import_ authService ;;
     users <- getAllUsers ;;
     sendBulkNotification (emails_of users) (js "Mise à jour de tâche")
       (js "DAO " ++ numeroListe dao ++ js " – Tâche #" ++ showZ (task_id task)
          ++ js " (" ++ task_name task ++ js ") mise à jour: "
          ++ changes_text changes ++ js ".") ;;
     ret tt).

(** [parsedTaskId] is the value of [parseInt(taskId)] ([None] is [NaN]).
    The route assigns to the fields of the task object it found.  A task
    list is a list of values here, and the assignment is the rewriting of
    the position found: this is what the code does when every object of the
    list occurs in it once, which is the case whenever the ids of the list
    are distinct (one object at two positions would show one id twice; a
    list gets into that state only through a reorder request that repeats
    an id of a list with repeated ids). *)
Definition update_task (id : jsstring) (parsedTaskId : option Z)
    (req_body : Parsed TaskUpdateBody) (user : jsstring) : Eff Response :=
  try_catch
    (if bad_id id then ret (error_response 400 "Invalid DAO ID" "INVALID_DAO_ID")
     else
       match parsedTaskId with
       | None => ret (error_response 400 "Invalid task ID" "INVALID_TASK_ID")
       | Some tid =>
           if tid <? 1 then ret (error_response 400 "Invalid task ID" "INVALID_TASK_ID")
           else
             validatedData <- parse req_body ;;
             dao <- DaoService.getDaoById id ;;
             match dao with
             | None => ret (error_response 404 "DAO not found" "DAO_NOT_FOUND")
             | Some dao =>
                 match list_find (fun t => task_id t = tid) (tasks dao) with
                 | None => ret (error_response 404 "Task not found" "TASK_NOT_FOUND")
                 | Some (i, previous) =>
                     e <- ask ;;
                     let task :=
                       apply_task_update validatedData user (nowISO e) previous in
                     let tasks' := <[i := task]> (tasks dao) in
                     daoStorage.mutate_tasks id tasks' ;;
                     let dao := daoStorage.with_tasks dao tasks' in
                     updated <- DaoService.updateDao id (only_tasks (tasks dao)) ;;
                     try_ (notify_task_update id dao previous task) ;;
                     ret (mkResponse 200 (JsonDao updated))
                 end
             end
       end)
    (fun error =>
       match error with
       | ZodError details => ret (validation_response details)
       | OtherError =>
           ret (error_response 500 "Failed to update task" "TASK_UPDATE_ERROR")
       end).

(** *** GET /api/dao/:id *)

Definition get_dao (id : jsstring) : Eff Response :=
  try_catch
    (if bad_id id then ret (error_response 400 "Invalid DAO ID" "INVALID_ID")
     else
       dao <- DaoService.getDaoById id ;;
       match dao with
       | None => ret (error_response 404 "DAO not found" "DAO_NOT_FOUND")
       | Some dao => ret (mkResponse 200 (JsonDao (Some dao)))
       end)
    (fun _ => ret (error_response 500 "Failed to fetch DAO" "FETCH_ERROR")).

End DaoRoutes.

(* ===================================================================== *)
(** ** routes/tasks.ts *)
(* ===================================================================== *)

Module TaskRoutes.

Import EmailService.

(** *** POST /api/dao/:daoId/tasks *)

(** A task id is a JavaScript number, an IEEE-754 double whose value is an
    integer; the model keeps that integer.  [to_double z] is the double
    nearest to the integer [z], ties going to the even significand: an
    integer of magnitude below 2^53 is a double, a larger one keeps its 53
    leading bits.  (The sum [m + 1] of a double [m] and 1 never reaches the
    range of the infinities.) *)
Definition to_double (z : Z) : Z :=
  let a := Z.abs z in
  if a <? 2 ^ 53 then z
  else
    let e := Z.log2 a - 52 in
    let q := a / 2 ^ e in
    let r := a mod 2 ^ e in
    let half := 2 ^ (e - 1) in
    let q' :=
      if r <? half then q
      else if half <? r then q + 1
      else if Z.even q then q else q + 1 in
    Z.sgn z * (q' * 2 ^ e).

(** [Number.isSafeInteger] *)
Definition safe_integer (z : Z) : Prop := - 2 ^ 53 < z < 2 ^ 53.

(** [existingIds.length > 0 ? Math.max(...existingIds) + 1 : 1], when the
    call of [Math.max] returns: the greatest id, and the double that the
    addition of 1 yields. *)
Definition new_task_id (existingIds : list Z) : Z :=
  match existingIds with
  | x :: xs => to_double (DaoService.Math_max x xs + 1)
  | [] => 1
  end.

(** [Math.max(...existingIds)] is called when the list is not empty, with
    one argument per id; it throws a [RangeError] when the engine does not
    take that many arguments. *)
Definition spread_overflows (e : Env) (existingIds : list Z) : bool :=
  nonempty existingIds && spreadThrows e (List.length existingIds).

Definition new_task (dao : Dao) (validatedData : CreateTaskBody)
    (user now : jsstring) : DaoTask :=
  mkTask
    (new_task_id (List.map task_id (tasks dao)))
    (sanitizeString (ct_name validatedData))
    (if ct_isApplicable validatedData then ct_progress validatedData else None)
    (if truthy_opt (ct_comment validatedData)
     then sanitizeString <$> ct_comment validatedData else None)
    (ct_isApplicable validatedData)
    (ct_assignedTo validatedData)
    (Some user)
    (Some now).

Definition notify_added (daoId : jsstring) (newTask : DaoTask) : Eff unit :=
  import_ notificationService ;;
  import_ authService ;;
  import_ emailService ;;
  broadcast task_created (js "Nouvelle tâche créée")
    (dq ++ task_name newTask ++ dq ++ js " a été ajoutée au DAO " ++ daoId)
    (payload_task daoId (task_id newTask)) ;;
  users <- getAllUsers ;;
  sendBulkNotification (emails_of users) (js "Nouvelle tâche")
    (js "Une nouvelle tâche " ++ dq ++ task_name newTask ++ dq
       ++ js " a été ajoutée au DAO " ++ daoId ++ js ".") ;;
  ret tt.

Definition add_task (daoId : jsstring) (req_body : Parsed CreateTaskBody)
    (user : jsstring) : Eff Response :=
  try_catch
    (if bad_id daoId then ret (error_response 400 "Invalid DAO ID" "INVALID_DAO_ID")
     else
       validatedData <- parse req_body ;;
       dao <- DaoService.getDaoById daoId ;;
       match dao with
       | None => ret (error_response 404 "DAO not found" "DAO_NOT_FOUND")
       | Some dao =>
           e <- ask ;;
           let existingIds := List.map task_id (tasks dao) in
           if spread_overflows e existingIds then throw OtherError
           else
             let newTask := new_task dao validatedData user (nowISO e) in
             updated <- DaoService.updateDao daoId
                          (only_tasks (tasks dao ++ [newTask])) ;;
             try_ (notify_added daoId newTask) ;;
             ret (mkResponse 201 (JsonDao updated))
       end)
    (fun error =>
       match error with
       | ZodError details => ret (validation_response details)
       | OtherError => ret (error_response 500 "Failed to add task" "ADD_TASK_ERROR")
       end).

(** *** PUT /api/dao/:daoId/tasks/:taskId/name *)

Definition rename (name user now : jsstring) (task : DaoTask) : DaoTask :=
  mkTask (task_id task) (sanitizeString name) (progress task) (comment task)
    (isApplicable task) (assignedTo task) (Some user) (Some now).

Definition notify_renamed (daoId : jsstring) (parsedTaskId : Z)
    (oldName : jsstring) (task : DaoTask) : Eff unit :=
  import_ notificationService ;;
  import_ authService ;;
  import_ emailService ;;
  broadcast task_updated (js "Nom de tâche modifié")
    (js "Tâche #" ++ showZ parsedTaskId ++ js ": " ++ dq ++ oldName ++ dq
       ++ js " → " ++ dq ++ task_name task ++ dq ++ js " (DAO " ++ daoId ++ js ")")
    (payload_task daoId parsedTaskId) ;;
  users <- getAllUsers ;;
  sendBulkNotification (emails_of users) (js "Nom de tâche modifié")
    (js "La tâche #" ++ showZ parsedTaskId ++ js " du DAO " ++ daoId
       ++ js " a été renommée: " ++ dq ++ oldName ++ dq ++ js " → " ++ dq
       ++ task_name task ++ dq ++ js ".") ;;
  ret tt.

(** The name is assigned to the task object found: the rewriting of one
    position, under the same reading of a task list as for the task
    update (every object once, as with distinct ids). *)
Definition update_task_name (daoId : jsstring) (parsedTaskId : option Z)
    (req_body : Parsed jsstring) (user : jsstring) : Eff Response :=
  try_catch
    (if bad_id daoId then ret (error_response 400 "Invalid DAO ID" "INVALID_DAO_ID")
     else
       match parsedTaskId with
       | None => ret (error_response 400 "Invalid task ID" "INVALID_TASK_ID")
       | Some tid =>
           if tid <? 1 then ret (error_response 400 "Invalid task ID" "INVALID_TASK_ID")
           else
             name <- parse req_body ;;
             dao <- DaoService.getDaoById daoId ;;
             match dao with
             | None => ret (error_response 404 "DAO not found" "DAO_NOT_FOUND")
             | Some dao =>
                 match list_find (fun t => task_id t = tid) (tasks dao) with
                 | None => ret (error_response 404 "Task not found" "TASK_NOT_FOUND")
                 | Some (i, old) =>
                     e <- ask ;;
                     let oldName := task_name old in
                     let task := rename name user (nowISO e) old in
                     let tasks' := <[i := task]> (tasks dao) in
                     daoStorage.mutate_tasks daoId tasks' ;;
                     updated <- DaoService.updateDao daoId (only_tasks tasks') ;;
                     try_ (notify_renamed daoId tid oldName task) ;;
                     ret (mkResponse 200 (JsonDao updated))
                 end
             end
       end)
    (fun error =>
       match error with
       | ZodError details => ret (validation_response details)
       | OtherError =>
           ret (error_response 500 "Failed to update task name"
                  "UPDATE_TASK_NAME_ERROR")
       end).

(** *** DELETE /api/dao/:daoId/tasks/:taskId *)

Definition notify_deleted (daoId : jsstring) (deletedTask : DaoTask) : Eff unit :=
  import_ notificationService ;;
  import_ authService ;;
  import_ emailService ;;
  broadcast task_deleted (js "Tâche supprimée")
    (js "La tâche " ++ dq ++ task_name deletedTask ++ dq
       ++ js " a été supprimée du DAO " ++ daoId)
    (payload_task daoId (task_id deletedTask)) ;;
  users <- getAllUsers ;;
  sendBulkNotification (emails_of users) (js "Tâche supprimée")
    (js "La tâche " ++ dq ++ task_name deletedTask ++ dq
       ++ js " a été supprimée du DAO " ++ daoId ++ js ".") ;;
  ret tt.

Definition delete_task (daoId : jsstring) (parsedTaskId : option Z)
  : Eff Response :=
  try_catch
    (if bad_id daoId then ret (error_response 400 "Invalid DAO ID" "INVALID_DAO_ID")
     else
       match parsedTaskId with
       | None => ret (error_response 400 "Invalid task ID" "INVALID_TASK_ID")
       | Some tid =>
           if tid <? 1 then ret (error_response 400 "Invalid task ID" "INVALID_TASK_ID")
           else
             dao <- DaoService.getDaoById daoId ;;
             match dao with
             | None => ret (error_response 404 "DAO not found" "DAO_NOT_FOUND")
             | Some dao =>
                 match list_find (fun t => task_id t = tid) (tasks dao) with
                 | None => ret (error_response 404 "Task not found" "TASK_NOT_FOUND")
                 | Some (taskIndex, deletedTask) =>
                     let tasks' := delete taskIndex (tasks dao) in
                     daoStorage.mutate_tasks daoId tasks' ;;
                     updated <- DaoService.updateDao daoId (only_tasks tasks') ;;
                     try_ (notify_deleted daoId deletedTask) ;;
                     ret (mkResponse 200
                            (JsonDeleted (js "Task deleted successfully")
                               (task_id deletedTask) (task_name deletedTask)
                               updated))
                 end
             end
       end)
    (fun _ => ret (error_response 500 "Failed to delete task" "DELETE_TASK_ERROR")).

End TaskRoutes.

(* ===================================================================== *)
(** ** Vocabulary of the specification *)
(* ===================================================================== *)

(** [m] never changes the component [f] of the world, whether it returns
    or throws. *)
Definition keeps {X A} (f : World -> X) (m : Eff A) : Prop :=
  forall e w, f (snd (m e w)) = f w.

(** The world once the store holds [l]. *)
Definition stored (w : World) (l : list Dao) : World :=
  mkWorld l (notifications w) (outbox w).

(** The mail that [sendNotificationEmail] hands to the transport. *)
Definition notification_mail (e : Env) (subject body to : jsstring) : Mail :=
  mkMail to subject body
    (brandWrap e
       (js "<p style=" ++ dq ++ js "margin:0; white-space:pre-wrap;" ++ dq
          ++ js ">" ++ body ++ js "</p>")
       subject).

(** The first notification block of the case-file update together with its
    [catch]: the value it leaves in [res.hasTaskChanges]. *)
Definition flag_block (id : jsstring) (body : UpdateDaoBody) (before : option Dao)
    (updated : Dao) : Eff (option bool) :=
  try_catch (b <- DaoRoutes.notify_changes id body before updated ;; ret (Some b))
    (fun _ => ret None).

Definition flag_of (o : Outcome (option bool)) : option bool :=
  match o with Ret f => f | Throw _ => None end.

(* ===================================================================== *)
(** ** Sample data *)
(* ===================================================================== *)

Module Sample.

(** Collaborators that all work. *)
Definition env : Env :=
  mkEnv (js "2025-03-01T10:00:00.000Z") 1740823200000 2025
    [mkTaskInput (Some 1) (js "Résumé sommaire DAO") None None true None;
     mkTaskInput (Some 2) (js "Demande de caution") None None false None]
    (fun inner title => title ++ inner)
    (fun _ _ => false)
    (fun _ _ => false)
    (fun _ => Some [mkUser (js "1") (js "admin@2snd.fr");
                    mkUser (js "2") (js "marie.dubois@2snd.fr")])
    (fun _ _ => false)
    (fun n => 120000 <? Z.of_nat n).

(** Collaborators that all throw. *)
Definition failing_env : Env :=
  mkEnv (nowISO env) (nowMs env) (fullYear env) (DEFAULT_TASKS env) (brandWrap env)
    (fun _ _ => true) (fun _ _ => true) (fun _ => None) (fun _ _ => true)
    (spreadThrows env).

Definition marie : TeamMember :=
  mkMember (js "m1") (js "Marie Dubois") chef_equipe (Some (js "marie.dubois@2snd.fr")).

Definition pierre : TeamMember :=
  mkMember (js "m2") (js "Pierre Martin") membre_equipe (Some (js "pierre.martin@2snd.fr")).

Definition task1 : DaoTask :=
  mkTask 1 (js "Résumé sommaire DAO") (Some 50) None true None None None.

Definition task2 : DaoTask :=
  mkTask 2 (js "Demande de caution") None None false None None None.

Definition task3 : DaoTask :=
  mkTask 3 (js "Identification des profils") (Some 20) None true (Some (js "m1"))
    None None.

Definition dao1 : Dao :=
  mkDao (js "1") (js "DAO-2025-001") (js "Fourniture de serveurs") (js "AMI-2025-SYS")
    (js "Mairie de Lyon") (js "2025-04-15") [marie; pierre] [task1; task2; task3]
    (js "2025-01-01T00:00:00.000Z") (js "2025-01-01T00:00:00.000Z").

Definition world : World := mkWorld [dao1] [] [].

(** A case file left without tasks. *)
Definition empty_dao : Dao := daoStorage.with_tasks dao1 [].

Definition empty_world : World := mkWorld [empty_dao] [] [].

(** A case file in which two tasks share the id 1 (the case-file update
    accepts such a task list). *)
Definition twin_task : DaoTask :=
  mkTask 1 (js "Copie") None None true None None None.

Definition twin_dao : Dao := daoStorage.with_tasks dao1 [task1; twin_task].

Definition twin_world : World := mkWorld [twin_dao] [] [].

Definition dao_numbered (numero : jsstring) : Dao :=
  mkDao (js "9") numero [] [] [] [] [] [] [] [].

Definition create_body : CreateDaoBody :=
  mkCreateDaoBody (js "DAO-2025-002") (js "Audit de sécurité") (js "AO-77")
    (js "Région Sud") (js "2025-06-01") [marie] None.

Definition new_task_body : CreateTaskBody :=
  mkCreateTaskBody (js "Visite de site") true (Some 0) None None.

End Sample.

(* ===================================================================== *)
(** ** Vocabulary of the reorder property *)
(* ===================================================================== *)

(** The machine-readable code of an error response. *)
Definition response_code (r : Response) : option jsstring :=
  match body r with
  | JsonError _ code => Some code
  | JsonValidation _ _ code => Some code
  | JsonInvalidIds _ code _ => Some code
  | JsonDao _ => None
  | JsonDeleted _ _ _ _ => None
  end.

(** The supplied value is the id of a task of the case file. *)
Definition names_a_task (dao : Dao) (v : JsValue) : Prop :=
  exists z, v = JNum z /\ z ∈ List.map task_id (tasks dao).

(** The request carries the ids [ids], a rearrangement of the ids of the
    case file's tasks. *)
Definition is_reordering (dao : Dao) (taskIds : option (list JsValue))
    (ids : list Z) : Prop :=
  taskIds = Some (List.map JNum ids) /\ ids ≡ₚ List.map task_id (tasks dao).

(** The request carries no list, an empty list, or a value that is not the
    id of a task of the case file. *)
Definition has_unknown_id (dao : Dao) (taskIds : option (list JsValue)) : Prop :=
  taskIds = None \/ taskIds = Some []
  \/ exists l v, taskIds = Some l /\ v ∈ l /\ ~ names_a_task dao v.

(** The integers among the supplied values. *)
Definition numbers_of (l : list JsValue) : list Z :=
  omap (fun v => match v with JNum z => Some z | JOther => None end) l.

(** [find] by id, on the tasks of the case file. *)
Definition task_with_id (dao : Dao) (z : Z) : option DaoTask :=
  List.find (fun task => js_is (JNum z) (task_id task)) (tasks dao).

(* ===================================================================== *)
(** ** Vocabulary of the notification properties *)
(* ===================================================================== *)

(** The notification service is available: its module loads (like every
    dynamically loaded module) and [broadcast] does not throw.  The user
    directory and the mail transport may still fail. *)
Definition reliable (e : Env) : Prop :=
  (forall w m, importThrows e w m = false)
  /\ (forall w n, broadcastThrows e w n = false).

(** Some non-task header field differs between the two states. *)
Definition header_changed (before updated : Dao) : Prop :=
  numeroListe before <> numeroListe updated
  \/ objetDossier before <> objetDossier updated
  \/ reference before <> reference updated
  \/ autoriteContractante before <> autoriteContractante updated
  \/ dateDepot before <> dateDepot updated.

(** The task-level notification kinds. *)
Definition task_level (k : NotifKind) : Prop :=
  k = task_created \/ k = task_deleted \/ k = task_updated
  \/ k = task_assigned \/ k = task_unassigned \/ k = task_reordered.

(** The descriptor "reassigned A -> B" of a change list. *)
Definition reassigned (A B : jsstring) : jsstring :=
  js "réassignée (" ++ A ++ js " → " ++ B ++ js ")".

(* ===================================================================== *)
(** ** The numbering rule, in the words of the specification *)
(* ===================================================================== *)

Module NumberingSpec.

Import DaoService.





End NumberingSpec.

(* ===================================================================== *)
(** ** The mutation operations as one request type *)
(* ===================================================================== *)

(** The mutation requests of the API, with what the middleware hands to
    the route: the parsed path parameters, the body, the acting user. *)
Inductive Request :=
| CreateDao (body : Parsed CreateDaoBody) (user : jsstring)
| UpdateDao (id : jsstring) (body : Parsed UpdateDaoBody)
| ReorderTasks (id : jsstring) (taskIds : option (list JsValue))
| UpdateTask (id : jsstring) (parsedTaskId : option Z)
    (body : Parsed TaskUpdateBody) (user : jsstring)
| AddTask (daoId : jsstring) (body : Parsed CreateTaskBody) (user : jsstring)
| RenameTask (daoId : jsstring) (parsedTaskId : option Z)
    (body : Parsed jsstring) (user : jsstring)
| DeleteTask (daoId : jsstring) (parsedTaskId : option Z).

Definition handle (r : Request) : Eff Response :=
  match r with
  | CreateDao body user => DaoRoutes.create_dao body user
  | UpdateDao id body => DaoRoutes.update_dao id body
  | ReorderTasks id taskIds => DaoRoutes.reorder_tasks id taskIds
  | UpdateTask id tid body user => DaoRoutes.update_task id tid body user
  | AddTask daoId body user => TaskRoutes.add_task daoId body user
  | RenameTask daoId tid body user => TaskRoutes.update_task_name daoId tid body user
  | DeleteTask daoId tid => TaskRoutes.delete_task daoId tid
  end.



(** The case file a response carries. *)
Definition response_dao (r : Response) : option Dao :=
  match body r with
  | JsonDao d => d
  | JsonDeleted _ _ _ d => d
  | _ => None
  end.


(** The sequence number [createDao] gives a new case file. *)
Definition created_numero (numero : jsstring) (e : Env) (w : World) : jsstring :=
  if negb (truthy numero) || includes (js "001") numero
  then DaoService.next_dao_number (fullYear e) (daos w)
  else numero.

(** The case file the create route builds from a valid body. *)
Definition created_dao (body : CreateDaoBody) (user : jsstring) (e : Env)
    (w : World) : Dao :=
  mkDao (showZ (nowMs e))
    (created_numero (sanitizeString (c_numeroListe body)) e w)
    (sanitizeString (c_objetDossier body))
    (sanitizeString (c_reference body))
    (sanitizeString (c_autoriteContractante body)) (c_dateDepot body)
    (List.map DaoRoutes.sanitize_member (c_equipe body))
    (DaoRoutes.initial_tasks (DEFAULT_TASKS e) (c_tasks body) user (nowISO e))
    (nowISO e) (nowISO e).

(* ===================================================================== *)
(** ** The storage mode of DaoService *)
(* ===================================================================== *)

Module Connection.

(** The two module-level flags of [daoService.ts], and the number of calls
    made to [connectToDatabase] so far. *)
Record State := mkState {
  useInMemory : bool;
  connectionAttempted : bool;
  connections : nat;
}.

(** The flags when the module is loaded. *)
Definition initial : State := mkState false false 0.

(** [async function tryConnect()].  [db_up k] tells whether the call
    number [k] of [connectToDatabase] returns ([true]) or throws. *)
Definition tryConnect (db_up : nat -> bool) (s : State) : bool * State :=
  if connectionAttempted s then (negb (useInMemory s), s)
  else if db_up (connections s) then
    (true, mkState false true (S (connections s)))
  else
    (false, mkState true true (S (connections s))).

(** [n] calls in a row (every method of [DaoService] starts with one):
    their results, oldest first, and the flags afterwards. *)
Fixpoint calls (db_up : nat -> bool) (n : nat) (s : State) : list bool * State :=
  match n with
  | O => ([], s)
  | S n' =>
      let (r, s1) := tryConnect db_up s in
      let (rs, s2) := calls db_up n' s1 in
      (r :: rs, s2)
  end.

End Connection.

(* ===================================================================== *)
(** ** Vocabulary of the further properties *)
(* ===================================================================== *)

(** The case file a request is addressed to. *)
Definition target (r : Request) : option jsstring :=
  match r with
  | CreateDao _ _ => None
  | UpdateDao id _ => Some id
  | ReorderTasks id _ => Some id
  | UpdateTask id _ _ _ => Some id
  | AddTask id _ _ => Some id
  | RenameTask id _ _ _ => Some id
  | DeleteTask id _ => Some id
  end.

(** What a route does with the case file it found once every check has
    passed: the update it hands to [DaoService.updateDao], and the
    notification blocks it runs afterwards. *)
Record Plan := mkPlan {
  plan_update : DaoUpdates;
  plan_notice : Eff unit;
}.

(** The checks of each route that follow the lookup of the case file, and
    what the route does when they pass ([None]: it answers 400, 404 or,
    when the computation of the new task id throws, 500). *)
Definition plan (r : Request) (e : Env) (dao : Dao) : option Plan :=
  match r with
  | CreateDao _ _ => None
  | UpdateDao id body =>
      match body with
      | Valid v =>
          let updated := DaoService.merge dao (DaoRoutes.updates_of v) (nowISO e) in
          Some (mkPlan (DaoRoutes.updates_of v)
                  (bind (flag_block id v (Some dao) updated)
                     (fun flag =>
                        try_ (DaoRoutes.notify_updated (Some dao) updated flag))))
      | Invalid _ => None
      end
  | ReorderTasks id taskIds =>
      match taskIds with
      | Some (v :: vs) =>
          if nonempty (DaoRoutes.invalid_ids (List.map task_id (tasks dao)) (v :: vs))
             || DaoRoutes.incomplete dao (v :: vs)
          then None
          else Some (mkPlan (only_tasks (DaoRoutes.reordered dao (v :: vs)))
                       (try_ (DaoRoutes.notify_reordered id dao)))
      | _ => None
      end
  | UpdateTask id parsedTaskId body user =>
      match parsedTaskId, body with
      | Some tid, Valid v =>
          if tid <? 1 then None
          else
            match list_find (fun t => task_id t = tid) (tasks dao) with
            | Some (j, previous) =>
                let task := DaoRoutes.apply_task_update v user (nowISO e) previous in
                let tasks' := <[j := task]> (tasks dao) in
                Some (mkPlan (only_tasks tasks')
                        (try_ (DaoRoutes.notify_task_update id
                                 (daoStorage.with_tasks dao tasks') previous task)))
            | None => None
            end
      | _, _ => None
      end
  | AddTask daoId body user =>
      match body with
      | Valid v =>
          if TaskRoutes.spread_overflows e (List.map task_id (tasks dao)) then None
          else
            let newTask := TaskRoutes.new_task dao v user (nowISO e) in
            Some (mkPlan (only_tasks (tasks dao ++ [newTask]))
                    (try_ (TaskRoutes.notify_added daoId newTask)))
      | Invalid _ => None
      end
  | RenameTask daoId parsedTaskId body user =>
      match parsedTaskId, body with
      | Some tid, Valid name =>
          if tid <? 1 then None
          else
            match list_find (fun t => task_id t = tid) (tasks dao) with
            | Some (j, old) =>
                let task := TaskRoutes.rename name user (nowISO e) old in
                Some (mkPlan (only_tasks (<[j := task]> (tasks dao)))
                        (try_ (TaskRoutes.notify_renamed daoId tid (task_name old)
                                 task)))
            | None => None
            end
      | _, _ => None
      end
  | DeleteTask daoId parsedTaskId =>
      match parsedTaskId with
      | Some tid =>
          if tid <? 1 then None
          else
            match list_find (fun t => task_id t = tid) (tasks dao) with
            | Some (j, deletedTask) =>
                Some (mkPlan (only_tasks (delete j (tasks dao)))
                        (try_ (TaskRoutes.notify_deleted daoId deletedTask)))
            | None => None
            end
      | None => None
      end
  end.

(** The five routes that work on the task list of one case file. *)
Definition task_request (r : Request) : bool :=
  match r with
  | CreateDao _ _ | UpdateDao _ _ => false
  | _ => true
  end.

(** The two routes whose body carries fields of existing tasks. *)
Definition takes_task_fields (r : Request) : bool :=
  match r with
  | UpdateDao _ _ | UpdateTask _ _ _ _ => true
  | _ => false
  end.

(** The task ids of a case file are pairwise distinct. *)
Definition distinct_ids (d : Dao) : Prop := NoDup (List.map task_id (tasks d)).

(** The progress of a task that is not applicable is null. *)
Definition progress_ok (t : DaoTask) : Prop :=
  isApplicable t = false -> progress t = None.

(** Every task of the case file obeys the progress rule. *)
Definition progress_kept (d : Dao) : Prop := Forall progress_ok (tasks d).

(** The string starts, or ends, with a code unit that [trim] removes. *)
Definition starts_blank (s : jsstring) : bool :=
  match s with
  | c :: _ => is_ws c
  | [] => false
  end.

Definition ends_blank (s : jsstring) : bool := starts_blank (rev s).

(** The notification pattern of the create, reorder, add, rename and delete
    routes: load the three services, publish one event, mail every user. *)
Definition announce (k : NotifKind) (title message : jsstring) (data : Payload)
    (subject text : jsstring) : Eff unit :=
  import_ notificationService ;;
  import_ authService ;;
  import_ emailService ;;
  broadcast k title message data ;;
  users <- getAllUsers ;;
  EmailService.sendBulkNotification (emails_of users) subject text ;;
  ret tt.

(** The kind of the event such a route publishes. *)
Definition announced_kind (r : Request) : option NotifKind :=
  match r with
  | CreateDao _ _ => Some dao_created
  | ReorderTasks _ _ => Some task_reordered
  | AddTask _ _ _ => Some task_created
  | RenameTask _ _ _ _ => Some task_updated
  | DeleteTask _ _ => Some task_deleted
  | UpdateDao _ _ | UpdateTask _ _ _ _ => None
  end.

(** The task its payload names: the new task (the last of the returned
    case file), the task of the path, or none. *)
Definition announced_task (r : Request) (resp : Response) : option Z :=
  match r with
  | AddTask _ _ _ =>
      match response_dao resp with
      | Some d => task_id <$> head (rev (tasks d))
      | None => None
      end
  | RenameTask _ parsedTaskId _ _ => parsedTaskId
  | DeleteTask _ parsedTaskId => parsedTaskId
  | _ => None
  end.

(** The world after an event was published. *)
Definition published (w : World) (n : Notification) : World :=
  mkWorld (daos w) (notifications w ++ [n]) (outbox w).

(** The task an edit request names. *)
Definition edited_task (r : Request) : option Z :=
  match r with
  | UpdateTask _ parsedTaskId _ _ => parsedTaskId
  | RenameTask _ parsedTaskId _ _ => parsedTaskId
  | _ => None
  end.

(** The name and the comment of a task hold no markup tag. *)
Definition tag_free (t : DaoTask) : Prop :=
  has_tag (task_name t) = false /\ has_tag (default [] (comment t)) = false.

Definition tag_free_tasks (d : Dao) : Prop := Forall tag_free (tasks d).

(** The route that stores the tasks of its body as they come. *)
Definition stores_body_tasks (r : Request) : bool :=
  match r with
  | UpdateDao _ _ => true
  | _ => false
  end.

(** The free text of the header of a case file and the names of its
    members hold no markup tag. *)
Definition header_tag_free (d : Dao) : Prop :=
  has_tag (objetDossier d) = false
  /\ has_tag (reference d) = false
  /\ has_tag (autoriteContractante d) = false
  /\ Forall (fun m => has_tag (member_name m) = false) (equipe d).

(** The task ids of a case file are safe integers. *)
Definition safe_ids (d : Dao) : Prop :=
  Forall (fun t => TaskRoutes.safe_integer (task_id t)) (tasks d).
(* ===================================================================== *)
(** ** Properties of the sanitizer *)
(* ===================================================================== *)

Section Sanitizer.

Local Open Scope N_scope.

Lemma has_gt_app a b : has_gt (a ++ b) = has_gt a || has_gt b.
Proof.
  induction a as [|c a IH]; simpl; [reflexivity|].
  rewrite IH. apply orb_assoc.
Qed.

Lemma has_gt_rev s : has_gt (rev s) = has_gt s.
Proof.
  induction s as [|c s IH]; simpl; [reflexivity|].
  rewrite has_gt_app, IH. simpl. rewrite orb_false_r. apply orb_comm.
Qed.

(** Stripping only removes code units: it cannot bring in a [>]. *)
Lemma strip_from_no_gt m s : has_gt s = false -> has_gt (strip_from m s) = false.
Proof.
  revert m. induction s as [|c s IH]; intros m H; simpl in *; [reflexivity|].
  apply orb_false_iff in H as [Hc Hs].
  destruct m.
  - rewrite Hc. apply IH, Hs.
  - rewrite Hs, andb_false_r. simpl. rewrite Hc. apply IH, Hs.
Qed.

Lemma strip_from_no_tag m s : has_tag (strip_from m s) = false.
Proof.
  revert m. induction s as [|c s IH]; intros m; simpl; [reflexivity|].
  destruct m.
  - destruct (c =? ch_gt); apply IH.
  - destruct ((c =? ch_lt) && has_gt s) eqn:E; [apply IH|].
    simpl. rewrite IH, orb_false_r.
    apply andb_false_iff in E as [E|E].
    + rewrite E. reflexivity.
    + rewrite (strip_from_no_gt false s E). apply andb_false_r.
Qed.

Lemma strip_tags_fixed s : has_tag s = false -> strip_tags s = s.
Proof.
  unfold strip_tags.
  induction s as [|c s IH]; intros H; simpl in *; [reflexivity|].
  apply orb_false_iff in H as [H1 H2].
  rewrite H1. f_equal. auto.
Qed.

Lemma has_tag_app_l a b : has_tag (a ++ b) = false -> has_tag a = false.
Proof.
  induction a as [|c a IH]; simpl; intros H; [reflexivity|].
  apply orb_false_iff in H as [H1 H2].
  rewrite (IH H2), orb_false_r.
  rewrite has_gt_app in H1.
  destruct (c =? ch_lt); simpl in *; [|reflexivity].
  apply orb_false_iff in H1 as [H1 _]. exact H1.
Qed.

Lemma has_tag_app_r a b : has_tag (a ++ b) = false -> has_tag b = false.
Proof.
  induction a as [|c a IH]; simpl; intros H; [exact H|].
  apply orb_false_iff in H as [_ H2]. auto.
Qed.

Lemma trimStart_suffix s : exists p, s = p ++ trimStart s.
Proof.
  induction s as [|c s [p IH]]; simpl.
  - exists []. reflexivity.
  - destruct (is_ws c).
    + exists (c :: p). simpl. f_equal. exact IH.
    + exists []. reflexivity.
Qed.

Lemma trimEnd_prefix s : exists q, s = trimEnd s ++ q.
Proof.
  unfold trimEnd. destruct (trimStart_suffix (rev s)) as [p Hp].
  exists (rev p).
  rewrite <- rev_app_distr, <- Hp, rev_involutive. reflexivity.
Qed.

Lemma trim_no_tag s : has_tag s = false -> has_tag (trim s) = false.
Proof.
  intros H. unfold trim.
  destruct (trimStart_suffix s) as [p Hp].
  destruct (trimEnd_prefix (trimStart s)) as [q Hq].
  rewrite Hp in H. apply has_tag_app_r in H.
  rewrite Hq in H. apply has_tag_app_l in H. exact H.
Qed.

Lemma trimStart_idem s : trimStart (trimStart s) = trimStart s.
Proof.
  induction s as [|c s IH]; simpl; [reflexivity|].
  destruct (is_ws c) eqn:E; [exact IH|].
  simpl. rewrite E. reflexivity.
Qed.

(** A string that starts with a non-blank still does after losing trailing
    code units. *)
Lemma trimStart_app_fixed a b :
  trimStart (a ++ b) = a ++ b -> a <> [] -> trimStart a = a.
Proof.
  destruct a as [|c a]; [congruence|]. simpl.
  destruct (is_ws c) eqn:E; [|reflexivity].
  intros H _. exfalso.
  destruct (trimStart_suffix (a ++ b)) as [p Hp].
  rewrite H in Hp.
  apply (f_equal (@List.length N)) in Hp.
  rewrite !length_app in Hp. simpl in Hp. rewrite ?length_app in Hp. lia.
Qed.

Lemma trimEnd_idem s : trimEnd (trimEnd s) = trimEnd s.
Proof.
  unfold trimEnd. rewrite rev_involutive, trimStart_idem. reflexivity.
Qed.

Lemma trimStart_trimEnd s :
  trimStart s = s -> trimStart (trimEnd s) = trimEnd s.
Proof.
  intros H. destruct (trimEnd_prefix s) as [q Hq].
  destruct (trimEnd s) as [|c t] eqn:E; [reflexivity|].
  apply (trimStart_app_fixed _ q); [|discriminate].
  rewrite <- Hq. exact H.
Qed.

Lemma trim_idem s : trim (trim s) = trim s.
Proof.
  unfold trim.
  rewrite (trimStart_trimEnd (trimStart s) (trimStart_idem s)).
  apply trimEnd_idem.
Qed.

Lemma sanitizeString_no_tag s : has_tag (sanitizeString s) = false.
Proof. apply trim_no_tag, strip_from_no_tag. Qed.

(** [has_tag] is exactly "some substring matches [<[^>]*>]" (the body of a
    match may even be arbitrary). *)
Lemma has_tag_false_no_match s :
  has_tag s = false ->
  forall a b c, s <> a ++ [ch_lt] ++ b ++ [ch_gt] ++ c.
Proof.
  intros H a b c ->.
  apply has_tag_app_r in H. simpl in H.
  apply orb_false_iff in H as [H _].
  rewrite has_gt_app in H. simpl in H.
  rewrite orb_true_r in H. discriminate.
Qed.

End Sanitizer.

(* ===================================================================== *)
(** ** The effect monad: what a computation leaves untouched *)
(* ===================================================================== *)

Local Open Scope eff_scope.

Arguments js : simpl never.
Arguments showZ : simpl never.
Arguments sanitizeString : simpl never.

Section Frame.

Context {X : Type} (f : World -> X).

Lemma keeps_ret {A} (a : A) : keeps f (ret a).
Proof. intros e w. reflexivity. Qed.

Lemma keeps_throw {A} err : keeps f (@throw A err).
Proof. intros e w. reflexivity. Qed.

Lemma keeps_ask : keeps f ask.
Proof. intros e w. reflexivity. Qed.

Lemma keeps_get : keeps f get.
Proof. intros e w. reflexivity. Qed.

Lemma keeps_bind {A B} (m : Eff A) (k : A -> Eff B) :
  keeps f m -> (forall a, keeps f (k a)) -> keeps f (bind m k).
Proof.
  intros Hm Hk e w. unfold bind.
  specialize (Hm e w). destruct (m e w) as [[a|err] w1]; simpl in *.
  - rewrite Hk. exact Hm.
  - exact Hm.
Qed.

Lemma keeps_try_catch {A} (m : Eff A) h :
  keeps f m -> (forall err, keeps f (h err)) -> keeps f (try_catch m h).
Proof.
  intros Hm Hh e w. unfold try_catch.
  specialize (Hm e w). destruct (m e w) as [[a|err] w1]; simpl in *.
  - exact Hm.
  - rewrite Hh. exact Hm.
Qed.

Lemma keeps_try m : keeps f m -> keeps f (try_ m).
Proof. intros H. apply keeps_try_catch; [exact H|]. intros _. apply keeps_ret. Qed.

Lemma keeps_when b m : keeps f m -> keeps f (when b m).
Proof. intros H. destruct b; [exact H | apply keeps_ret]. Qed.

Lemma keeps_for_each {A} (l : list A) body :
  (forall x, keeps f (body x)) -> keeps f (for_each l body).
Proof.
  intros H. induction l as [|x l IH]; simpl.
  - apply keeps_ret.
  - apply keeps_bind; [apply H | intros _; exact IH].
Qed.

Lemma keeps_for_fold {A S} (l : list A) (s : S) body :
  (forall s x, keeps f (body s x)) -> keeps f (for_fold l s body).
Proof.
  intros H. revert s. induction l as [|x l IH]; intros s; simpl.
  - apply keeps_ret.
  - apply keeps_bind; [apply H | intros s'; apply IH].
Qed.

Lemma keeps_import m : keeps f (import_ m).
Proof. intros e w. unfold import_. destruct (importThrows e w m); reflexivity. Qed.

Lemma keeps_getAllUsers : keeps f getAllUsers.
Proof. intros e w. unfold getAllUsers. destruct (allUsers e w); reflexivity. Qed.

End Frame.

Lemma broadcast_keeps_daos k t m d : keeps daos (broadcast k t m d).
Proof. intros e w. unfold broadcast. destruct (broadcastThrows _ _ _); reflexivity. Qed.

Lemma sendMail_keeps_daos m : keeps daos (sendMail m).
Proof. intros e w. unfold sendMail. destruct (sendMailThrows _ _ _); reflexivity. Qed.

Lemma sendMail_keeps_notifications m : keeps notifications (sendMail m).
Proof. intros e w. unfold sendMail. destruct (sendMailThrows _ _ _); reflexivity. Qed.

(** A swallowed block always returns. *)
Lemma try_returns m e w : fst (try_ m e w) = Ret tt.
Proof.
  unfold try_, try_catch. destruct (m e w) as [[[]|err] w1]; reflexivity.
Qed.

Create HintDb frame.
#[local] Hint Resolve keeps_ret keeps_throw keeps_ask keeps_get keeps_try
  keeps_when keeps_for_each keeps_for_fold keeps_import keeps_getAllUsers
  broadcast_keeps_daos sendMail_keeps_daos sendMail_keeps_notifications : frame.

(** Walks through a block: binds, branches, then the leaves from the hint
    base. *)
Ltac frame_step :=
  match goal with
  | |- keeps _ (bind _ _) => apply keeps_bind; [|intros]
  | |- keeps _ (try_catch _ _) => apply keeps_try_catch; [|intros]
  | |- keeps _ (try_ _) => apply keeps_try
  | |- keeps _ (when _ _) => apply keeps_when
  | |- keeps _ (for_each _ _) => apply keeps_for_each; intros
  | |- keeps _ (for_fold _ _ _) => apply keeps_for_fold; intros
  | |- keeps _ (match ?x with _ => _ end) => destruct x
  | |- keeps _ (let _ := _ in _) => cbv zeta
  | |- _ => solve [auto with frame]
  end.

Ltac frame := intros; repeat frame_step.

(* ===================================================================== *)
(** ** EmailService *)
(* ===================================================================== *)

Section Email.

Import EmailService.

Lemma sendNotificationEmail_keeps_daos to s b :
  keeps daos (sendNotificationEmail to s b).
Proof. unfold sendNotificationEmail. frame. Qed.

Lemma sendNotificationEmail_keeps_notifications to s b :
  keeps notifications (sendNotificationEmail to s b).
Proof. unfold sendNotificationEmail. frame. Qed.

(** One guarded delivery: the attempt is made, nothing is thrown. *)
Lemma guarded_send e w to s b :
  try_ (sendNotificationEmail to s b) e w =
  (Ret tt, mkWorld (daos w) (notifications w)
             (outbox w ++ [notification_mail e s b to])).
Proof.
  unfold try_, try_catch, sendNotificationEmail, bind, ask, sendMail. simpl.
  fold (notification_mail e s b to).
  destruct (sendMailThrows e w _); reflexivity.
Qed.

Lemma deliveries e w s b (l : list jsstring) :
  for_each l (fun to => try_ (sendNotificationEmail to s b)) e w =
  (Ret tt, mkWorld (daos w) (notifications w)
             (outbox w ++ List.map (notification_mail e s b) l)).
Proof.
  revert w. induction l as [|to l IH]; intros w; simpl.
  - rewrite app_nil_r. destruct w; reflexivity.
  - unfold bind. rewrite guarded_send, IH. simpl.
    rewrite <- app_assoc. reflexivity.
Qed.

Lemma sendBulkNotification_run e w toList s b :
  sendBulkNotification toList s b e w =
  (Ret (List.length (unique_recipients toList)),
   mkWorld (daos w) (notifications w)
     (outbox w ++ List.map (notification_mail e s b) (unique_recipients toList))).
Proof.
  unfold sendBulkNotification, bind. rewrite deliveries. reflexivity.
Qed.

Lemma sendBulkNotification_keeps_daos l s b :
  keeps daos (sendBulkNotification l s b).
Proof. intros e w. rewrite sendBulkNotification_run. reflexivity. Qed.

Lemma sendBulkNotification_keeps_notifications l s b :
  keeps notifications (sendBulkNotification l s b).
Proof. intros e w. rewrite sendBulkNotification_run. reflexivity. Qed.

Lemma set_from_spec seen l x :
  x ∈ set_from seen l <-> x ∈ l /\ x ∉ seen.
Proof.
  revert seen. induction l as [|y l IH]; intros seen; simpl.
  - split; [intros H; inversion H | intros [H _]; inversion H].
  - case_bool_decide as Hy.
    + rewrite IH, elem_of_cons. split.
      * intros [H1 H2]. auto.
      * intros [[->|H1] H2]; [contradiction | auto].
    + rewrite !elem_of_cons, IH, elem_of_cons. split.
      * intros [->|[H1 H2]]; [auto|]. split; [auto|]. intros H3. apply H2. auto.
      * intros [[->|H1] H2]; [auto|].
        destruct (decide (x = y)) as [->|Hne]; [auto|].
        right. split; [exact H1|]. intros [H3|H3]; auto.
Qed.

Lemma set_from_NoDup seen l : NoDup (set_from seen l).
Proof.
  revert seen. induction l as [|y l IH]; intros seen; simpl.
  - constructor.
  - case_bool_decide as Hy; [apply IH|].
    constructor; [|apply IH].
    rewrite set_from_spec. intros [_ H]. apply H. left.
Qed.

Lemma truthy_nonempty (s : jsstring) : truthy s = true <-> s <> [].
Proof. destruct s; simpl; split; congruence. Qed.

Lemma unique_recipients_spec toList a :
  a ∈ unique_recipients toList <-> a ∈ toList /\ a <> [].
Proof.
  unfold unique_recipients.
  rewrite set_from_spec, !list_elem_of_In, filter_In, truthy_nonempty.
  split.
  - intros [H _]. exact H.
  - intros H. split; [exact H|]. intros H'. inversion H'.
Qed.

Lemma unique_recipients_NoDup toList : NoDup (unique_recipients toList).
Proof. apply set_from_NoDup. Qed.

End Email.

#[local] Hint Resolve sendNotificationEmail_keeps_daos
  sendNotificationEmail_keeps_notifications sendBulkNotification_keeps_daos
  sendBulkNotification_keeps_notifications : frame.

(** C9.  For every recipient list, subject and body, and whatever the mail
    transport does, [sendBulkNotification] returns (it never throws) after
    attempting exactly one delivery to each distinct non-empty address of the
    list and to no other address: the deliveries recorded in the outbox have
    pairwise different recipients, the recipients are exactly the non-empty
    addresses of the list, and every mail carries the given subject and
    body.  A failing attempt is recorded like any other, so it stops
    neither the later ones nor the call. *)
Theorem sendBulkNotification_once_per_address :
  forall (e : Env) (w : World) (toList : list jsstring) (subject body : jsstring),
  exists attempts : list Mail,
    EmailService.sendBulkNotification toList subject body e w
      = (Ret (List.length attempts),
         mkWorld (daos w) (notifications w) (outbox w ++ attempts))
    /\ NoDup (List.map mail_to attempts)
    /\ (forall a, a ∈ List.map mail_to attempts <-> a ∈ toList /\ a <> [])
    /\ Forall (fun m => mail_subject m = subject /\ mail_text m = body) attempts.
Proof.
  intros e w toList subject body.
  exists (List.map (notification_mail e subject body)
            (EmailService.unique_recipients toList)).
  assert (Hto : List.map mail_to
                  (List.map (notification_mail e subject body)
                     (EmailService.unique_recipients toList))
                = EmailService.unique_recipients toList).
  { rewrite List.map_map. simpl. apply List.map_id. }
  rewrite Hto. split; [|split; [|split]].
  - rewrite sendBulkNotification_run, length_map. reflexivity.
  - apply unique_recipients_NoDup.
  - apply unique_recipients_spec.
  - apply Forall_forall. intros m Hm.
    apply in_map_iff in Hm as (to & <- & _).
    split; reflexivity.
Qed.

(* ===================================================================== *)
(** ** Running computations step by step *)
(* ===================================================================== *)

Section Run.

Lemma bind_run {A B} (m : Eff A) (k : A -> Eff B) e w :
  bind m k e w =
  match m e w with
  | (Ret a, w') => k a e w'
  | (Throw err, w') => (Throw err, w')
  end.
Proof. reflexivity. Qed.

Lemma bind_assoc {A B C} (m : Eff A) (k : A -> Eff B) (k' : B -> Eff C) e w :
  bind (bind m k) k' e w = bind m (fun a => bind (k a) k') e w.
Proof.
  unfold bind. destruct (m e w) as [[a|err] w1]; reflexivity.
Qed.

Lemma bind_ret_run {A B} (m : Eff A) (k : A -> Eff B) e w a w' :
  m e w = (Ret a, w') -> bind m k e w = k a e w'.
Proof. intros H. unfold bind. rewrite H. reflexivity. Qed.

Lemma try_catch_ret_run {A} (m : Eff A) h e w a w' :
  m e w = (Ret a, w') -> try_catch m h e w = (Ret a, w').
Proof. intros H. unfold try_catch. rewrite H. reflexivity. Qed.

Lemma try_catch_throw_run {A} (m : Eff A) h e w err w' :
  m e w = (Throw err, w') -> try_catch m h e w = h err e w'.
Proof. intros H. unfold try_catch. rewrite H. reflexivity. Qed.

(** The tail of every mutation route: a swallowed notification block, then
    the response.  Whatever the block does, the response is sent and the
    store is as the block found it. *)
Lemma respond_after_notify {A} (m : Eff unit) (r : A) e w :
  keeps daos m ->
  exists w', (try_ m ;; ret r) e w = (Ret r, w') /\ daos w' = daos w.
Proof.
  intros Hm. unfold bind.
  pose proof (try_returns m e w) as Hret.
  pose proof (keeps_try daos m Hm e w) as Hk.
  destruct (try_ m e w) as [o w1]. simpl in *. subst o.
  exists w1. split; [reflexivity | exact Hk].
Qed.

End Run.

(* ===================================================================== *)
(** ** Storage and DaoService *)
(* ===================================================================== *)

Section Service.

Import daoStorage DaoService.

Lemma find_dao_id id l i d : find_dao id l = Some (i, d) -> dao_id d = id.
Proof. intros H. apply list_find_Some in H as (_ & H & _). exact H. Qed.

Lemma find_dao_lookup id l i d : find_dao id l = Some (i, d) -> l !! i = Some d.
Proof. intros H. apply list_find_Some in H as (H & _ & _). exact H. Qed.

(** Replacing a case file by one with the same id does not move it. *)
Lemma find_dao_insert id l i d d' :
  find_dao id l = Some (i, d) -> dao_id d' = id ->
  find_dao id (<[i := d']> l) = Some (i, d').
Proof.
  intros H Hid. apply list_find_Some in H as (Hl & HP & Hmin).
  apply list_find_Some. split; [|split].
  - apply list_lookup_insert_eq. eapply lookup_lt_Some. exact Hl.
  - exact Hid.
  - intros j y Hj Hlt. rewrite list_lookup_insert_ne in Hj by lia.
    eapply Hmin; eassumption.
Qed.

Lemma getDaoById_run id e w :
  getDaoById id e w = (Ret (snd <$> find_dao id (daos w)), w).
Proof. reflexivity. Qed.

Lemma updateDao_found id u e w i ex :
  find_dao id (daos w) = Some (i, ex) ->
  updateDao id u e w =
  (Ret (Some (merge ex u (nowISO e))),
   mkWorld (<[i := merge ex u (nowISO e)]> (daos w)) (notifications w) (outbox w)).
Proof.
  intros H. unfold updateDao, bind, ask, get. simpl. rewrite H. reflexivity.
Qed.

Lemma updateDao_missing id u e w :
  find_dao id (daos w) = None -> updateDao id u e w = (Ret None, w).
Proof.
  intros H. unfold updateDao, bind, ask, get. simpl. rewrite H. reflexivity.
Qed.

Lemma mutate_tasks_found id ts e w i d :
  find_dao id (daos w) = Some (i, d) ->
  mutate_tasks id ts e w =
  (Ret tt, mkWorld (<[i := with_tasks d ts]> (daos w)) (notifications w) (outbox w)).
Proof.
  intros H. unfold mutate_tasks, bind, get. simpl. rewrite H. reflexivity.
Qed.

Lemma merge_with_tasks d ts now :
  merge (with_tasks d ts) (only_tasks ts) now = merge d (only_tasks ts) now.
Proof. reflexivity. Qed.

(** Changing the task list in place and then persisting the same list is
    persisting it. *)
Lemma mutate_then_update id ts e w i d :
  find_dao id (daos w) = Some (i, d) ->
  (mutate_tasks id ts ;; updateDao id (only_tasks ts)) e w =
  (Ret (Some (merge d (only_tasks ts) (nowISO e))),
   mkWorld (<[i := merge d (only_tasks ts) (nowISO e)]> (daos w))
     (notifications w) (outbox w)).
Proof.
  intros H.
  rewrite (bind_ret_run _ _ _ _ _ _ (mutate_tasks_found id ts e w i d H)).
  assert (Hid : dao_id (with_tasks d ts) = id) by (apply (find_dao_id _ _ _ _ H)).
  rewrite (updateDao_found id _ e _ i (with_tasks d ts));
    [|simpl; apply (find_dao_insert id (daos w) i d); assumption].
  simpl. rewrite list_insert_insert_eq. reflexivity.
Qed.

Lemma createDao_run data e w :
  let newDao :=
    mkDao (showZ (nowMs e)) (created_numero (data_numeroListe data) e w)
      (data_objetDossier data) (data_reference data)
      (data_autoriteContractante data) (data_dateDepot data) (data_equipe data)
      (data_tasks data) (nowISO e) (nowISO e) in
  createDao data e w
  = (Ret newDao, mkWorld (daos w ++ [newDao]) (notifications w) (outbox w)).
Proof.
  unfold createDao, created_numero, bind, ask. simpl.
  destruct (negb (truthy (data_numeroListe data))
            || includes (js "001") (data_numeroListe data)); reflexivity.
Qed.

End Service.

(* ===================================================================== *)
(** ** The notification blocks never touch the store *)
(* ===================================================================== *)

Section NotifyFrames.

Import DaoRoutes TaskRoutes.

Lemma notify_created_keeps d : keeps daos (notify_created d).
Proof. unfold notify_created. frame. Qed.

Lemma notify_team_keeps b u : keeps daos (notify_team b u).
Proof. unfold notify_team. frame. Qed.

Lemma notify_task_of_dao_keeps id b u h t :
  keeps daos (notify_task_of_dao id b u h t).
Proof. unfold notify_task_of_dao. frame. Qed.

Lemma notify_changes_keeps id v b u : keeps daos (notify_changes id v b u).
Proof.
  unfold notify_changes. frame;
    auto using notify_team_keeps, notify_task_of_dao_keeps with frame.
Qed.

Lemma notify_updated_keeps b u flag : keeps daos (notify_updated b u flag).
Proof. unfold notify_updated. frame. Qed.

Lemma notify_reordered_keeps id d : keeps daos (notify_reordered id d).
Proof. unfold notify_reordered. frame. Qed.

Lemma notify_task_update_keeps id d p t : keeps daos (notify_task_update id d p t).
Proof. unfold notify_task_update. frame. Qed.

Lemma notify_added_keeps id t : keeps daos (notify_added id t).
Proof. unfold notify_added. frame. Qed.

Lemma notify_renamed_keeps id n o t : keeps daos (notify_renamed id n o t).
Proof. unfold notify_renamed. frame. Qed.

Lemma notify_deleted_keeps id t : keeps daos (notify_deleted id t).
Proof. unfold notify_deleted. frame. Qed.

End NotifyFrames.

(* ===================================================================== *)
(** ** What each mutation route does when its guards pass *)
(* ===================================================================== *)

(** One statement of a route: run it and continue with what it returned. *)
Ltac step := erewrite bind_ret_run by reflexivity.
Ltac step_with H := erewrite bind_ret_run by (eapply H; eassumption).

Section RouteSpecs.

Import daoStorage DaoService DaoRoutes TaskRoutes.

Lemma try_catch_returns {A} (m : Eff A) h e w a (P : World -> Prop) :
  (exists w', m e w = (Ret a, w') /\ P w') ->
  exists w', try_catch m h e w = (Ret a, w') /\ P w'.
Proof.
  intros (w' & H & HP). exists w'. split; [|exact HP].
  apply try_catch_ret_run. exact H.
Qed.


(** The tail of a route, as an equation. *)
Lemma notify_then_respond {A} (m : Eff unit) (r : A) e w :
  (try_ m ;; ret r) e w = (Ret r, snd (try_ m e w)).
Proof.
  unfold bind. pose proof (try_returns m e w) as H.
  destruct (try_ m e w) as [o w1]. simpl in *. subst o. reflexivity.
Qed.

Lemma add_task_run e w daoId body user i dao :
  bad_id daoId = false ->
  find_dao daoId (daos w) = Some (i, dao) ->
  spread_overflows e (List.map task_id (tasks dao)) = false ->
  let newTask := new_task dao body user (nowISO e) in
  let updated := merge dao (only_tasks (tasks dao ++ [newTask])) (nowISO e) in
  add_task daoId (Valid body) user e w
  = (Ret (mkResponse 201 (JsonDao (Some updated))),
     snd (try_ (notify_added daoId newTask) e
            (stored w (<[i := updated]> (daos w))))).
Proof.
  intros Hbad Hfind Hspread newTask updated. unfold add_task. rewrite Hbad.
  apply try_catch_ret_run.
  step. step_with getDaoById_run. rewrite Hfind. cbn [fmap option_fmap option_map snd].
  step. cbv zeta. rewrite Hspread. step_with (updateDao_found daoId).
  apply notify_then_respond.
Qed.

Lemma update_task_name_run e w daoId tid name user i dao j old :
  bad_id daoId = false ->
  (tid <? 1) = false ->
  find_dao daoId (daos w) = Some (i, dao) ->
  list_find (fun t => task_id t = tid) (tasks dao) = Some (j, old) ->
  let task := rename name user (nowISO e) old in
  let updated := merge dao (only_tasks (<[j := task]> (tasks dao))) (nowISO e) in
  update_task_name daoId (Some tid) (Valid name) user e w
  = (Ret (mkResponse 200 (JsonDao (Some updated))),
     snd (try_ (notify_renamed daoId tid (task_name old) task) e
            (stored w (<[i := updated]> (daos w))))).
Proof.
  intros Hbad Htid Hfind Htask task updated. unfold update_task_name.
  rewrite Hbad, Htid. apply try_catch_ret_run.
  step. step_with getDaoById_run. rewrite Hfind. cbn [fmap option_fmap option_map snd].
  rewrite Htask. step.
  rewrite <- bind_assoc. step_with (mutate_then_update daoId).
  apply notify_then_respond.
Qed.

Lemma delete_task_run e w daoId tid i dao j deletedTask :
  bad_id daoId = false ->
  (tid <? 1) = false ->
  find_dao daoId (daos w) = Some (i, dao) ->
  list_find (fun t => task_id t = tid) (tasks dao) = Some (j, deletedTask) ->
  let updated := merge dao (only_tasks (delete j (tasks dao))) (nowISO e) in
  delete_task daoId (Some tid) e w
  = (Ret (mkResponse 200
            (JsonDeleted (js "Task deleted successfully") (task_id deletedTask)
               (task_name deletedTask) (Some updated))),
     snd (try_ (notify_deleted daoId deletedTask) e
            (stored w (<[i := updated]> (daos w))))).
Proof.
  intros Hbad Htid Hfind Htask updated. unfold delete_task.
  rewrite Hbad, Htid. apply try_catch_ret_run.
  step_with getDaoById_run. rewrite Hfind. cbn [fmap option_fmap option_map snd].
  rewrite Htask.
  rewrite <- bind_assoc. step_with (mutate_then_update daoId).
  apply notify_then_respond.
Qed.

Lemma update_task_run e w id tid body user i dao j previous :
  bad_id id = false ->
  (tid <? 1) = false ->
  find_dao id (daos w) = Some (i, dao) ->
  list_find (fun t => task_id t = tid) (tasks dao) = Some (j, previous) ->
  let task := apply_task_update body user (nowISO e) previous in
  let tasks' := <[j := task]> (tasks dao) in
  let updated := merge dao (only_tasks tasks') (nowISO e) in
  update_task id (Some tid) (Valid body) user e w
  = (Ret (mkResponse 200 (JsonDao (Some updated))),
     snd (try_ (notify_task_update id (with_tasks dao tasks') previous task) e
            (stored w (<[i := updated]> (daos w))))).
Proof.
  intros Hbad Htid Hfind Htask task tasks' updated. unfold update_task.
  rewrite Hbad, Htid. apply try_catch_ret_run.
  step. step_with getDaoById_run. rewrite Hfind. cbn [fmap option_fmap option_map snd].
  rewrite Htask. step.
  rewrite <- bind_assoc. step_with (mutate_then_update id).
  apply notify_then_respond.
Qed.

Lemma reorder_tasks_run e w id v vs i dao :
  bad_id id = false ->
  find_dao id (daos w) = Some (i, dao) ->
  invalid_ids (List.map task_id (tasks dao)) (v :: vs) = [] ->
  incomplete dao (v :: vs) = false ->
  let updated := merge dao (only_tasks (reordered dao (v :: vs))) (nowISO e) in
  reorder_tasks id (Some (v :: vs)) e w
  = (Ret (mkResponse 200 (JsonDao (Some updated))),
     snd (try_ (notify_reordered id dao) e
            (stored w (<[i := updated]> (daos w))))).
Proof.
  intros Hbad Hfind Hinv Hinc updated. unfold reorder_tasks.
  rewrite Hbad. apply try_catch_ret_run.
  step_with getDaoById_run. rewrite Hfind. cbn [fmap option_fmap option_map snd].
  rewrite Hinv, Hinc. cbn [nonempty].
  step_with (updateDao_found id).
  apply notify_then_respond.
Qed.

Lemma flag_block_returns id body before updated e w :
  fst (flag_block id body before updated e w)
  = Ret (flag_of (fst (flag_block id body before updated e w))).
Proof.
  unfold flag_block, try_catch, bind.
  destruct (notify_changes id body before updated e w) as [[b|err] w1]; reflexivity.
Qed.

Lemma update_dao_run e w id body i dao :
  bad_id id = false ->
  find_dao id (daos w) = Some (i, dao) ->
  let updated := merge dao (updates_of body) (nowISO e) in
  let r1 := flag_block id body (Some dao) updated e
              (stored w (<[i := updated]> (daos w))) in
  update_dao id (Valid body) e w
  = (Ret (mkResponse 200 (JsonDao (Some updated))),
     snd (try_ (notify_updated (Some dao) updated (flag_of (fst r1))) e (snd r1))).
Proof.
  intros Hbad Hfind updated r1. unfold update_dao.
  rewrite Hbad. apply try_catch_ret_run.
  step. step_with getDaoById_run. rewrite Hfind. cbn [fmap option_fmap option_map snd].
  step_with (updateDao_found id). cbn beta iota.
  pose proof (flag_block_returns id body (Some dao) updated e
                (stored w (<[i := updated]> (daos w)))) as Hret.
  fold r1 in Hret.
  erewrite bind_ret_run; [apply notify_then_respond|].
  change (r1 = (Ret (flag_of (fst r1)), snd r1)).
  rewrite <- Hret. destruct r1; reflexivity.
Qed.

Lemma create_dao_run e w body user :
  let newDao := created_dao body user e w in
  create_dao (Valid body) user e w
  = (Ret (mkResponse 201 (JsonDao (Some newDao))),
     snd (try_ (notify_created newDao) e (stored w (daos w ++ [newDao])))).
Proof.
  cbv zeta. unfold create_dao. apply try_catch_ret_run.
  step. step. step_with createDao_run.
  apply notify_then_respond.
Qed.

(** The store after a swallowed notification block is the store before. *)
Lemma daos_after_notify m e w l :
  keeps daos m -> daos (snd (try_ m e (stored w l))) = l.
Proof. intros H. rewrite (keeps_try daos m H). reflexivity. Qed.

End RouteSpecs.

(* ===================================================================== *)
(** ** Sanitization (C10) *)
(* ===================================================================== *)

(** C10.  The free-text sanitizer (strip every match of the tag pattern,
    then trim) is idempotent, and its output holds no [<] that is followed,
    anywhere later, by a [>]: in particular no substring of the output
    matches the tag pattern. *)
Theorem sanitizeString_idempotent_and_tag_free :
  forall s : jsstring,
    sanitizeString (sanitizeString s) = sanitizeString s
    /\ (forall a b c : jsstring,
          sanitizeString s <> a ++ [ch_lt] ++ b ++ [ch_gt] ++ c).
Proof.
  intros s. split.
  - unfold sanitizeString at 1.
    rewrite (strip_tags_fixed _ (sanitizeString_no_tag s)).
    unfold sanitizeString. apply trim_idem.
  - apply has_tag_false_no_match, sanitizeString_no_tag.
Qed.

(* ===================================================================== *)
(** ** Adding a task (C3) *)
(* ===================================================================== *)

Section AddTask.

Import daoStorage DaoService DaoRoutes TaskRoutes.

Lemma Math_max_ge_first x xs : x <= Math_max x xs.
Proof.
  unfold Math_max. revert x. induction xs as [|y ys IH]; intros x; simpl; [lia|].
  specialize (IH (Z.max x y)). lia.
Qed.

Lemma Math_max_ge x xs y : y ∈ x :: xs -> y <= Math_max x xs.
Proof.
  revert x. induction xs as [|z zs IH]; intros x Hy.
  - apply list_elem_of_singleton in Hy. subst. apply Math_max_ge_first.
  - change (Math_max x (z :: zs)) with (Math_max (Z.max x z) zs).
    apply elem_of_cons in Hy as [->|Hy].
    + pose proof (Math_max_ge_first (Z.max x z) zs). lia.
    + apply elem_of_cons in Hy as [->|Hy].
      * pose proof (Math_max_ge_first (Z.max x z) zs). lia.
      * apply IH. right. exact Hy.
Qed.

Lemma Math_max_in x xs : Math_max x xs ∈ x :: xs.
Proof.
  revert x. induction xs as [|z zs IH]; intros x.
  - left.
  - change (Math_max x (z :: zs)) with (Math_max (Z.max x z) zs).
    specialize (IH (Z.max x z)).
    apply elem_of_cons in IH as [IH|IH].
    + rewrite IH. destruct (Z.max_spec x z) as [[_ ->]|[_ ->]];
        [right; left | left].
    + right. right. exact IH.
Qed.

(** Adding 1 to a safe integer is exact. *)
Lemma to_double_next m : safe_integer m -> to_double (m + 1) = m + 1.
Proof.
  intros [Hlo Hhi]. destruct (decide (m + 1 = 2 ^ 53)) as [->|Hne].
  - vm_compute. reflexivity.
  - unfold to_double. cbv zeta.
    replace (Z.abs (m + 1) <? 2 ^ 53) with true; [reflexivity|].
    symmetry. apply Z.ltb_lt. lia.
Qed.

Lemma new_task_id_next x xs :
  Forall safe_integer (x :: xs) -> new_task_id (x :: xs) = Math_max x xs + 1.
Proof.
  intros Hsafe. cbn [new_task_id]. apply to_double_next.
  exact (proj1 (list.Forall_forall _ _) Hsafe _ (Math_max_in x xs)).
Qed.

(** Among safe integers the new id is above every id in the list. *)
Lemma new_task_id_above ids y :
  Forall safe_integer ids -> y ∈ ids -> y < new_task_id ids.
Proof.
  destruct ids as [|x xs]; intros Hsafe Hy; [inversion Hy|].
  rewrite (new_task_id_next x xs Hsafe).
  pose proof (Math_max_ge x xs y Hy). lia.
Qed.

Lemma safe_ids_of (l : list DaoTask) :
  Forall (fun t => safe_integer (task_id t)) l ->
  Forall safe_integer (List.map task_id l).
Proof.
  induction 1 as [|t l Ht _ IH]; simpl; constructor; assumption.
Qed.

End AddTask.




(** Outside the conditions of C3.  The id after 2^53 is 2^53 again, since
    2^53 + 1 is no double; and when the engine refuses the call of
    [Math.max] the request is answered 500 and nothing is stored. *)
Example new_task_id_beyond_safe_integers :
  TaskRoutes.new_task_id [1; 2 ^ 53] = 2 ^ 53
  /\ TaskRoutes.new_task_id [2 ^ 53 + 2] = 2 ^ 53 + 4.
Proof. vm_compute. split; reflexivity. Qed.

Example add_task_with_too_many_tasks :
  let e :=
    mkEnv (nowISO Sample.env) (nowMs Sample.env) (fullYear Sample.env)
      (DEFAULT_TASKS Sample.env) (brandWrap Sample.env) (importThrows Sample.env)
      (broadcastThrows Sample.env) (allUsers Sample.env)
      (sendMailThrows Sample.env) (fun n => 2 <? Z.of_nat n) in
  TaskRoutes.add_task (js "1") (Valid Sample.new_task_body) (js "admin") e
    Sample.world
  = (Ret (error_response 500 "Failed to add task" "ADD_TASK_ERROR"), Sample.world).
Proof. vm_compute. reflexivity. Qed.

(* ===================================================================== *)
(** ** Reordering tasks (C2) *)
(* ===================================================================== *)

Section Reorder.

Import daoStorage DaoService DaoRoutes.

Lemma existsb_js_is v (l : list Z) :
  existsb (js_is v) l = true <-> exists z, v = JNum z /\ z ∈ l.
Proof.
  rewrite existsb_exists. split.
  - intros (z & Hin & Hz). destruct v as [z'|]; [|discriminate].
    simpl in Hz. apply bool_decide_eq_true in Hz. subst.
    exists z. split; [reflexivity | apply list_elem_of_In; exact Hin].
  - intros (z & -> & Hin). exists z. split; [apply list_elem_of_In; exact Hin|].
    simpl. apply bool_decide_eq_true. reflexivity.
Qed.

Lemma invalid_ids_nil (existing : list Z) (l : list JsValue) :
  invalid_ids existing l = [] <->
  forall v, v ∈ l -> exists z, v = JNum z /\ z ∈ existing.
Proof.
  unfold invalid_ids. induction l as [|v l IH]; simpl.
  - split; [intros _ v Hv; inversion Hv | reflexivity].
  - destruct (existsb (js_is v) existing) eqn:E; simpl.
    + rewrite IH. split.
      * intros H v' Hv'. apply elem_of_cons in Hv' as [->|Hv'];
          [apply existsb_js_is; exact E | auto].
      * intros H v' Hv'. apply H. right. exact Hv'.
    + split; [discriminate|]. intros H. exfalso.
      assert (Hv : existsb (js_is v) existing = true)
        by (apply existsb_js_is, H; left).
      congruence.
Qed.

Lemma invalid_ids_nonempty (existing : list Z) (l : list JsValue) :
  invalid_ids existing l <> [] ->
  exists v, v ∈ l /\ ~ exists z, v = JNum z /\ z ∈ existing.
Proof.
  unfold invalid_ids. intros H.
  destruct (List.filter _ l) as [|v r] eqn:E; [congruence|].
  assert (Hv : In v (List.filter
                       (fun tid => negb (existsb (js_is tid) existing)) l))
    by (rewrite E; left; reflexivity).
  apply filter_In in Hv as [Hin Hneg]. exists v.
  split; [apply list_elem_of_In; exact Hin|].
  intros Hex. apply existsb_js_is in Hex. rewrite Hex in Hneg. discriminate.
Qed.

Lemma numbers_of_all (l : list JsValue) (existing : list Z) :
  (forall v, v ∈ l -> exists z, v = JNum z /\ z ∈ existing) ->
  l = List.map JNum (numbers_of l) /\ forall z, z ∈ numbers_of l -> z ∈ existing.
Proof.
  induction l as [|v l IH]; intros H.
  - split; [reflexivity | intros z Hz; inversion Hz].
  - destruct (H v) as (z & -> & Hz); [left|].
    destruct IH as [IH1 IH2]; [intros v' Hv'; apply H; right; exact Hv'|].
    split.
    + simpl. f_equal. exact IH1.
    + intros z' Hz'. change (numbers_of (JNum z :: l)) with (z :: numbers_of l) in Hz'.
      apply elem_of_cons in Hz' as [->|Hz']; auto.
Qed.

Lemma numbers_of_map ids : numbers_of (List.map JNum ids) = ids.
Proof. induction ids as [|z ids IH]; simpl; [|f_equal]; auto. Qed.

Lemma existsb_in_numbers (l : list JsValue) z :
  existsb (fun v => js_is v z) l = true <-> z ∈ numbers_of l.
Proof.
  induction l as [|v l IH]; simpl.
  - split; [discriminate | intros H; inversion H].
  - rewrite orb_true_iff, IH. destruct v as [z'|]; simpl.
    + change (numbers_of (JNum z' :: l)) with (z' :: numbers_of l).
      rewrite elem_of_cons, bool_decide_eq_true. intuition congruence.
    + change (numbers_of (JOther :: l)) with (numbers_of l). intuition congruence.
Qed.

Lemma incomplete_false dao l :
  incomplete dao l = false <->
  List.length l = List.length (tasks dao)
  /\ forall z, z ∈ List.map task_id (tasks dao) -> z ∈ numbers_of l.
Proof.
  unfold incomplete. rewrite orb_false_iff, !negb_false_iff, Nat.eqb_eq,
    forallb_forall.
  split; intros [H1 H2]; (split; [exact H1|]).
  - intros z Hz. apply existsb_in_numbers, H2, list_elem_of_In, Hz.
  - intros z Hz. apply existsb_in_numbers, H2, list_elem_of_In, Hz.
Qed.

Lemma reordered_omap dao ids :
  reordered dao (List.map JNum ids) = omap (task_with_id dao) ids.
Proof.
  unfold reordered, task_with_id.
  induction ids as [|z ids IH]; [reflexivity|].
  cbn [List.map omap list_omap]. rewrite IH. reflexivity.
Qed.

Lemma task_with_id_some dao z t : task_with_id dao z = Some t -> task_id t = z.
Proof.
  intros H. apply find_some in H as [_ H]. simpl in H.
  apply bool_decide_eq_true in H. congruence.
Qed.

Lemma task_with_id_present dao z :
  z ∈ List.map task_id (tasks dao) -> exists t, task_with_id dao z = Some t.
Proof.
  intros Hz. apply list_elem_of_In, in_map_iff in Hz as (t & Ht & Hin).
  destruct (task_with_id dao z) as [t'|] eqn:E; [eauto|].
  exfalso. pose proof (find_none _ _ E t Hin) as Hn. simpl in Hn.
  apply bool_decide_eq_false in Hn. congruence.
Qed.

Lemma reordered_ids dao ids :
  (forall z, z ∈ ids -> z ∈ List.map task_id (tasks dao)) ->
  List.map task_id (omap (task_with_id dao) ids) = ids.
Proof.
  induction ids as [|z ids IH]; intros H; [reflexivity|].
  destruct (task_with_id_present dao z) as (t & Ht); [apply H; left|].
  simpl. rewrite Ht. simpl. rewrite (task_with_id_some _ _ _ Ht).
  f_equal. apply IH. intros z' Hz'. apply H. right. exact Hz'.
Qed.

(** With distinct ids, looking a task up by its own id finds that task. *)
Lemma find_own_id (l : list DaoTask) t :
  NoDup (List.map task_id l) -> t ∈ l ->
  List.find (fun task => js_is (JNum (task_id t)) (task_id task)) l = Some t.
Proof.
  induction l as [|t0 l IH]; intros Hnd Ht; [inversion Ht|].
  simpl in Hnd. apply list.NoDup_cons in Hnd as [Hnotin Hnd].
  simpl. case_bool_decide as Heq.
  - apply elem_of_cons in Ht as [->|Ht]; [reflexivity|].
    exfalso. apply Hnotin. rewrite <- Heq.
    apply list_elem_of_In, in_map, list_elem_of_In. exact Ht.
  - apply elem_of_cons in Ht as [->|Ht]; [congruence|]. apply IH; assumption.
Qed.

Lemma omap_own_ids dao (l : list DaoTask) :
  (forall t, t ∈ l -> task_with_id dao (task_id t) = Some t) ->
  omap (task_with_id dao) (List.map task_id l) = l.
Proof.
  induction l as [|t l IH]; intros H; [reflexivity|].
  simpl. rewrite (H t) by left. simpl. f_equal.
  apply IH. intros t' Ht'. apply H. right. exact Ht'.
Qed.

Lemma reordered_permutation dao ids :
  NoDup (List.map task_id (tasks dao)) ->
  ids ≡ₚ List.map task_id (tasks dao) ->
  omap (task_with_id dao) ids ≡ₚ tasks dao.
Proof.
  intros Hnd Hperm. rewrite Hperm.
  rewrite omap_own_ids; [reflexivity|].
  intros t Ht. apply find_own_id; assumption.
Qed.

(** Every way the route refuses a list leaves the world as it was. *)
Lemma reorder_tasks_rejects e w id taskIds i dao :
  bad_id id = false ->
  find_dao id (daos w) = Some (i, dao) ->
  match taskIds with
  | Some (v :: vs) =>
      invalid_ids (List.map task_id (tasks dao)) (v :: vs) <> []
      \/ incomplete dao (v :: vs) = true
  | _ => True
  end ->
  exists resp,
    reorder_tasks id taskIds e w = (Ret resp, w)
    /\ status resp = 400
    /\ response_code resp =
       Some (match taskIds with
             | Some (v :: vs) =>
                 if nonempty (invalid_ids (List.map task_id (tasks dao)) (v :: vs))
                 then js "INVALID_TASK_IDS" else js "INCOMPLETE_TASK_LIST"
             | _ => js "INVALID_TASK_IDS"
             end).
Proof.
  intros Hbad Hfind Hrej. unfold reorder_tasks. rewrite Hbad.
  destruct taskIds as [[|v vs]|].
  - eexists. split; [apply try_catch_ret_run; reflexivity|]. split; reflexivity.
  - destruct (nonempty (invalid_ids (List.map task_id (tasks dao)) (v :: vs)))
      eqn:Einv.
    + exists (mkResponse 400
                (JsonInvalidIds (js "Some task IDs do not exist")
                   (js "INVALID_TASK_IDS")
                   (invalid_ids (List.map task_id (tasks dao)) (v :: vs)))).
      split; [|split; reflexivity].
      apply try_catch_ret_run.
      step_with getDaoById_run. rewrite Hfind.
      cbn [fmap option_fmap option_map snd]. rewrite Einv. reflexivity.
    + destruct Hrej as [Hrej|Hrej].
      { destruct (invalid_ids _ _); [congruence | discriminate]. }
      exists (error_response 400 "Task IDs must include all existing tasks"
                "INCOMPLETE_TASK_LIST").
      split; [|split; reflexivity].
      apply try_catch_ret_run.
      step_with getDaoById_run. rewrite Hfind.
      cbn [fmap option_fmap option_map snd]. rewrite Einv, Hrej. reflexivity.
  - eexists. split; [apply try_catch_ret_run; reflexivity|]. split; reflexivity.
Qed.

End Reorder.

(** C2 (as the code has it).  On an existing case file whose task ids are
    pairwise distinct: a request that carries a non-empty rearrangement of
    the current task ids answers 200 and stores the same tasks in the
    supplied order (same ids, same count, nothing else changed but the
    update stamp); every other request is answered 400 and leaves the whole
    world, the case file included, exactly as it was -- with code
    INVALID_TASK_IDS when the list is missing, empty or holds a value that
    is not the id of a task, and INCOMPLETE_TASK_LIST otherwise. *)
Theorem reorder_tasks_all_or_nothing :
  forall (e : Env) (w : World) (id : jsstring) (taskIds : option (list JsValue))
         (i : nat) (dao : Dao),
    bad_id id = false ->
    daoStorage.find_dao id (daos w) = Some (i, dao) ->
    NoDup (List.map task_id (tasks dao)) ->
    (forall ids, ids <> [] -> is_reordering dao taskIds ids ->
       exists (updated : Dao) (w' : World),
         DaoRoutes.reorder_tasks id taskIds e w
           = (Ret (mkResponse 200 (JsonDao (Some updated))), w')
         /\ daos w' = <[i := updated]> (daos w)
         /\ updated = DaoService.merge dao (only_tasks (tasks updated)) (nowISO e)
         /\ List.map task_id (tasks updated) = ids
         /\ tasks updated ≡ₚ tasks dao
         /\ List.length (tasks updated) = List.length (tasks dao))
    /\ ((~ exists ids, ids <> [] /\ is_reordering dao taskIds ids) ->
        exists resp : Response,
          DaoRoutes.reorder_tasks id taskIds e w = (Ret resp, w)
          /\ status resp = 400
          /\ ((has_unknown_id dao taskIds
               /\ response_code resp = Some (js "INVALID_TASK_IDS"))
              \/ (~ has_unknown_id dao taskIds
                  /\ response_code resp = Some (js "INCOMPLETE_TASK_LIST")))).
Proof.
  intros e w id taskIds i dao Hbad Hfind Hnd. split.
  - (* a rearrangement is applied *)
    intros ids Hne [-> Hperm].
    assert (Hin : forall z, z ∈ ids -> z ∈ List.map task_id (tasks dao))
      by (intros z Hz; rewrite <- Hperm; exact Hz).
    assert (Hinv : DaoRoutes.invalid_ids (List.map task_id (tasks dao))
                     (List.map JNum ids) = []).
    { apply invalid_ids_nil. intros v Hv.
      apply list_elem_of_In, in_map_iff in Hv as (z & <- & Hz).
      exists z. split; [reflexivity|]. apply Hin, list_elem_of_In, Hz. }
    assert (Hinc : DaoRoutes.incomplete dao (List.map JNum ids) = false).
    { apply incomplete_false. split.
      - rewrite length_map, (Permutation_length Hperm), length_map. reflexivity.
      - intros z Hz. rewrite numbers_of_map, Hperm. exact Hz. }
    destruct ids as [|z zs]; [congruence|].
    pose proof (reorder_tasks_run e w id (JNum z) (List.map JNum zs) i dao
                  Hbad Hfind Hinv Hinc) as Hrun.
    cbv zeta in Hrun.
    change (JNum z :: List.map JNum zs) with (List.map JNum (z :: zs)) in Hrun.
    rewrite reordered_omap in Hrun.
    eexists _, _. split; [exact Hrun|]. split; [|split; [|split; [|split]]].
    + apply (daos_after_notify _ e w), notify_reordered_keeps.
    + reflexivity.
    + apply reordered_ids, Hin.
    + apply reordered_permutation; assumption.
    + apply Permutation_length, reordered_permutation; assumption.
  - (* anything else is refused *)
    intros Hnot.
    destruct taskIds as [[|v vs]|].
    + destruct (reorder_tasks_rejects e w id (Some []) i dao Hbad Hfind I)
        as (resp & Hrun & Hst & Hcode).
      exists resp. split; [exact Hrun|]. split; [exact Hst|].
      left. split; [right; left; reflexivity | exact Hcode].
    + destruct (DaoRoutes.invalid_ids (List.map task_id (tasks dao)) (v :: vs))
        as [|x r] eqn:Einv.
      * destruct (DaoRoutes.incomplete dao (v :: vs)) eqn:Einc.
        -- destruct (reorder_tasks_rejects e w id (Some (v :: vs)) i dao Hbad Hfind)
             as (resp & Hrun & Hst & Hcode); [right; exact Einc|].
           rewrite Einv in Hcode.
           exists resp. split; [exact Hrun|]. split; [exact Hst|].
           right. split; [|exact Hcode].
           intros [H|[H|(l & v' & H & Hv' & Hunk)]]; try discriminate.
           injection H as <-. apply Hunk.
           apply (proj1 (invalid_ids_nil _ _) Einv). exact Hv'.
        -- exfalso. apply Hnot.
           destruct (numbers_of_all (v :: vs) (List.map task_id (tasks dao)))
             as [Hl Hsub]; [apply invalid_ids_nil, Einv|].
           apply incomplete_false in Einc as [Hlen Hsup].
           exists (numbers_of (v :: vs)). split; [|split].
           ++ intros Hnil. rewrite Hnil in Hl. discriminate.
           ++ f_equal. exact Hl.
           ++ symmetry. apply NoDup_Permutation_bis.
              ** apply NoDup_ListNoDup, Hnd.
              ** rewrite Hl, length_map in Hlen. rewrite Hlen, length_map.
                 reflexivity.
              ** intros z Hz. apply list_elem_of_In, Hsup, list_elem_of_In, Hz.
      * destruct (reorder_tasks_rejects e w id (Some (v :: vs)) i dao Hbad Hfind)
          as (resp & Hrun & Hst & Hcode); [left; rewrite Einv; discriminate|].
        rewrite Einv in Hcode.
        exists resp. split; [exact Hrun|]. split; [exact Hst|].
        left. split; [|exact Hcode].
        right. right.
        destruct (invalid_ids_nonempty (List.map task_id (tasks dao)) (v :: vs))
          as (v' & Hv' & Hunk); [rewrite Einv; discriminate|].
        exists (v :: vs), v'. split; [reflexivity|]. split; [exact Hv'|].
        exact Hunk.
    + destruct (reorder_tasks_rejects e w id None i dao Hbad Hfind I)
        as (resp & Hrun & Hst & Hcode).
      exists resp. split; [exact Hrun|]. split; [exact Hst|].
      left. split; [left; reflexivity | exact Hcode].
Qed.

(** C2, at the sample case file with the list [3, 1, 2]. *)
Lemma reorder_tasks_all_or_nothing_witness :
  (forall ids, ids <> [] ->
     is_reordering Sample.dao1 (Some [JNum 3; JNum 1; JNum 2]) ids ->
     exists (updated : Dao) (w' : World),
       DaoRoutes.reorder_tasks (js "1") (Some [JNum 3; JNum 1; JNum 2])
         Sample.failing_env Sample.world
         = (Ret (mkResponse 200 (JsonDao (Some updated))), w')
       /\ daos w' = <[0%nat := updated]> (daos Sample.world)
       /\ updated = DaoService.merge Sample.dao1 (only_tasks (tasks updated))
                      (nowISO Sample.failing_env)
       /\ List.map task_id (tasks updated) = ids
       /\ tasks updated ≡ₚ tasks Sample.dao1
       /\ List.length (tasks updated) = List.length (tasks Sample.dao1))
  /\ ((~ exists ids, ids <> []
         /\ is_reordering Sample.dao1 (Some [JNum 3; JNum 1; JNum 2]) ids) ->
      exists resp : Response,
        DaoRoutes.reorder_tasks (js "1") (Some [JNum 3; JNum 1; JNum 2])
          Sample.failing_env Sample.world = (Ret resp, Sample.world)
        /\ status resp = 400
        /\ ((has_unknown_id Sample.dao1 (Some [JNum 3; JNum 1; JNum 2])
             /\ response_code resp = Some (js "INVALID_TASK_IDS"))
            \/ (~ has_unknown_id Sample.dao1 (Some [JNum 3; JNum 1; JNum 2])
                /\ response_code resp = Some (js "INCOMPLETE_TASK_LIST")))).
Proof.
  apply (reorder_tasks_all_or_nothing Sample.failing_env Sample.world (js "1")
           (Some [JNum 3; JNum 1; JNum 2]) 0%nat Sample.dao1).
  - vm_compute. reflexivity.
  - vm_compute. reflexivity.
  - apply NoDup_ListNoDup. simpl.
    repeat (constructor; [simpl; intuition discriminate|]). constructor.
Defined.

(** C2 as stated fails on the empty list.  For a case file that has no task
    left, the empty list is a rearrangement of its (empty) id set, yet the
    route refuses it; and on a case file with tasks, the empty list names
    no unknown id and only has the wrong count, yet the code is
    INVALID_TASK_IDS, not INCOMPLETE_TASK_LIST.  Distinct task ids are
    needed too: on a case file where two tasks share id 1, the list [1, 1]
    is a rearrangement of the ids, and the route stores the first of the two
    tasks twice. *)
Lemma reorder_tasks_refuses_empty_list :
  is_reordering Sample.empty_dao (Some []) []
  /\ (exists resp,
        DaoRoutes.reorder_tasks (js "1") (Some []) Sample.env Sample.empty_world
          = (Ret resp, Sample.empty_world)
        /\ status resp = 400
        /\ response_code resp = Some (js "INVALID_TASK_IDS"))
  /\ (exists resp,
        DaoRoutes.reorder_tasks (js "1") (Some []) Sample.env Sample.world
          = (Ret resp, Sample.world)
        /\ status resp = 400
        /\ response_code resp = Some (js "INVALID_TASK_IDS")
        /\ response_code resp <> Some (js "INCOMPLETE_TASK_LIST"))
  /\ (is_reordering Sample.twin_dao (Some [JNum 1; JNum 1]) [1; 1]
      /\ List.map (fun d => List.map task_name (tasks d)) (daos Sample.twin_world)
         = [[js "Résumé sommaire DAO"; js "Copie"]]
      /\ List.map (fun d => List.map task_name (tasks d))
           (daos (snd (DaoRoutes.reorder_tasks (js "1") (Some [JNum 1; JNum 1])
                         Sample.env Sample.twin_world)))
         = [[js "Résumé sommaire DAO"; js "Résumé sommaire DAO"]]).
Proof.
  split; [|split; [|split]].
  - split; reflexivity.
  - eexists. split; [vm_compute; reflexivity|]. split; [reflexivity|].
    vm_compute. reflexivity.
  - eexists. split; [vm_compute; reflexivity|]. split; [reflexivity|].
    split; [vm_compute; reflexivity|]. vm_compute. discriminate.
  - split; [split; reflexivity|]. split; vm_compute; reflexivity.
Qed.

(* ===================================================================== *)
(** ** Applicability and progress (C1) *)
(* ===================================================================== *)

(** C1 does not hold of the task update route: it stores the applicability
    flag and the progress independently.  On the sample case file, whose
    task 1 is applicable with progress 50, switching the task to "not
    applicable" leaves progress 50, and a progress sent with the same
    request (70) is stored as sent.  The create and add-task routes do force
    the progress of a task that is not applicable to null. *)
Lemma update_task_leaves_progress_on_inapplicable_task :
  let summary (r : Outcome Response * World) :=
    List.map (fun d =>
      List.map (fun t => (task_id t, isApplicable t, progress t)) (tasks d))
      (daos (snd r)) in
  let off := mkTaskUpdateBody None None (Some false) None in
  let off_70 := mkTaskUpdateBody (Some 70) None (Some false) None in
  List.map (fun t => (task_id t, isApplicable t, progress t)) (tasks Sample.dao1)
    = [(1, true, Some 50); (2, false, None); (3, true, Some 20)]
  /\ summary (DaoRoutes.update_task (js "1") (Some 1) (Valid off) (js "admin")
                Sample.env Sample.world)
     = [[(1, false, Some 50); (2, false, None); (3, true, Some 20)]]
  /\ summary (DaoRoutes.update_task (js "1") (Some 1) (Valid off_70) (js "admin")
                Sample.env Sample.world)
     = [[(1, false, Some 70); (2, false, None); (3, true, Some 20)]]
  /\ (exists updated w',
        DaoRoutes.update_task (js "1") (Some 1) (Valid off) (js "admin")
          Sample.env Sample.world
        = (Ret (mkResponse 200 (JsonDao (Some updated))), w')
        /\ daos w' = [updated])
  /\ progress (TaskRoutes.new_task Sample.dao1
                 (mkCreateTaskBody (js "x") false (Some 70) None None)
                 (js "admin") (nowISO Sample.env)) = None.
Proof.
  cbv zeta. split; [|split; [|split; [|split]]].
  - vm_compute. reflexivity.
  - vm_compute. reflexivity.
  - vm_compute. reflexivity.
  - eexists _, _. split; [vm_compute; reflexivity|]. vm_compute. reflexivity.
  - reflexivity.
Qed.

(* ===================================================================== *)
(** ** Creating a case file without tasks (C4) *)
(* ===================================================================== *)

Section Create.

Import DaoRoutes.

Lemma lookup_map {A B} (f : A -> B) (l : list A) (k : nat) :
  List.map f l !! k = f <$> (l !! k).
Proof.
  revert k. induction l as [|x l IH]; intros [|k]; simpl; auto.
Qed.



End Create.



(* ===================================================================== *)
(** ** Notifications of a task update (C5) *)
(* ===================================================================== *)

Section TaskNotifications.

Import daoStorage DaoService DaoRoutes EmailService.

Lemma import_run e w m : reliable e -> import_ m e w = (Ret tt, w).
Proof. intros [H _]. unfold import_. rewrite H. reflexivity. Qed.

Lemma broadcast_run e w k t m d :
  reliable e ->
  broadcast k t m d e w =
  (Ret tt, mkWorld (daos w) (notifications w ++ [mkNotification k t m d]) (outbox w)).
Proof. intros [_ H]. unfold broadcast. rewrite H. reflexivity. Qed.

Lemma try_bind_ret_run {A} (m : Eff A) (k : A -> Eff unit) e w a w' :
  m e w = (Ret a, w') -> try_ (bind m k) e w = try_ (k a) e w'.
Proof.
  intros H. unfold try_, try_catch. rewrite (bind_ret_run _ _ _ _ _ _ H).
  reflexivity.
Qed.

Lemma try_keeps_notifications m e w :
  keeps notifications m -> notifications (snd (try_ m e w)) = notifications w.
Proof. intros H. apply (keeps_try notifications m H). Qed.

(** The notification block of the task update when the assignee changed to
    a non-empty value: exactly the event [task_assigned] is published. *)
Lemma notify_task_update_assigned e w id dao previous task :
  reliable e ->
  assignedTo previous <> assignedTo task ->
  truthy_opt (assignedTo task) = true ->
  exists title message,
    notifications (snd (try_ (notify_task_update id dao previous task) e w))
    = notifications w
      ++ [mkNotification task_assigned title message
            (mkPayload id (Some (task_id task)) None None (assignedTo task))].
Proof.
  intros Hrel Hne Htruthy. unfold notify_task_update.
  erewrite try_bind_ret_run by (apply import_run; exact Hrel).
  erewrite try_bind_ret_run by (apply import_run; exact Hrel).
  cbv zeta. rewrite (bool_decide_eq_true_2 _ Hne), Htruthy. cbn [negb].
  unfold try_ at 1, try_catch. rewrite !bind_assoc.
  erewrite bind_ret_run by (apply broadcast_run; exact Hrel).
  eexists _, _.
  match goal with
  | |- context [bind ?m ?k e ?w2] =>
      assert (Hk : keeps notifications (bind m k));
      [|specialize (Hk e w2); destruct (bind m k e w2) as [[[]|err] w3];
        simpl in *; rewrite Hk; reflexivity]
  end.
  frame.
Qed.

End TaskNotifications.

(** C5.  When the notification service is available and a task update on an
    existing task changes the assignee from member A to member B and no
    other field, the computed change list is the single descriptor
    "reassigned A -> B", and the update publishes exactly one notification:
    it has kind [task_assigned] (so none has kind [task_updated]) and its
    payload names the case file, the task and the new assignee. *)
Theorem update_task_reassignment_notifies_once :
  forall (e : Env) (w : World) (id : jsstring) (tid : Z) (body : TaskUpdateBody)
         (user : jsstring) (i j : nat) (dao : Dao) (previous : DaoTask)
         (A B : jsstring),
    reliable e ->
    bad_id id = false ->
    (tid <? 1) = false ->
    daoStorage.find_dao id (daos w) = Some (i, dao) ->
    list_find (fun t => task_id t = tid) (tasks dao) = Some (j, previous) ->
    let task := DaoRoutes.apply_task_update body user (nowISO e) previous in
    assignedTo previous = Some A -> A <> [] ->
    assignedTo task = Some B -> B <> [] ->
    A <> B ->
    progress task = progress previous ->
    comment task = comment previous ->
    isApplicable task = isApplicable previous ->
    DaoRoutes.task_changes previous task = [reassigned A B]
    /\ exists (updated : Dao) (w' : World) (n : Notification),
         DaoRoutes.update_task id (Some tid) (Valid body) user e w
           = (Ret (mkResponse 200 (JsonDao (Some updated))), w')
         /\ notifications w' = notifications w ++ [n]
         /\ n_kind n = task_assigned
         /\ p_daoId (n_data n) = id
         /\ p_taskId (n_data n) = Some tid
         /\ p_assignedTo (n_data n) = Some B.
Proof.
  intros e w id tid body user i j dao previous A B Hrel Hbad Htid Hfind Htask
    task HA HAne HB HBne HAB Hprog Hcom Happ.
  assert (Hid : task_id task = tid).
  { apply list_find_Some in Htask as (_ & H & _). exact H. }
  assert (Hne : assignedTo previous <> assignedTo task) by congruence.
  split.
  - unfold DaoRoutes.task_changes, DaoRoutes.assignment_change.
    rewrite Hprog, Hcom, Happ, (bool_decide_eq_true_2 _ Hne).
    rewrite !bool_decide_eq_false_2 by (intros H; apply H; reflexivity).
    rewrite HA, HB. simpl. destruct A; [congruence|]. reflexivity.
  - pose proof (update_task_run e w id tid body user i dao j previous
                  Hbad Htid Hfind Htask) as Hrun.
    cbv zeta in Hrun. fold task in Hrun.
    destruct (notify_task_update_assigned e
                (stored w (<[i := DaoService.merge dao
                                     (only_tasks (<[j := task]> (tasks dao)))
                                     (nowISO e)]> (daos w)))
                id (daoStorage.with_tasks dao (<[j := task]> (tasks dao)))
                previous task Hrel Hne)
      as (title & message & Hn).
    { rewrite HB. destruct B; [congruence | reflexivity]. }
    eexists _, _, _. split; [exact Hrun|]. split; [exact Hn|].
    split; [reflexivity|]. split; [reflexivity|].
    split; [simpl; f_equal; exact Hid | exact HB].
Qed.

(** C5, on the sample case file: task 3 goes from member m1 to member m2. *)
Lemma update_task_reassignment_notifies_once_witness :
  let body := mkTaskUpdateBody None None None (Some (js "m2")) in
  let task :=
    DaoRoutes.apply_task_update body (js "admin") (nowISO Sample.env)
      Sample.task3 in
  DaoRoutes.task_changes Sample.task3 task = [reassigned (js "m1") (js "m2")]
  /\ exists (updated : Dao) (w' : World) (n : Notification),
       DaoRoutes.update_task (js "1") (Some 3) (Valid body) (js "admin")
         Sample.env Sample.world
         = (Ret (mkResponse 200 (JsonDao (Some updated))), w')
       /\ notifications w' = notifications Sample.world ++ [n]
       /\ n_kind n = task_assigned
       /\ p_daoId (n_data n) = js "1"
       /\ p_taskId (n_data n) = Some 3
       /\ p_assignedTo (n_data n) = Some (js "m2").
Proof.
  cbv zeta.
  apply (update_task_reassignment_notifies_once Sample.env Sample.world (js "1")
           3 (mkTaskUpdateBody None None None (Some (js "m2"))) (js "admin")
           0%nat 2%nat Sample.dao1 Sample.task3 (js "m1") (js "m2")).
  - split; intros; reflexivity.
  - vm_compute. reflexivity.
  - reflexivity.
  - vm_compute. reflexivity.
  - vm_compute. reflexivity.
  - reflexivity.
  - vm_compute. discriminate.
  - vm_compute. reflexivity.
  - vm_compute. discriminate.
  - vm_compute. discriminate.
  - reflexivity.
  - reflexivity.
  - reflexivity.
Defined.

(* ===================================================================== *)
(** ** Notifications of a case-file update (C6) *)
(* ===================================================================== *)

Section DaoNotifications.

Import daoStorage DaoService DaoRoutes EmailService.

Lemma notify_team_run e w b u :
  reliable e ->
  exists w' added,
    notify_team b u e w = (Ret tt, w')
    /\ notifications w' = notifications w ++ added
    /\ Forall (fun n => n_kind n = role_update) added.
Proof.
  intros Hrel. unfold notify_team. cbv zeta.
  destruct (nonempty (team_changes (equipe b) (equipe u))); simpl.
  - erewrite bind_ret_run by (apply broadcast_run; exact Hrel).
    destruct (nonempty (team_emails u b)); simpl.
    + erewrite bind_ret_run by apply sendBulkNotification_run.
      eexists _, _. split; [reflexivity|]. split; [reflexivity|].
      repeat constructor.
    + eexists _, _. split; [reflexivity|]. split; [reflexivity|].
      repeat constructor.
  - exists w, []. split; [reflexivity|]. split; [|constructor].
    rewrite app_nil_r. reflexivity.
Qed.

Lemma notify_task_of_dao_run e w id b u has t :
  reliable e ->
  exists b' w' added,
    notify_task_of_dao id b u has t e w = (Ret b', w')
    /\ notifications w' = notifications w ++ added
    /\ Forall (fun n => n_kind n = task_updated) added
    /\ b' = has || nonempty added.
Proof.
  intros Hrel. unfold notify_task_of_dao. cbv zeta.
  destruct (Map_get (task_id t) _) as [prev|].
  - destruct (nonempty (dao_task_diffs prev t)).
    + erewrite bind_ret_run by (apply broadcast_run; exact Hrel).
      rewrite notify_then_respond.
      eexists _, _, _. split; [reflexivity|]. split; [|split].
      * rewrite try_keeps_notifications by frame. reflexivity.
      * repeat constructor.
      * rewrite orb_true_r. reflexivity.
    + exists has, w, []. split; [reflexivity|]. split; [|split].
      * rewrite app_nil_r. reflexivity.
      * constructor.
      * rewrite orb_false_r. reflexivity.
  - exists has, w, []. split; [reflexivity|]. split; [|split].
    + rewrite app_nil_r. reflexivity.
    + constructor.
    + rewrite orb_false_r. reflexivity.
Qed.

Lemma nonempty_app {A} (l k : list A) :
  nonempty (l ++ k) = nonempty l || nonempty k.
Proof. destruct l; reflexivity. Qed.

Lemma task_loop_run e id b u (l : list DaoTask) :
  reliable e ->
  forall w has,
  exists b' w' added,
    for_fold l has (notify_task_of_dao id b u) e w = (Ret b', w')
    /\ notifications w' = notifications w ++ added
    /\ Forall (fun n => n_kind n = task_updated) added
    /\ b' = has || nonempty added.
Proof.
  intros Hrel. induction l as [|t l IH]; intros w has.
  - exists has, w, []. split; [reflexivity|]. split; [|split].
    + rewrite app_nil_r. reflexivity.
    + constructor.
    + rewrite orb_false_r. reflexivity.
  - destruct (notify_task_of_dao_run e w id b u has t Hrel)
      as (b1 & w1 & added1 & Hrun1 & Hn1 & Hk1 & Hb1).
    destruct (IH w1 b1) as (b2 & w2 & added2 & Hrun2 & Hn2 & Hk2 & Hb2).
    exists b2, w2, (added1 ++ added2). split; [|split; [|split]].
    + simpl. rewrite (bind_ret_run _ _ _ _ _ _ Hrun1). exact Hrun2.
    + rewrite Hn2, Hn1, app_assoc. reflexivity.
    + apply Forall_app. split; assumption.
    + rewrite Hb2, Hb1, nonempty_app, orb_assoc. reflexivity.
Qed.

Lemma nonempty_exists {A} (P : A -> Prop) (l : list A) :
  Forall P l -> nonempty l = true -> exists x, x ∈ l /\ P x.
Proof.
  intros H Hne. destruct l as [|x l]; [discriminate|].
  exists x. split; [left|]. apply (Forall_inv H).
Qed.

(** The first block of the update route when the notification service is
    available: it runs to its end, publishes only team and task events, and
    returns whether it published a task event. *)
Lemma notify_changes_run e w id body before updated :
  reliable e ->
  exists b w' added,
    notify_changes id body before updated e w = (Ret b, w')
    /\ notifications w' = notifications w ++ added
    /\ Forall (fun n => n_kind n = role_update \/ n_kind n = task_updated) added
    /\ (b = true <-> exists n, n ∈ added /\ n_kind n = task_updated).
Proof.
  intros Hrel. unfold notify_changes.
  erewrite bind_ret_run by (apply import_run; exact Hrel).
  erewrite bind_ret_run by (apply import_run; exact Hrel).
  assert (Hteam : exists w1 added1,
             match before, v_equipe body with
             | Some b, Some _ => notify_team b updated
             | _, _ => ret tt
             end e w = (Ret tt, w1)
             /\ notifications w1 = notifications w ++ added1
             /\ Forall (fun n => n_kind n = role_update) added1).
  { destruct before as [b|]; [destruct (v_equipe body)|];
      try (apply notify_team_run; exact Hrel);
      (exists w, []; split; [reflexivity|]; split; [|constructor];
       rewrite app_nil_r; reflexivity). }
  destruct Hteam as (w1 & added1 & Hrun1 & Hn1 & Hk1).
  rewrite (bind_ret_run _ _ _ _ _ _ Hrun1).
  assert (Hloop : exists b2 w2 added2,
             match before, v_tasks body with
             | Some b, Some _ =>
                 for_fold (tasks updated) false (notify_task_of_dao id b updated)
             | _, _ => ret false
             end e w1 = (Ret b2, w2)
             /\ notifications w2 = notifications w1 ++ added2
             /\ Forall (fun n => n_kind n = task_updated) added2
             /\ b2 = nonempty added2).
  { destruct before as [b|]; [destruct (v_tasks body)|];
      try (apply (task_loop_run e id b updated (tasks updated) Hrel w1 false));
      (exists false, w1, []; split; [reflexivity|]; split; [|split];
       [rewrite app_nil_r; reflexivity | constructor | reflexivity]). }
  destruct Hloop as (b2 & w2 & added2 & Hrun2 & Hn2 & Hk2 & Hb2).
  exists b2, w2, (added1 ++ added2). split; [exact Hrun2|]. split; [|split].
  - rewrite Hn2, Hn1, app_assoc. reflexivity.
  - apply Forall_app. split.
    + eapply Forall_impl; [|exact Hk1]. intros n Hn. left. exact Hn.
    + eapply Forall_impl; [|exact Hk2]. intros n Hn. right. exact Hn.
  - rewrite Hb2. split.
    + intros Hne. destruct (nonempty_exists _ _ Hk2 Hne) as (n & Hin & Hkind).
      exists n. split; [|exact Hkind]. apply elem_of_app. right. exact Hin.
    + intros (n & Hin & Hkind). apply elem_of_app in Hin as [Hin|Hin].
      * rewrite Forall_forall in Hk1. apply list_elem_of_In in Hin.
        specialize (Hk1 n Hin). congruence.
      * destruct added2; [inversion Hin | reflexivity].
Qed.

(** The second block: the generic event is published exactly when a header
    field changed or the flag is not [true]. *)
Lemma notify_updated_run e w before updated flag :
  reliable e ->
  exists title message data,
    notifications (snd (try_ (notify_updated before updated flag) e w))
    = notifications w
      ++ (if nonempty (match before with
                       | Some b => changed_fields b updated
                       | None => []
                       end)
             || negb (bool_decide (flag = Some true))
          then [mkNotification dao_updated title message data] else []).
Proof.
  intros Hrel. unfold notify_updated.
  erewrite try_bind_ret_run by (apply import_run; exact Hrel).
  cbv zeta.
  destruct (nonempty _ || negb _); simpl.
  - unfold try_, try_catch.
    erewrite bind_ret_run by (apply broadcast_run; exact Hrel).
    eexists _, _, _.
    match goal with
    | |- context [bind ?m ?k e ?w2] =>
        assert (Hk : keeps notifications (bind m k));
        [|specialize (Hk e w2); destruct (bind m k e w2) as [[[]|err] w3];
          simpl in *; rewrite Hk; reflexivity]
    end.
    frame.
  - exists [], [], (payload_dao []). rewrite app_nil_r. reflexivity.
Qed.

Lemma changed_fields_header b u :
  nonempty (changed_fields b u) = true <-> header_changed b u.
Proof.
  unfold changed_fields, header_changed.
  repeat case_bool_decide; simpl; split; intros Hyp; try reflexivity;
    try discriminate; tauto.
Qed.

End DaoNotifications.

(** C6.  When the notification service is available, an update of an
    existing case file publishes the generic [dao_updated] notification if
    and only if some header field (sequence number, subject, reference,
    contracting authority, submission date) differs between the state
    before and the state stored, or the request published no task-level
    notification.  So when task notifications were published and no header
    field changed, there is no generic notification. *)
Theorem update_dao_generic_notification :
  forall (e : Env) (w : World) (id : jsstring) (body : UpdateDaoBody)
         (i : nat) (dao : Dao),
    reliable e ->
    bad_id id = false ->
    daoStorage.find_dao id (daos w) = Some (i, dao) ->
    exists (updated : Dao) (added : list Notification) (w' : World),
      DaoRoutes.update_dao id (Valid body) e w
        = (Ret (mkResponse 200 (JsonDao (Some updated))), w')
      /\ updated = DaoService.merge dao (DaoRoutes.updates_of body) (nowISO e)
      /\ notifications w' = notifications w ++ added
      /\ ((exists n, n ∈ added /\ n_kind n = dao_updated)
          <-> (header_changed dao updated
               \/ ~ exists n, n ∈ added /\ task_level (n_kind n))).
Proof.
  intros e w id body i dao Hrel Hbad Hfind.
  pose proof (update_dao_run e w id body i dao Hbad Hfind) as Hrun.
  cbv zeta in Hrun.
  set (updated := DaoService.merge dao (DaoRoutes.updates_of body) (nowISO e)) in *.
  set (w1 := stored w (<[i := updated]> (daos w))) in *.
  destruct (notify_changes_run e w1 id body (Some dao) updated Hrel)
    as (b & w2 & added1 & Hrun1 & Hn1 & Hk1 & Hb).
  assert (Hflag : flag_block id body (Some dao) updated e w1 = (Ret (Some b), w2)).
  { unfold flag_block. apply try_catch_ret_run.
    rewrite (bind_ret_run _ _ _ _ _ _ Hrun1). reflexivity. }
  rewrite Hflag in Hrun. simpl in Hrun.
  destruct (notify_updated_run e w2 (Some dao) updated (Some b) Hrel)
    as (title & message & data & Hn2).
  set (generic := if nonempty (DaoRoutes.changed_fields dao updated)
                       || negb (bool_decide (Some b = Some true))
                  then [mkNotification dao_updated title message data]
                  else []) in *.
  exists updated, (added1 ++ generic).
  eexists. split; [exact Hrun|]. split; [reflexivity|]. split.
  { rewrite Hn2, Hn1, app_assoc. reflexivity. }
  assert (Hspecific : forall n, n ∈ added1 ->
                        n_kind n = role_update \/ n_kind n = task_updated).
  { intros n Hin. rewrite Forall_forall in Hk1.
    apply Hk1, list_elem_of_In, Hin. }
  assert (Hcond : generic <> [] <->
                  (header_changed dao updated \/ b <> true)).
  { unfold generic. rewrite <- changed_fields_header.
    destruct (nonempty (DaoRoutes.changed_fields dao updated)); simpl.
    - split; [auto | discriminate].
    - case_bool_decide as Hd; simpl.
      + split; [congruence|]. intros [H|H]; [discriminate|congruence].
      + split; [|discriminate]. intros _. right. congruence. }
  assert (Hgen : forall n, n ∈ generic -> n_kind n = dao_updated).
  { intros n Hin. unfold generic in Hin.
    destruct (_ || _); [|inversion Hin].
    apply list_elem_of_singleton in Hin. subst. reflexivity. }
  split.
  - intros (n & Hin & Hkind). apply elem_of_app in Hin as [Hin|Hin].
    { destruct (Hspecific n Hin); congruence. }
    assert (Hne : generic <> []) by (intros Hnil; rewrite Hnil in Hin; inversion Hin).
    apply Hcond in Hne as [Hh|Hb']; [left; exact Hh|].
    right. intros (n' & Hin' & Hlevel). apply elem_of_app in Hin' as [Hin'|Hin'].
    + destruct (Hspecific n' Hin') as [Hk|Hk].
      * rewrite Hk in Hlevel.
        destruct Hlevel as [?|[?|[?|[?|[?|?]]]]]; discriminate.
      * apply Hb'. apply Hb. exists n'. split; assumption.
    + rewrite (Hgen n' Hin') in Hlevel.
      destruct Hlevel as [?|[?|[?|[?|[?|?]]]]]; discriminate.
  - intros Hrhs.
    assert (Hne : generic <> []).
    { apply Hcond. destruct Hrhs as [Hh|Hno]; [left; exact Hh|].
      right. intros Hb'. apply Hno. apply Hb in Hb' as (n & Hin & Hkind).
      exists n. split; [apply elem_of_app; left; exact Hin|].
      rewrite Hkind. right. right. left. reflexivity. }
    destruct generic as [|g rest] eqn:Eg; [congruence|].
    exists g. split; [apply elem_of_app; right; left|].
    apply Hgen. left.
Qed.

(** C6, on the sample case file: a progress change through the case-file
    update publishes a task event and no generic event. *)
Lemma update_dao_generic_notification_witness :
  let body :=
    mkUpdateDaoBody None None None None None None
      (Some [Sample.task1; Sample.task2;
             mkTask 3 (js "Identification des profils") (Some 60) None true
               (Some (js "m1")) None None]) in
  exists (updated : Dao) (added : list Notification) (w' : World),
    DaoRoutes.update_dao (js "1") (Valid body) Sample.env Sample.world
      = (Ret (mkResponse 200 (JsonDao (Some updated))), w')
    /\ updated = DaoService.merge Sample.dao1 (DaoRoutes.updates_of body)
                   (nowISO Sample.env)
    /\ notifications w' = notifications Sample.world ++ added
    /\ ((exists n, n ∈ added /\ n_kind n = dao_updated)
        <-> (header_changed Sample.dao1 updated
             \/ ~ exists n, n ∈ added /\ task_level (n_kind n))).
Proof.
  cbv zeta.
  apply (update_dao_generic_notification Sample.env Sample.world (js "1") _
           0%nat Sample.dao1).
  - split; intros; reflexivity.
  - vm_compute. reflexivity.
  - vm_compute. reflexivity.
Defined.

(** What the sample update of C6 publishes: one task event, nothing else. *)
Example update_dao_sample_kinds :
  List.map n_kind
    (notifications
       (snd (DaoRoutes.update_dao (js "1")
               (Valid (mkUpdateDaoBody None None None None None None
                  (Some [Sample.task1; Sample.task2;
                         mkTask 3 (js "Identification des profils") (Some 60)
                           None true (Some (js "m1")) None None])))
               Sample.env Sample.world)))
  = [task_updated]
  /\ List.map n_kind
       (notifications
          (snd (DaoRoutes.update_dao (js "1")
                  (Valid (mkUpdateDaoBody None (Some (js "Nouveau sujet")) None
                            None None None None))
                  Sample.env Sample.world)))
     = [dao_updated].
Proof. split; vm_compute; reflexivity. Qed.

(* ===================================================================== *)
(** ** The numbering allocator (C7) *)
(* ===================================================================== *)

Section Numbering.

Import DaoService NumberingSpec.

Lemma js_DAO : js "DAO-" = [68; 65; 79; 45]%N.
Proof. reflexivity. Qed.

Lemma js_dash : js "-" = [45]%N.
Proof. reflexivity. Qed.



Lemma startsWith_app p s : startsWith p (p ++ s) = true.
Proof.
  induction p as [|a p IH]; simpl; [reflexivity|].
  rewrite N.eqb_refl. exact IH.
Qed.














Lemma fold_max_nonneg (l : list Z) a : 0 <= a -> 0 <= fold_left Z.max l a.
Proof.
  revert a. induction l as [|x l IH]; intros a Ha; simpl; [exact Ha|].
  apply IH. lia.
Qed.





End Numbering.

Section NumberingRule.

Import DaoService NumberingSpec.



End NumberingRule.




(* ===================================================================== *)
(** ** Mutations survive notification failures (C8) *)
(* ===================================================================== *)

Section Survival.

Import daoStorage DaoService DaoRoutes TaskRoutes.





Lemma flag_block_keeps id body before updated :
  keeps daos (flag_block id body before updated).
Proof.
  unfold flag_block. apply keeps_try_catch; [|intros; apply keeps_ret].
  apply keeps_bind; [apply notify_changes_keeps | intros; apply keeps_ret].
Qed.


End Survival.

Import daoStorage DaoService DaoRoutes TaskRoutes.



(** With every collaborator throwing, the sample task update is answered
    200, the store holds the change, and nothing was published. *)
Example update_task_with_failing_collaborators :
  let r :=
    handle (UpdateTask (js "1") (Some 1)
              (Valid (mkTaskUpdateBody (Some 80) None None None)) (js "admin"))
      Sample.failing_env Sample.world in
  (status <$> match fst r with Ret resp => Some resp | Throw _ => None end) = Some 200
  /\ List.map (fun d => List.map progress (tasks d)) (daos (snd r))
     = [[Some 80; None; Some 20]]
  /\ notifications (snd r) = []
  /\ outbox (snd r) = [].
Proof. vm_compute. repeat split. Qed.

(* ===================================================================== *)
(** ** Every outcome of a mutation request *)
(* ===================================================================== *)

(** Settles a closed decidable proposition by evaluation. *)
Ltac by_computation :=
  refine (bool_decide_unpack _ _); vm_compute; exact I.

Ltac refused_at_once :=
  eexists _, _; split; [reflexivity|]; left; split; [left|]; reflexivity.

Ltac not_found_with Hfind :=
  eexists _, _; split;
  [apply try_catch_ret_run; first [step_with getDaoById_run | step; step_with getDaoById_run]; rewrite Hfind;
   reflexivity
  |left; split; [right|]; reflexivity].

Ltac no_such_task Hfind Htask :=
  eexists _, _; split;
  [apply try_catch_ret_run; first [step_with getDaoById_run | step; step_with getDaoById_run]; rewrite Hfind;
   cbn [fmap option_fmap option_map snd]; rewrite Htask; reflexivity
  |left; split; [right|]; reflexivity].

Section Outcomes.

(** The two notification blocks of the case-file update, as one block. *)
Lemma update_blocks_run id v dao updated e w0 :
  let r1 := flag_block id v (Some dao) updated e w0 in
  snd (try_ (notify_updated (Some dao) updated (flag_of (fst r1))) e (snd r1))
  = snd (bind (flag_block id v (Some dao) updated)
           (fun flag => try_ (notify_updated (Some dao) updated flag)) e w0).
Proof.
  cbv zeta. unfold bind.
  pose proof (flag_block_returns id v (Some dao) updated e w0) as H.
  destruct (flag_block id v (Some dao) updated e w0) as [[f|err] w1];
    simpl in *; [reflexivity | discriminate].
Qed.

(** What a mutation route can do: refuse and leave the world alone; store
    the case file it created and announce it; or replace the addressed case
    file by its merge with the planned update and run the planned
    notification blocks. *)
Lemma handle_plan (r : Request) e w :
  exists resp w',
    handle r e w = (Ret resp, w')
    /\ (((status resp = 400 \/ status resp = 404) /\ w' = w)
        \/ (status resp = 201
            /\ exists body user,
                 r = CreateDao (Valid body) user
                 /\ response_dao resp = Some (created_dao body user e w)
                 /\ w' = snd (try_ (notify_created (created_dao body user e w)) e
                                (stored w (daos w ++ [created_dao body user e w]))))
        \/ ((status resp = 200 \/ status resp = 201)
            /\ exists id i dao p,
                 target r = Some id
                 /\ bad_id id = false
                 /\ find_dao id (daos w) = Some (i, dao)
                 /\ plan r e dao = Some p
                 /\ response_dao resp = Some (merge dao (plan_update p) (nowISO e))
                 /\ w' = snd (plan_notice p e
                                (stored w
                                   (<[i := merge dao (plan_update p) (nowISO e)]>
                                      (daos w)))))
        \/ (status resp = 500 /\ w' = w
            /\ exists id body user i dao,
                 r = AddTask id (Valid body) user
                 /\ bad_id id = false
                 /\ find_dao id (daos w) = Some (i, dao)
                 /\ spread_overflows e (List.map task_id (tasks dao)) = true)).
Proof.
  destruct r as [body user | id body | id taskIds | id tid body user
                 | id body user | id tid body user | id tid]; simpl handle.
  - (* create *)
    destruct body as [v|d]; [|refused_at_once].
    eexists _, _. split; [apply create_dao_run|]. right. left.
    split; [reflexivity|]. exists v, user. split; [reflexivity|].
    split; reflexivity.
  - (* update case file *)
    unfold update_dao. destruct (bad_id id) eqn:Hbad; [refused_at_once|].
    destruct body as [v|d]; [|refused_at_once].
    destruct (find_dao id (daos w)) as [[i dao]|] eqn:Hfind.
    + eexists _, _. split.
      { pose proof (update_dao_run e w id v i dao Hbad Hfind) as Hrun.
        unfold update_dao in Hrun. rewrite Hbad in Hrun. exact Hrun. }
      right. right. left. split; [left; reflexivity|].
      exists id, i, dao. eexists.
      split; [reflexivity|]. split; [exact Hbad|]. split; [exact Hfind|].
      split; [reflexivity|]. split; [reflexivity|].
      apply update_blocks_run.
    + eexists _, _. split.
      { apply try_catch_ret_run. step. step_with getDaoById_run.
        step_with (updateDao_missing id). reflexivity. }
      left. split; [right|]; reflexivity.
  - (* reorder *)
    destruct (bad_id id) eqn:Hbad.
    { unfold reorder_tasks. rewrite Hbad. refused_at_once. }
    destruct (find_dao id (daos w)) as [[i dao]|] eqn:Hfind.
    + destruct taskIds as [[|v vs]|].
      * destruct (reorder_tasks_rejects e w id (Some []) i dao Hbad Hfind I)
          as (resp & Hrun & Hst & _).
        exists resp, w. split; [exact Hrun|]. left. auto.
      * destruct (invalid_ids (List.map task_id (tasks dao)) (v :: vs))
          as [|x l] eqn:Einv.
        -- destruct (incomplete dao (v :: vs)) eqn:Einc.
           ++ destruct (reorder_tasks_rejects e w id (Some (v :: vs)) i dao
                          Hbad Hfind) as (resp & Hrun & Hst & _);
                [right; exact Einc|].
              exists resp, w. split; [exact Hrun|]. left. auto.
           ++ eexists _, _. split;
                [apply (reorder_tasks_run e w id v vs i dao Hbad Hfind Einv Einc)|].
              right. right. left. split; [left; reflexivity|].
              exists id, i, dao. eexists.
              split; [reflexivity|]. split; [exact Hbad|]. split; [exact Hfind|].
              split; [cbn [plan]; rewrite Einv, Einc; reflexivity|].
              split; reflexivity.
        -- destruct (reorder_tasks_rejects e w id (Some (v :: vs)) i dao
                       Hbad Hfind) as (resp & Hrun & Hst & _);
             [left; rewrite Einv; discriminate|].
           exists resp, w. split; [exact Hrun|]. left. auto.
      * destruct (reorder_tasks_rejects e w id None i dao Hbad Hfind I)
          as (resp & Hrun & Hst & _).
        exists resp, w. split; [exact Hrun|]. left. auto.
    + unfold reorder_tasks. rewrite Hbad.
      destruct taskIds as [[|v vs]|];
        [refused_at_once | not_found_with Hfind | refused_at_once].
  - (* update task fields *)
    destruct (bad_id id) eqn:Hbad.
    { unfold update_task. rewrite Hbad. refused_at_once. }
    destruct tid as [tid|].
    2:{ unfold update_task. rewrite Hbad. refused_at_once. }
    destruct (tid <? 1) eqn:Htid.
    { unfold update_task. rewrite Hbad, Htid. refused_at_once. }
    destruct body as [v|d].
    2:{ unfold update_task. rewrite Hbad, Htid. refused_at_once. }
    destruct (find_dao id (daos w)) as [[i dao]|] eqn:Hfind.
    + destruct (list_find (fun t => task_id t = tid) (tasks dao))
        as [[j t]|] eqn:Htask.
      * eexists _, _. split;
          [apply (update_task_run e w id tid v user i dao j t Hbad Htid Hfind Htask)|].
        right. right. left. split; [left; reflexivity|].
        exists id, i, dao. eexists.
        split; [reflexivity|]. split; [exact Hbad|]. split; [exact Hfind|].
        split; [cbn [plan]; rewrite Htid, Htask; reflexivity|].
        split; reflexivity.
      * unfold update_task. rewrite Hbad, Htid. no_such_task Hfind Htask.
    + unfold update_task. rewrite Hbad, Htid. not_found_with Hfind.
  - (* add task *)
    destruct (bad_id id) eqn:Hbad.
    { unfold add_task. rewrite Hbad. refused_at_once. }
    destruct body as [v|d].
    2:{ unfold add_task. rewrite Hbad. refused_at_once. }
    destruct (find_dao id (daos w)) as [[i dao]|] eqn:Hfind.
    + destruct (spread_overflows e (List.map task_id (tasks dao))) eqn:Hspread.
      * eexists _, _. split.
        { unfold add_task. rewrite Hbad.
          erewrite (try_catch_throw_run _ _ _ _ OtherError w); [reflexivity|].
          step. step_with getDaoById_run. rewrite Hfind.
          cbn [fmap option_fmap option_map snd]. step. cbv zeta.
          rewrite Hspread. reflexivity. }
        right. right. right. split; [reflexivity|]. split; [reflexivity|].
        exists id, v, user, i, dao. auto.
      * eexists _, _. split;
          [apply (add_task_run e w id v user i dao Hbad Hfind Hspread)|].
        right. right. left. split; [right; reflexivity|].
        exists id, i, dao. eexists.
        split; [reflexivity|]. split; [exact Hbad|]. split; [exact Hfind|].
        split; [cbn [plan]; rewrite Hspread; reflexivity|]. split; reflexivity.
    + unfold add_task. rewrite Hbad. not_found_with Hfind.
  - (* rename task *)
    destruct (bad_id id) eqn:Hbad.
    { unfold update_task_name. rewrite Hbad. refused_at_once. }
    destruct tid as [tid|].
    2:{ unfold update_task_name. rewrite Hbad. refused_at_once. }
    destruct (tid <? 1) eqn:Htid.
    { unfold update_task_name. rewrite Hbad, Htid. refused_at_once. }
    destruct body as [v|d].
    2:{ unfold update_task_name. rewrite Hbad, Htid. refused_at_once. }
    destruct (find_dao id (daos w)) as [[i dao]|] eqn:Hfind.
    + destruct (list_find (fun t => task_id t = tid) (tasks dao))
        as [[j t]|] eqn:Htask.
      * eexists _, _. split;
          [apply (update_task_name_run e w id tid v user i dao j t
                    Hbad Htid Hfind Htask)|].
        right. right. left. split; [left; reflexivity|].
        exists id, i, dao. eexists.
        split; [reflexivity|]. split; [exact Hbad|]. split; [exact Hfind|].
        split; [cbn [plan]; rewrite Htid, Htask; reflexivity|].
        split; reflexivity.
      * unfold update_task_name. rewrite Hbad, Htid. no_such_task Hfind Htask.
    + unfold update_task_name. rewrite Hbad, Htid. not_found_with Hfind.
  - (* delete task *)
    destruct (bad_id id) eqn:Hbad.
    { unfold delete_task. rewrite Hbad. refused_at_once. }
    destruct tid as [tid|].
    2:{ unfold delete_task. rewrite Hbad. refused_at_once. }
    destruct (tid <? 1) eqn:Htid.
    { unfold delete_task. rewrite Hbad, Htid. refused_at_once. }
    destruct (find_dao id (daos w)) as [[i dao]|] eqn:Hfind.
    + destruct (list_find (fun t => task_id t = tid) (tasks dao))
        as [[j t]|] eqn:Htask.
      * eexists _, _. split;
          [apply (delete_task_run e w id tid i dao j t Hbad Htid Hfind Htask)|].
        right. right. left. split; [left; reflexivity|].
        exists id, i, dao. eexists.
        split; [reflexivity|]. split; [exact Hbad|]. split; [exact Hfind|].
        split; [cbn [plan]; rewrite Htid, Htask; reflexivity|].
        split; reflexivity.
      * unfold delete_task. rewrite Hbad, Htid. no_such_task Hfind Htask.
    + unfold delete_task. rewrite Hbad, Htid. not_found_with Hfind.
Qed.

(** The planned notification blocks never touch the store. *)
Lemma plan_notice_keeps r e dao p :
  plan r e dao = Some p -> keeps daos (plan_notice p).
Proof.
  intros H.
  destruct r as [body user | id body | id taskIds | id tid body user
                 | id body user | id tid body user | id tid]; cbn [plan] in H;
    repeat match type of H with
           | None = Some _ => discriminate H
           | Some _ = Some _ => injection H as <-
           | context [match ?x with _ => _ end] => destruct x
           end; cbn [plan_notice].
  - apply keeps_bind; [apply flag_block_keeps|].
    intros flag. apply keeps_try, notify_updated_keeps.
  - apply keeps_try, notify_reordered_keeps.
  - apply keeps_try, notify_task_update_keeps.
  - apply keeps_try, notify_added_keeps.
  - apply keeps_try, notify_renamed_keeps.
  - apply keeps_try, notify_deleted_keeps.
Qed.

(** The same, as far as the store and the response go. *)
Lemma handle_shape (r : Request) e w :
  exists resp w',
    handle r e w = (Ret resp, w')
    /\ (((status resp = 400 \/ status resp = 404) /\ w' = w)
        \/ (status resp = 201
            /\ exists body user,
                 r = CreateDao (Valid body) user
                 /\ response_dao resp = Some (created_dao body user e w)
                 /\ daos w' = daos w ++ [created_dao body user e w])
        \/ ((status resp = 200 \/ status resp = 201)
            /\ exists id i dao u,
                 target r = Some id
                 /\ bad_id id = false
                 /\ find_dao id (daos w) = Some (i, dao)
                 /\ response_dao resp = Some (merge dao u (nowISO e))
                 /\ daos w' = <[i := merge dao u (nowISO e)]> (daos w))
        \/ (status resp = 500 /\ w' = w)).
Proof.
  destruct (handle_plan r e w) as (resp & w' & Hrun & Hshape).
  exists resp, w'. split; [exact Hrun|].
  destruct Hshape as [H|[(Hst & body & user & Hr & Hresp & ->)
                         |[(Hst & id & i & dao & p & Ht & Hbad & Hfind & Hp
                            & Hresp & ->)
                          |(Hst & Hw & _)]]].
  - left. exact H.
  - right. left. split; [exact Hst|]. exists body, user.
    split; [exact Hr|]. split; [exact Hresp|].
    apply (daos_after_notify _ e w), notify_created_keeps.
  - right. right. left. split; [exact Hst|]. exists id, i, dao, (plan_update p).
    split; [exact Ht|]. split; [exact Hbad|]. split; [exact Hfind|].
    split; [exact Hresp|].
    rewrite (plan_notice_keeps r e dao p Hp). reflexivity.
  - right. right. right. auto.
Qed.

End Outcomes.



(** X2.  A request that is refused (status 400 or 404) leaves the whole
    world as it was: nothing is stored, published or mailed. *)
Theorem refused_request_changes_nothing :
  forall (r : Request) (e : Env) (w : World) (resp : Response) (w' : World),
    handle r e w = (Ret resp, w') ->
    status resp = 400 \/ status resp = 404 ->
    w' = w.
Proof.
  intros r e w resp w' Hrun Hst.
  destruct (handle_shape r e w) as (resp0 & w0 & Hrun0 & Hshape).
  rewrite Hrun in Hrun0. injection Hrun0 as <- <-.
  destruct Hshape as [[_ H]|[[H _]|[[H _]|[H _]]]]; [exact H| | |];
    destruct Hst as [Hs|Hs]; rewrite Hs in H; try discriminate H;
    destruct H as [H|H]; discriminate H.
Qed.

(** X2, for a task added to a case file that does not exist. *)
Lemma refused_request_changes_nothing_witness :
  snd (handle (AddTask (js "404") (Valid Sample.new_task_body) (js "admin"))
         Sample.env Sample.world) = Sample.world.
Proof.
  apply (refused_request_changes_nothing
           (AddTask (js "404") (Valid Sample.new_task_body) (js "admin"))
           Sample.env Sample.world
           (error_response 404 "DAO not found" "DAO_NOT_FOUND")).
  - vm_compute. reflexivity.
  - right. reflexivity.
Defined.

(** X3.  A mutation request never touches a case file whose id is not the
    one it is addressed to: such a case file is found unchanged at the same
    place of the store afterwards. *)
Theorem other_case_files_untouched :
  forall (r : Request) (e : Env) (w : World) (k : nat) (d : Dao),
    daos w !! k = Some d ->
    target r <> Some (dao_id d) ->
    daos (snd (handle r e w)) !! k = Some d.
Proof.
  intros r e w k d Hk Hother.
  destruct (handle_shape r e w) as (resp & w' & Hrun & Hshape).
  rewrite Hrun. simpl.
  destruct Hshape as [[_ ->]|[(_ & body & user & _ & _ & ->)
                              |[(_ & id & i & dao & u & Ht & _ & Hfind & _ & ->)
                               |(_ & ->)]]].
  - exact Hk.
  - apply lookup_app_l_Some. exact Hk.
  - rewrite list_lookup_insert_ne; [exact Hk|].
    intros <-. apply find_dao_lookup in Hfind as Hi.
    rewrite Hk in Hi. injection Hi as ->.
    apply Hother. rewrite Ht. f_equal. symmetry. eapply find_dao_id. exact Hfind.
  - exact Hk.
Qed.

(** X3, for a task update addressed to another case file. *)
Lemma other_case_files_untouched_witness :
  daos (snd (handle
               (UpdateTask (js "9") (Some 1)
                  (Valid (mkTaskUpdateBody (Some 10) None None None)) (js "admin"))
               Sample.env
               (mkWorld [Sample.dao1; Sample.dao_numbered (js "DAO-2025-002")]
                  [] []))) !! 0%nat
  = Some Sample.dao1.
Proof.
  apply (other_case_files_untouched
           (UpdateTask (js "9") (Some 1)
              (Valid (mkTaskUpdateBody (Some 10) None None None)) (js "admin"))
           Sample.env
           (mkWorld [Sample.dao1; Sample.dao_numbered (js "DAO-2025-002")] [] [])
           0%nat Sample.dao1).
  - reflexivity.
  - vm_compute. discriminate.
Defined.

(** X4.  No mutation request removes or re-identifies a case file: every
    stored case file is still at its place afterwards with the same id, the
    same creation stamp and the same submission date (the update route
    ignores a [dateDepot] sent in the body). *)
Theorem case_files_keep_identity :
  forall (r : Request) (e : Env) (w : World) (k : nat) (d : Dao),
    daos w !! k = Some d ->
    exists d' : Dao,
      daos (snd (handle r e w)) !! k = Some d'
      /\ dao_id d' = dao_id d
      /\ createdAt d' = createdAt d
      /\ dateDepot d' = dateDepot d.
Proof.
  intros r e w k d Hk.
  destruct (handle_shape r e w) as (resp & w' & Hrun & Hshape).
  rewrite Hrun. simpl.
  destruct Hshape as [[_ ->]|[(_ & body & user & _ & _ & ->)
                              |[(_ & id & i & dao & u & Ht & _ & Hfind & _ & ->)
                               |(_ & ->)]]].
  - exists d. auto.
  - exists d. split; [apply lookup_app_l_Some; exact Hk | auto].
  - destruct (decide (i = k)) as [->|Hne].
    + apply find_dao_lookup in Hfind. rewrite Hk in Hfind. injection Hfind as <-.
      exists (merge d u (nowISO e)). split; [|auto].
      apply list_lookup_insert_eq. eapply lookup_lt_Some. exact Hk.
    + exists d. split; [|auto]. rewrite list_lookup_insert_ne; [exact Hk | exact Hne].
  - exists d. auto.
Qed.

(** X4, for a case-file update whose body carries a new submission date. *)
Lemma case_files_keep_identity_witness :
  exists d' : Dao,
    daos (snd (handle
                 (UpdateDao (js "1")
                    (Valid (mkUpdateDaoBody None (Some (js "Nouvel objet")) None None
                              (Some (js "2030-01-01")) None None)))
                 Sample.env Sample.world)) !! 0%nat = Some d'
    /\ dao_id d' = dao_id Sample.dao1
    /\ createdAt d' = createdAt Sample.dao1
    /\ dateDepot d' = dateDepot Sample.dao1.
Proof.
  apply (case_files_keep_identity
           (UpdateDao (js "1")
              (Valid (mkUpdateDaoBody None (Some (js "Nouvel objet")) None None
                        (Some (js "2030-01-01")) None None)))
           Sample.env Sample.world 0%nat Sample.dao1).
  reflexivity.
Defined.

Lemma get_dao_found id e w i d :
  bad_id id = false ->
  find_dao id (daos w) = Some (i, d) ->
  get_dao id e w = (Ret (mkResponse 200 (JsonDao (Some d))), w).
Proof.
  intros Hbad Hfind. unfold get_dao. rewrite Hbad. apply try_catch_ret_run.
  step_with getDaoById_run. rewrite Hfind. reflexivity.
Qed.

(** X5.  Read your writes: after a mutation addressed to a case file was
    answered 200 or 201, fetching that case file (GET /dao/:id) answers 200
    with exactly the case file the mutation returned, and changes nothing. *)
Theorem get_dao_after_mutation :
  forall (r : Request) (e e2 : Env) (w w' : World) (resp : Response)
         (id : jsstring),
    handle r e w = (Ret resp, w') ->
    status resp = 200 \/ status resp = 201 ->
    target r = Some id ->
    get_dao id e2 w' = (Ret (mkResponse 200 (JsonDao (response_dao resp))), w').
Proof.
  intros r e e2 w w' resp id Hrun Hst Htarget.
  destruct (handle_shape r e w) as (resp0 & w0 & Hrun0 & Hshape).
  rewrite Hrun in Hrun0. injection Hrun0 as <- <-.
  destruct Hshape as [[H _]|[(_ & body & user & -> & _)
                             |[(_ & id' & i & dao & u & Ht & Hbad & Hfind & Hresp & Hd)
                              |(H & _)]]].
  - destruct H as [H|H], Hst as [Hs|Hs]; rewrite Hs in H; discriminate.
  - discriminate.
  - rewrite Htarget in Ht. injection Ht as <-. rewrite Hresp.
    apply (get_dao_found id e2 w' i); [exact Hbad|].
    rewrite Hd. apply (find_dao_insert id (daos w) i dao); [exact Hfind|].
    simpl. eapply find_dao_id. exact Hfind.
  - destruct Hst as [Hs|Hs]; rewrite Hs in H; discriminate H.
Qed.

(** X5, after a task was added to the sample case file. *)
Lemma get_dao_after_mutation_witness :
  exists (resp : Response) (w' : World),
    handle (AddTask (js "1") (Valid Sample.new_task_body) (js "admin"))
      Sample.env Sample.world = (Ret resp, w')
    /\ get_dao (js "1") Sample.failing_env w'
       = (Ret (mkResponse 200 (JsonDao (response_dao resp))), w').
Proof.
  eexists _, _. split.
  { vm_compute. reflexivity. }
  apply (get_dao_after_mutation
           (AddTask (js "1") (Valid Sample.new_task_body) (js "admin"))
           Sample.env Sample.failing_env Sample.world).
  - vm_compute. reflexivity.
  - right. reflexivity.
  - reflexivity.
Defined.

(* ===================================================================== *)
(** ** What the task routes do to a task list *)
(* ===================================================================== *)

Section TaskLists.

Lemma tasks_merge_only dao ts now : tasks (merge dao (only_tasks ts) now) = ts.
Proof. reflexivity. Qed.

Lemma map_insert_same {A B} (f : A -> B) (l : list A) j x y :
  l !! j = Some x -> f y = f x -> List.map f (<[j := y]> l) = List.map f l.
Proof.
  revert j. induction l as [|a l IH]; intros [|j] Hj Hf; try discriminate.
  - simpl in Hj. injection Hj as ->. simpl. rewrite Hf. reflexivity.
  - simpl. f_equal. apply (IH j); assumption.
Qed.

Lemma map_delete {A B} (f : A -> B) (l : list A) j :
  List.map f (delete j l) = delete j (List.map f l).
Proof.
  revert j. induction l as [|a l IH]; intros [|j]; simpl; try reflexivity.
  f_equal. apply IH.
Qed.

(** A list the reorder route accepts is a rearrangement. *)
Lemma accepted_reordering dao l :
  distinct_ids dao ->
  invalid_ids (List.map task_id (tasks dao)) l = [] ->
  incomplete dao l = false ->
  reordered dao l ≡ₚ tasks dao.
Proof.
  intros Hnd Hinv Hinc.
  destruct (numbers_of_all l (List.map task_id (tasks dao))) as [Hl Hsub];
    [apply invalid_ids_nil, Hinv|].
  apply incomplete_false in Hinc as [Hlen Hsup].
  rewrite Hl, reordered_omap. apply reordered_permutation; [exact Hnd|].
  symmetry. apply NoDup_Permutation_bis.
  - apply NoDup_ListNoDup, Hnd.
  - rewrite Hl, length_map in Hlen. rewrite Hlen, length_map. reflexivity.
  - intros z Hz. apply list_elem_of_In, Hsup, list_elem_of_In, Hz.
Qed.

Lemma reordered_elem dao l t : t ∈ reordered dao l -> t ∈ tasks dao.
Proof.
  unfold reordered. intros H. apply list_elem_of_omap in H as (v & _ & Hf).
  apply find_some in Hf as [Hin _]. apply list_elem_of_In, Hin.
Qed.

(** The plan of a task route, route by route. *)
Lemma task_plan_cases r e dao p :
  task_request r = true ->
  plan r e dao = Some p ->
  (exists id l,
      r = ReorderTasks id (Some l) /\ l <> []
      /\ invalid_ids (List.map task_id (tasks dao)) l = []
      /\ incomplete dao l = false
      /\ p = mkPlan (only_tasks (reordered dao l)) (try_ (notify_reordered id dao)))
  \/ (exists id tid v user j previous,
        r = UpdateTask id (Some tid) (Valid v) user
        /\ list_find (fun t => task_id t = tid) (tasks dao) = Some (j, previous)
        /\ p = mkPlan
                 (only_tasks
                    (<[j := apply_task_update v user (nowISO e) previous]> (tasks dao)))
                 (try_ (notify_task_update id
                          (with_tasks dao
                             (<[j := apply_task_update v user (nowISO e) previous]>
                                (tasks dao)))
                          previous (apply_task_update v user (nowISO e) previous))))
  \/ (exists id v user,
        r = AddTask id (Valid v) user
        /\ spread_overflows e (List.map task_id (tasks dao)) = false
        /\ p = mkPlan (only_tasks (tasks dao ++ [new_task dao v user (nowISO e)]))
                 (try_ (notify_added id (new_task dao v user (nowISO e)))))
  \/ (exists id tid name user j old,
        r = RenameTask id (Some tid) (Valid name) user
        /\ list_find (fun t => task_id t = tid) (tasks dao) = Some (j, old)
        /\ p = mkPlan
                 (only_tasks (<[j := rename name user (nowISO e) old]> (tasks dao)))
                 (try_ (notify_renamed id tid (task_name old)
                          (rename name user (nowISO e) old))))
  \/ (exists id tid j deletedTask,
        r = DeleteTask id (Some tid)
        /\ list_find (fun t => task_id t = tid) (tasks dao) = Some (j, deletedTask)
        /\ p = mkPlan (only_tasks (delete j (tasks dao)))
                 (try_ (notify_deleted id deletedTask))).
Proof.
  intros Hr H.
  destruct r as [body user | id body | id taskIds | id tid body user
                 | id body user | id tid body user | id tid];
    try discriminate Hr; cbn [plan] in H.
  - destruct taskIds as [[|v vs]|]; try discriminate H.
    destruct (invalid_ids (List.map task_id (tasks dao)) (v :: vs)) eqn:Einv;
      [|discriminate H].
    destruct (incomplete dao (v :: vs)) eqn:Einc; [discriminate H|].
    injection H as <-. left. exists id, (v :: vs).
    split; [reflexivity|]. split; [discriminate|]. auto.
  - destruct tid as [tid|]; [|discriminate H].
    destruct body as [v|d]; [|discriminate H].
    destruct (tid <? 1); [discriminate H|].
    destruct (list_find (fun t => task_id t = tid) (tasks dao)) as [[j t]|] eqn:Et;
      [|discriminate H].
    injection H as <-. right. left. exists id, tid, v, user, j, t. auto.
  - destruct body as [v|d]; [|discriminate H].
    destruct (spread_overflows e (List.map task_id (tasks dao))) eqn:Hspread;
      [discriminate H|].
    injection H as <-. right. right. left. exists id, v, user. auto.
  - destruct tid as [tid|]; [|discriminate H].
    destruct body as [v|d]; [|discriminate H].
    destruct (tid <? 1); [discriminate H|].
    destruct (list_find (fun t => task_id t = tid) (tasks dao)) as [[j t]|] eqn:Et;
      [|discriminate H].
    injection H as <-. right. right. right. left. exists id, tid, v, user, j, t. auto.
  - destruct tid as [tid|]; [|discriminate H].
    destruct (tid <? 1); [discriminate H|].
    destruct (list_find (fun t => task_id t = tid) (tasks dao)) as [[j t]|] eqn:Et;
      [|discriminate H].
    injection H as <-. right. right. right. right. exists id, tid, j, t. auto.
Qed.

Lemma plan_keeps_ids_distinct r e dao p :
  task_request r = true ->
  plan r e dao = Some p ->
  distinct_ids dao ->
  (forall id body user, r = AddTask id body user -> safe_ids dao) ->
  distinct_ids (merge dao (plan_update p) (nowISO e)).
Proof.
  intros Hr Hp Hd Hsafe. unfold distinct_ids in *.
  destruct (task_plan_cases r e dao p Hr Hp)
    as [(id & l & _ & _ & Hinv & Hinc & ->)
       |[(id & tid & v & user & j & t & _ & Ht & ->)
        |[(id & v & user & Hadd & _ & ->)
         |[(id & tid & name & user & j & t & _ & Ht & ->)
          |(id & tid & j & t & _ & Ht & ->)]]]];
    cbn [plan_update]; rewrite tasks_merge_only.
  - pose proof (accepted_reordering dao l Hd Hinv Hinc) as Hperm.
    apply (Permutation_map task_id) in Hperm. rewrite Hperm. exact Hd.
  - apply list_find_Some in Ht as (Hj & _ & _).
    rewrite (map_insert_same task_id _ j t); [exact Hd | exact Hj | reflexivity].
  - rewrite map_app. apply list.NoDup_app. split; [exact Hd|]. split.
    + intros x Hx Hin. apply list_elem_of_singleton in Hin. simpl in Hin.
      pose proof (new_task_id_above _ _ (safe_ids_of _ (Hsafe _ _ _ Hadd)) Hx). lia.
    + apply NoDup_singleton.
  - apply list_find_Some in Ht as (Hj & _ & _).
    rewrite (map_insert_same task_id _ j t); [exact Hd | exact Hj | reflexivity].
  - rewrite map_delete. exact (sublist_NoDup _ _ Hd (sublist_delete _ _)).
Qed.

Lemma initial_tasks_progress defaults supplied user now :
  Forall progress_ok (initial_tasks defaults supplied user now).
Proof.
  unfold initial_tasks. apply Forall_lookup. intros i t Hi.
  rewrite list_lookup_imap in Hi.
  destruct (task_source defaults supplied !! i) as [x|]; [|discriminate].
  simpl in Hi. injection Hi as <-.
  unfold progress_ok, stamp_task. simpl. intros ->. reflexivity.
Qed.

Lemma plan_keeps_progress_rule r e dao p :
  takes_task_fields r = false ->
  plan r e dao = Some p ->
  progress_kept dao ->
  progress_kept (merge dao (plan_update p) (nowISO e)).
Proof.
  intros Hr Hp Hd. unfold progress_kept in *.
  assert (Ht : task_request r = true).
  { destruct r; try reflexivity; try discriminate Hr. discriminate Hp. }
  destruct (task_plan_cases r e dao p Ht Hp)
    as [(id & l & _ & _ & Hinv & Hinc & ->)
       |[(id & tid & v & user & j & t & -> & _)
        |[(id & v & user & _ & _ & ->)
         |[(id & tid & name & user & j & t & _ & Hf & ->)
          |(id & tid & j & t & _ & Hf & ->)]]]]; try discriminate Hr;
    cbn [plan_update]; rewrite tasks_merge_only.
  - apply list.Forall_forall. intros t Hin.
    apply reordered_elem in Hin.
    revert t Hin. apply list.Forall_forall. exact Hd.
  - apply list.Forall_app. split; [exact Hd|].
    constructor; [|constructor].
    unfold progress_ok, new_task. simpl. intros ->. reflexivity.
  - apply list_find_Some in Hf as (Hj & _ & _).
    apply Forall_insert; [exact Hd|].
    exact (Forall_lookup_1 _ _ _ _ Hd Hj).
  - apply Forall_delete. exact Hd.
Qed.

(** With distinct ids, a task is the only one of its id. *)
Lemma only_task_with_id (dao : Dao) j t :
  distinct_ids dao ->
  tasks dao !! j = Some t ->
  forall k x, tasks dao !! k = Some x -> task_id x = task_id t -> k = j.
Proof.
  intros Hnd Hj k x Hk Hid.
  apply (NoDup_lookup (List.map task_id (tasks dao)) k j (task_id t) Hnd).
  - rewrite lookup_map, Hk. simpl. f_equal. exact Hid.
  - rewrite lookup_map, Hj. reflexivity.
Qed.

(** The first task with the id of the path. *)
Lemma list_find_first (l1 l2 : list DaoTask) t tid :
  task_id t = tid ->
  tid ∉ List.map task_id l1 ->
  list_find (fun x => task_id x = tid) (l1 ++ t :: l2) = Some (List.length l1, t).
Proof.
  intros Hid Hnot. apply list_find_Some. split; [|split].
  - apply list_lookup_middle. reflexivity.
  - exact Hid.
  - intros j y Hj Hlt Hy. apply Hnot.
    rewrite lookup_app_l in Hj by exact Hlt.
    apply list_elem_of_In, in_map_iff. exists y. split; [exact Hy|].
    apply list_elem_of_In. eapply list_elem_of_lookup_2. exact Hj.
Qed.

End TaskLists.

(** X6.  The five task routes (reorder, update, add, rename, delete) keep
    the task ids of every stored case file pairwise distinct: when it holds
    before a request it holds afterwards, whatever the request and its
    outcome -- for the add route provided the ids present are safe
    integers (beyond 2^53 the id computed repeats the greatest one). *)
Theorem task_requests_keep_ids_distinct :
  forall (r : Request) (e : Env) (w : World),
    task_request r = true ->
    Forall distinct_ids (daos w) ->
    (forall id body user, r = AddTask id body user -> Forall safe_ids (daos w)) ->
    Forall distinct_ids (daos (snd (handle r e w))).
Proof.
  intros r e w Hr Hall Hsafe.
  destruct (handle_plan r e w) as (resp & w' & Hrun & Hshape).
  rewrite Hrun. cbn [snd].
  destruct Hshape as [[_ ->]|[(_ & body & user & -> & _)
                              |[(_ & id & i & dao & p & _ & _ & Hfind & Hp & _ & ->)
                               |(_ & -> & _)]]].
  - exact Hall.
  - discriminate Hr.
  - rewrite (plan_notice_keeps r e dao p Hp). cbn [stored daos].
    pose proof (find_dao_lookup _ _ _ _ Hfind) as Hi.
    apply Forall_insert; [exact Hall|].
    apply (plan_keeps_ids_distinct r); [exact Hr | exact Hp | |].
    + eapply Forall_lookup_1; [exact Hall | exact Hi].
    + intros id' body user Hadd.
      eapply Forall_lookup_1; [exact (Hsafe _ _ _ Hadd) | exact Hi].
  - exact Hall.
Qed.

(** X6, for a task added to the sample case file. *)
Lemma task_requests_keep_ids_distinct_witness :
  Forall distinct_ids
    (daos (snd (handle (AddTask (js "1") (Valid Sample.new_task_body) (js "admin"))
                  Sample.env Sample.world))).
Proof.
  apply (task_requests_keep_ids_distinct
           (AddTask (js "1") (Valid Sample.new_task_body) (js "admin"))
           Sample.env Sample.world).
  - reflexivity.
  - constructor; [|constructor]. unfold distinct_ids. by_computation.
  - intros _ _ _ _. constructor; [|constructor].
    repeat (constructor; [unfold safe_integer; simpl; lia|]). constructor.
Defined.

(** X7.  Every route but the two whose body carries fields of existing
    tasks (the case-file update and the task update) keeps the progress
    rule: if in every stored case file each task that is not applicable has
    a null progress, the same holds after the request; in particular the
    tasks of a created case file and an added task obey the rule. *)
Theorem progress_rule_kept_by_other_routes :
  forall (r : Request) (e : Env) (w : World),
    takes_task_fields r = false ->
    Forall progress_kept (daos w) ->
    Forall progress_kept (daos (snd (handle r e w))).
Proof.
  intros r e w Hr Hall.
  destruct (handle_plan r e w) as (resp & w' & Hrun & Hshape).
  rewrite Hrun. cbn [snd].
  destruct Hshape as [[_ ->]|[(_ & body & user & -> & _ & ->)
                              |[(_ & id & i & dao & p & _ & _ & Hfind & Hp & _ & ->)
                               |(_ & -> & _)]]]; [| | |exact Hall].
  - exact Hall.
  - rewrite (keeps_try daos _ (notify_created_keeps _)). cbn [stored daos].
    apply list.Forall_app. split; [exact Hall|].
    constructor; [|constructor]. apply initial_tasks_progress.
  - rewrite (plan_notice_keeps r e dao p Hp). cbn [stored daos].
    apply Forall_insert; [exact Hall|].
    apply (plan_keeps_progress_rule r); [exact Hr | exact Hp|].
    eapply Forall_lookup_1; [exact Hall|]. eapply find_dao_lookup. exact Hfind.
Qed.

(** X7, for a case file created from the default tasks. *)
Lemma progress_rule_kept_by_other_routes_witness :
  Forall progress_kept
    (daos (snd (handle (CreateDao (Valid Sample.create_body) (js "admin"))
                  Sample.env Sample.world))).
Proof.
  apply (progress_rule_kept_by_other_routes
           (CreateDao (Valid Sample.create_body) (js "admin"))
           Sample.env Sample.world).
  - reflexivity.
  - constructor; [|constructor].
    repeat (constructor; [intros H; first [reflexivity | discriminate H]|]).
    constructor.
Defined.

(** X8.  Deleting a task removes the first task that has the id of the
    path and nothing else: the tasks before and after it keep their order,
    the other fields of the case file are merged unchanged, and the
    response names the deleted task.  When the ids are distinct the id is
    gone from the case file. *)
Theorem delete_task_removes_first_match :
  forall (e : Env) (w : World) (daoId : jsstring) (tid : Z) (i : nat) (dao : Dao)
         (l1 l2 : list DaoTask) (t : DaoTask),
    bad_id daoId = false ->
    1 <= tid ->
    find_dao daoId (daos w) = Some (i, dao) ->
    tasks dao = l1 ++ t :: l2 ->
    task_id t = tid ->
    tid ∉ List.map task_id l1 ->
    let updated := merge dao (only_tasks (l1 ++ l2)) (nowISO e) in
    exists w' : World,
      delete_task daoId (Some tid) e w
        = (Ret (mkResponse 200
                  (JsonDeleted (js "Task deleted successfully") tid (task_name t)
                     (Some updated))), w')
      /\ daos w' = <[i := updated]> (daos w)
      /\ (distinct_ids dao -> tid ∉ List.map task_id (tasks updated)).
Proof.
  intros e w daoId tid i dao l1 l2 t Hbad Htid Hfind Hl Hid Hnot updated.
  assert (Hlt : (tid <? 1) = false) by (apply Z.ltb_ge; exact Htid).
  pose proof (list_find_first l1 l2 t tid Hid Hnot) as Hf. rewrite <- Hl in Hf.
  pose proof (delete_task_run e w daoId tid i dao (List.length l1) t
                Hbad Hlt Hfind Hf) as Hrun.
  cbv zeta in Hrun. rewrite Hl, delete_middle, Hid in Hrun.
  eexists. split; [exact Hrun|]. split.
  - apply (daos_after_notify _ e w), notify_deleted_keeps.
  - unfold distinct_ids, updated. rewrite Hl, tasks_merge_only.
    rewrite !map_app. cbn [List.map]. rewrite Hid.
    intros Hnd Hin. apply list.NoDup_app in Hnd as (_ & Hdisj & Hnd2).
    apply list.NoDup_cons in Hnd2 as [Hnot2 _].
    apply elem_of_app in Hin as [Hin|Hin]; [exact (Hnot Hin) | exact (Hnot2 Hin)].
Qed.

(** X8, for task 2 of the sample case file. *)
Lemma delete_task_removes_first_match_witness :
  let updated :=
    merge Sample.dao1 (only_tasks ([Sample.task1] ++ [Sample.task3]))
      (nowISO Sample.env) in
  exists w' : World,
    delete_task (js "1") (Some 2) Sample.env Sample.world
      = (Ret (mkResponse 200
                (JsonDeleted (js "Task deleted successfully") 2
                   (task_name Sample.task2) (Some updated))), w')
    /\ daos w' = <[0%nat := updated]> (daos Sample.world)
    /\ (distinct_ids Sample.dao1 -> 2 ∉ List.map task_id (tasks updated)).
Proof.
  apply (delete_task_removes_first_match Sample.env Sample.world (js "1") 2 0%nat
           Sample.dao1 [Sample.task1] [Sample.task3] Sample.task2).
  - reflexivity.
  - lia.
  - reflexivity.
  - reflexivity.
  - reflexivity.
  - by_computation.
Defined.

(** X9.  On a store whose case files have pairwise distinct task ids (no
    task object then occurs twice in a list), a task update or a rename
    that is answered 200 rewrites exactly one task of the addressed case
    file, the one with the id of the path: the task keeps its id and place,
    every other task and every other field of the case file but the update
    stamp is as before, and the response carries the stored case file.  An
    update never changes the name of the task; a rename changes nothing but
    the name and the two stamps. *)
Theorem task_edit_touches_one_task :
  forall (r : Request) (e : Env) (w w' : World) (resp : Response) (tid : Z),
    Forall distinct_ids (daos w) ->
    handle r e w = (Ret resp, w') ->
    status resp = 200 ->
    edited_task r = Some tid ->
    exists (i j : nat) (dao : Dao) (t t' : DaoTask),
      daos w !! i = Some dao
      /\ target r = Some (dao_id dao)
      /\ tasks dao !! j = Some t
      /\ task_id t = tid
      /\ (forall k x, tasks dao !! k = Some x -> task_id x = tid -> k = j)
      /\ task_id t' = tid
      /\ lastUpdatedAt t' = Some (nowISO e)
      /\ response_dao resp
         = Some (merge dao (only_tasks (<[j := t']> (tasks dao))) (nowISO e))
      /\ daos w'
         = <[i := merge dao (only_tasks (<[j := t']> (tasks dao))) (nowISO e)]> (daos w)
      /\ match r with
         | UpdateTask _ _ _ _ => task_name t' = task_name t
         | _ =>
             progress t' = progress t /\ comment t' = comment t
             /\ isApplicable t' = isApplicable t /\ assignedTo t' = assignedTo t
         end.
Proof.
  intros r e w w' resp tid Hall Hrun Hst Hed.
  destruct (handle_plan r e w) as (resp0 & w0 & Hrun0 & Hshape).
  rewrite Hrun in Hrun0. injection Hrun0 as <- <-.
  destruct Hshape as [[H _]|[(_ & body & user & -> & _)
                             |[(_ & id & i & dao & p & Ht & _ & Hfind & Hp & Hresp & Hw)
                              |(H5 & _)]]];
    [| | |rewrite Hst in H5; discriminate H5].
  - destruct H as [H|H]; rewrite Hst in H; discriminate H.
  - discriminate Hed.
  - assert (Htr : task_request r = true) by (destruct r; try reflexivity; discriminate Hed).
    pose proof (plan_notice_keeps r e dao p Hp) as Hkeep.
    assert (Hd : daos w' = <[i := merge dao (plan_update p) (nowISO e)]> (daos w)).
    { rewrite Hw, Hkeep. reflexivity. }
    pose proof (find_dao_lookup _ _ _ _ Hfind) as Hi.
    pose proof (find_dao_id _ _ _ _ Hfind) as Hdid.
    destruct (task_plan_cases r e dao p Htr Hp)
      as [(id' & l & -> & _)
         |[(id' & tid' & v & user & j & t & -> & Hf & ->)
          |[(id' & v & user & -> & _)
           |[(id' & tid' & name & user & j & t & -> & Hf & ->)
            |(id' & tid' & j & t & -> & _)]]]]; try discriminate Hed;
      simpl in Hed; injection Hed as ->; simpl in Ht; injection Ht as ->;
      apply list_find_Some in Hf as (Hj & Hid & _);
      pose proof (only_task_with_id _ _ _ (Forall_lookup_1 _ _ _ _ Hall Hi) Hj)
        as Honly; rewrite Hid in Honly.
    + exists i, j, dao, t, (apply_task_update v user (nowISO e) t).
      rewrite Hdid. repeat (split; [first [assumption | reflexivity]|]).
      reflexivity.
    + exists i, j, dao, t, (rename name user (nowISO e) t).
      rewrite Hdid. repeat (split; [first [assumption | reflexivity]|]).
      repeat split.
Qed.

(** X9, for a rename of task 3 of the sample case file. *)
Lemma task_edit_touches_one_task_witness :
  exists (i j : nat) (dao : Dao) (t t' : DaoTask),
    daos Sample.world !! i = Some dao
    /\ target (RenameTask (js "1") (Some 3) (Valid (js " <b>Profils</b> "))
                 (js "admin")) = Some (dao_id dao)
    /\ tasks dao !! j = Some t
    /\ task_id t = 3
    /\ (forall k x, tasks dao !! k = Some x -> task_id x = 3 -> k = j)
    /\ task_id t' = 3
    /\ lastUpdatedAt t' = Some (nowISO Sample.env)
    /\ response_dao
         (mkResponse 200
            (JsonDao
               (Some (merge Sample.dao1
                        (only_tasks
                           (<[2%nat := rename (js " <b>Profils</b> ") (js "admin")
                                         (nowISO Sample.env) Sample.task3]>
                              (tasks Sample.dao1)))
                        (nowISO Sample.env)))))
       = Some (merge dao (only_tasks (<[j := t']> (tasks dao))) (nowISO Sample.env))
    /\ daos (snd (handle
                    (RenameTask (js "1") (Some 3) (Valid (js " <b>Profils</b> "))
                       (js "admin")) Sample.env Sample.world))
       = <[i := merge dao (only_tasks (<[j := t']> (tasks dao))) (nowISO Sample.env)]>
           (daos Sample.world)
    /\ (progress t' = progress t /\ comment t' = comment t
        /\ isApplicable t' = isApplicable t /\ assignedTo t' = assignedTo t).
Proof.
  apply (task_edit_touches_one_task
           (RenameTask (js "1") (Some 3) (Valid (js " <b>Profils</b> ")) (js "admin"))
           Sample.env Sample.world).
  - constructor; [|constructor]. unfold distinct_ids. by_computation.
  - vm_compute. reflexivity.
  - reflexivity.
  - reflexivity.
Defined.

(** X10.  Reordering is undone by reordering back: on a case file with
    distinct task ids, after any accepted rearrangement, the request that
    lists the ids in their original order is accepted too and leaves the
    case file exactly as it was at the start but for its update stamp. *)
Theorem reorder_tasks_round_trip :
  forall (e e2 : Env) (w : World) (id : jsstring) (i : nat) (dao : Dao)
         (ids : list Z),
    bad_id id = false ->
    find_dao id (daos w) = Some (i, dao) ->
    distinct_ids dao ->
    ids <> [] ->
    ids ≡ₚ List.map task_id (tasks dao) ->
    let w1 := snd (reorder_tasks id (Some (List.map JNum ids)) e w) in
    let restored := merge dao no_updates (nowISO e2) in
    exists w2 : World,
      reorder_tasks id (Some (List.map JNum (List.map task_id (tasks dao)))) e2 w1
        = (Ret (mkResponse 200 (JsonDao (Some restored))), w2)
      /\ daos w2 = <[i := restored]> (daos w).
Proof.
  intros e e2 w id i dao ids Hbad Hfind Hnd Hne Hperm w1 restored.
  assert (Hin : forall z, z ∈ ids -> z ∈ List.map task_id (tasks dao))
    by (intros z Hz; rewrite <- Hperm; exact Hz).
  assert (Hinv : invalid_ids (List.map task_id (tasks dao)) (List.map JNum ids) = []).
  { apply invalid_ids_nil. intros v Hv.
    apply list_elem_of_In, in_map_iff in Hv as (z & <- & Hz).
    exists z. split; [reflexivity|]. apply Hin, list_elem_of_In, Hz. }
  assert (Hinc : incomplete dao (List.map JNum ids) = false).
  { apply incomplete_false. split.
    - rewrite length_map, (Permutation_length Hperm), length_map. reflexivity.
    - intros z Hz. rewrite numbers_of_map, Hperm. exact Hz. }
  pose proof (accepted_reordering dao _ Hnd Hinv Hinc) as HT1.
  destruct ids as [|z zs]; [congruence|].
  pose proof (reorder_tasks_run e w id (JNum z) (List.map JNum zs) i dao
                Hbad Hfind Hinv Hinc) as Hrun1.
  cbv zeta in Hrun1.
  change (JNum z :: List.map JNum zs) with (List.map JNum (z :: zs)) in Hrun1.
  set (T1 := reordered dao (List.map JNum (z :: zs))) in *.
  set (dao1 := merge dao (only_tasks T1) (nowISO e)) in *.
  assert (Hd1 : daos w1 = <[i := dao1]> (daos w)).
  { unfold w1. rewrite Hrun1. cbn [snd].
    apply (daos_after_notify _ e w), notify_reordered_keeps. }
  assert (Hfind1 : find_dao id (daos w1) = Some (i, dao1)).
  { rewrite Hd1. apply (find_dao_insert id (daos w) i dao); [exact Hfind|].
    simpl. eapply find_dao_id. exact Hfind. }
  assert (Hids1 : List.map task_id T1 ≡ₚ List.map task_id (tasks dao))
    by (apply Permutation_map; exact HT1).
  assert (Hnd1 : NoDup (List.map task_id T1)) by (rewrite Hids1; exact Hnd).
  assert (Hinv2 : invalid_ids (List.map task_id (tasks dao1))
                    (List.map JNum (List.map task_id (tasks dao))) = []).
  { apply invalid_ids_nil. intros v Hv.
    apply list_elem_of_In, in_map_iff in Hv as (z' & <- & Hz).
    exists z'. split; [reflexivity|].
    change (tasks dao1) with T1. rewrite Hids1. apply list_elem_of_In, Hz. }
  assert (Hinc2 : incomplete dao1 (List.map JNum (List.map task_id (tasks dao)))
                  = false).
  { apply incomplete_false. split.
    - change (tasks dao1) with T1.
      rewrite !length_map, (Permutation_length HT1). reflexivity.
    - intros z' Hz. rewrite numbers_of_map.
      change (tasks dao1) with T1 in Hz. rewrite <- Hids1. exact Hz. }
  assert (Hback : reordered dao1 (List.map JNum (List.map task_id (tasks dao)))
                  = tasks dao).
  { rewrite reordered_omap. apply omap_own_ids. intros t Ht.
    unfold task_with_id. change (tasks dao1) with T1.
    apply find_own_id; [exact Hnd1|]. rewrite HT1. exact Ht. }
  destruct (List.map JNum (List.map task_id (tasks dao))) as [|v vs] eqn:El.
  { destruct (tasks dao); [|discriminate El].
    apply Permutation_nil_r in Hperm. discriminate Hperm. }
  pose proof (reorder_tasks_run e2 w1 id v vs i dao1 Hbad Hfind1 Hinv2 Hinc2)
    as Hrun2.
  cbv zeta in Hrun2. rewrite Hback in Hrun2.
  eexists. split.
  - rewrite Hrun2. reflexivity.
  - rewrite (daos_after_notify _ e2 w1 _ (notify_reordered_keeps _ _)).
    rewrite Hd1, list_insert_insert_eq. reflexivity.
Qed.

(** X10, on the sample case file reordered as [3, 1, 2]. *)
Lemma reorder_tasks_round_trip_witness :
  let w1 := snd (reorder_tasks (js "1") (Some (List.map JNum [3; 1; 2]))
                   Sample.env Sample.world) in
  let restored := merge Sample.dao1 no_updates (nowISO Sample.failing_env) in
  exists w2 : World,
    reorder_tasks (js "1")
      (Some (List.map JNum (List.map task_id (tasks Sample.dao1))))
      Sample.failing_env w1
      = (Ret (mkResponse 200 (JsonDao (Some restored))), w2)
    /\ daos w2 = <[0%nat := restored]> (daos Sample.world).
Proof.
  apply (reorder_tasks_round_trip Sample.env Sample.failing_env Sample.world
           (js "1") 0%nat Sample.dao1 [3; 1; 2]).
  - reflexivity.
  - reflexivity.
  - by_computation.
  - discriminate.
  - by_computation.
Defined.

(* ===================================================================== *)
(** ** More on sanitization *)
(* ===================================================================== *)

Section Trimmed.

Lemma strip_from_sublist m s : strip_from m s `sublist_of` s.
Proof.
  revert m. induction s as [|c r IH]; intros m; [constructor|].
  cbn [strip_from]. destruct m.
  - destruct (c =? ch_gt)%N; apply sublist_cons, IH.
  - destruct ((c =? ch_lt)%N && has_gt r).
    + apply sublist_cons, IH.
    + apply sublist_skip, IH.
Qed.

Lemma trim_sublist s : trim s `sublist_of` s.
Proof.
  unfold trim.
  destruct (trimStart_suffix s) as [p Hp].
  destruct (trimEnd_prefix (trimStart s)) as [q Hq].
  rewrite Hp at 2. apply sublist_inserts_l.
  rewrite Hq at 2. apply sublist_inserts_r. reflexivity.
Qed.

Lemma trimStart_fixed_no_blank s : trimStart s = s -> starts_blank s = false.
Proof.
  destruct s as [|c r]; [reflexivity|]. cbn [trimStart starts_blank].
  destruct (is_ws c); [|reflexivity].
  intros H. exfalso. destruct (trimStart_suffix r) as [p Hp].
  rewrite H in Hp. apply (f_equal (@List.length N)) in Hp.
  rewrite length_app in Hp. simpl in Hp. lia.
Qed.

Lemma trim_no_blank_ends s :
  starts_blank (trim s) = false /\ ends_blank (trim s) = false.
Proof.
  unfold trim. split.
  - apply trimStart_fixed_no_blank, trimStart_trimEnd, trimStart_idem.
  - unfold ends_blank, trimEnd. rewrite rev_involutive.
    apply trimStart_fixed_no_blank, trimStart_idem.
Qed.

Lemma tag_free_new_comment (c : option jsstring) :
  has_tag (default [] (if truthy_opt c then sanitizeString <$> c else None)) = false.
Proof.
  destruct c as [c|]; [|reflexivity].
  destruct (truthy_opt (Some c)); [|reflexivity].
  apply sanitizeString_no_tag.
Qed.

Lemma initial_tasks_tag_free defaults supplied user now :
  Forall tag_free (initial_tasks defaults supplied user now).
Proof.
  unfold initial_tasks. apply Forall_lookup. intros i t Hi.
  rewrite list_lookup_imap in Hi.
  destruct (task_source defaults supplied !! i) as [x|]; [|discriminate].
  simpl in Hi. injection Hi as <-. split.
  - apply sanitizeString_no_tag.
  - apply tag_free_new_comment.
Qed.

Lemma plan_keeps_tag_free r e dao p :
  task_request r = true ->
  plan r e dao = Some p ->
  tag_free_tasks dao ->
  tag_free_tasks (merge dao (plan_update p) (nowISO e)).
Proof.
  intros Hr Hp Hd. unfold tag_free_tasks in *.
  destruct (task_plan_cases r e dao p Hr Hp)
    as [(id & l & _ & _ & Hinv & Hinc & ->)
       |[(id & tid & v & user & j & t & _ & Hf & ->)
        |[(id & v & user & _ & _ & ->)
         |[(id & tid & name & user & j & t & _ & Hf & ->)
          |(id & tid & j & t & _ & Hf & ->)]]]];
    cbn [plan_update]; rewrite tasks_merge_only.
  - apply list.Forall_forall. intros t Hin. apply reordered_elem in Hin.
    revert t Hin. apply list.Forall_forall. exact Hd.
  - apply list_find_Some in Hf as (Hj & _ & _).
    destruct (Forall_lookup_1 _ _ _ _ Hd Hj) as [Hn Hc].
    apply Forall_insert; [exact Hd|]. split; [exact Hn|].
    unfold apply_task_update. cbn [comment].
    destruct (tu_comment v) as [c|]; [apply sanitizeString_no_tag | exact Hc].
  - apply list.Forall_app. split; [exact Hd|]. constructor; [|constructor]. split.
    + apply sanitizeString_no_tag.
    + apply tag_free_new_comment.
  - apply list_find_Some in Hf as (Hj & _ & _).
    destruct (Forall_lookup_1 _ _ _ _ Hd Hj) as [_ Hc].
    apply Forall_insert; [exact Hd|]. split; [apply sanitizeString_no_tag | exact Hc].
  - apply Forall_delete. exact Hd.
Qed.

End Trimmed.

(** X11.  [sanitizeString] only removes code units and returns a trimmed
    string: its result is a subsequence of the input, and neither starts nor
    ends with a blank. *)
Theorem sanitizeString_only_removes :
  forall s : jsstring,
    sanitizeString s `sublist_of` s
    /\ starts_blank (sanitizeString s) = false
    /\ ends_blank (sanitizeString s) = false.
Proof.
  intros s. unfold sanitizeString. split.
  - transitivity (strip_tags s); [apply trim_sublist | apply strip_from_sublist].
  - apply trim_no_blank_ends.
Qed.

(** X12.  Every route but the case-file update, which stores the tasks of
    its body as they come, keeps task names and task comments free of
    markup tags: when no stored task name or comment holds a tag before a
    request, none does afterwards. *)
Theorem task_text_stays_tag_free :
  forall (r : Request) (e : Env) (w : World),
    stores_body_tasks r = false ->
    Forall tag_free_tasks (daos w) ->
    Forall tag_free_tasks (daos (snd (handle r e w))).
Proof.
  intros r e w Hr Hall.
  destruct (handle_plan r e w) as (resp & w' & Hrun & Hshape).
  rewrite Hrun. cbn [snd].
  destruct Hshape as [[_ ->]|[(_ & body & user & -> & _ & ->)
                              |[(_ & id & i & dao & p & _ & _ & Hfind & Hp & _ & ->)
                               |(_ & -> & _)]]]; [| | |exact Hall].
  - exact Hall.
  - rewrite (keeps_try daos _ (notify_created_keeps _)). cbn [stored daos].
    apply list.Forall_app. split; [exact Hall|].
    constructor; [|constructor]. apply initial_tasks_tag_free.
  - rewrite (plan_notice_keeps r e dao p Hp). cbn [stored daos].
    apply Forall_insert; [exact Hall|].
    apply (plan_keeps_tag_free r); [|exact Hp|].
    + destruct r; try reflexivity; [discriminate Hp | discriminate Hr].
    + eapply Forall_lookup_1; [exact Hall|]. eapply find_dao_lookup. exact Hfind.
Qed.

(** X12, for a comment with markup sent to task 1 of the sample case file. *)
Lemma task_text_stays_tag_free_witness :
  Forall tag_free_tasks
    (daos (snd (handle
                  (UpdateTask (js "1") (Some 1)
                     (Valid (mkTaskUpdateBody None (Some (js "<i>vu</i> ok")) None None))
                     (js "admin"))
                  Sample.env Sample.world))).
Proof.
  apply (task_text_stays_tag_free
           (UpdateTask (js "1") (Some 1)
              (Valid (mkTaskUpdateBody None (Some (js "<i>vu</i> ok")) None None))
              (js "admin"))
           Sample.env Sample.world).
  - reflexivity.
  - constructor; [|constructor].
    repeat (constructor; [split; vm_compute; reflexivity|]). constructor.
Defined.

(* ===================================================================== *)
(** ** The announcement of a mutation *)
(* ===================================================================== *)

Section Announcements.

Import EmailService.

(** What the shared notification pattern leaves behind, whichever of its
    collaborators fail: either an import or the publication threw and
    nothing happened, or the event was published and -- if the user
    directory answered -- one mail per distinct address was attempted. *)
Lemma announce_outcome k title message data subject text e w w' :
  w' = snd (try_ (announce k title message data subject text) e w) ->
  let n := mkNotification k title message data in
  (w' = w /\ ~ reliable e)
  \/ (notifications w' = notifications w ++ [n]
      /\ daos w' = daos w
      /\ match allUsers e (published w n) with
         | Some us =>
             outbox w'
             = outbox w
               ++ List.map (notification_mail e subject text)
                    (unique_recipients (emails_of us))
         | None => outbox w' = outbox w
         end).
Proof.
  intros -> n. unfold announce, try_, try_catch, bind, import_.
  destruct (importThrows e w notificationService) eqn:E1.
  { left. split; [reflexivity|]. intros [H _]. rewrite H in E1. discriminate. }
  destruct (importThrows e w authService) eqn:E2.
  { left. split; [reflexivity|]. intros [H _]. rewrite H in E2. discriminate. }
  destruct (importThrows e w emailService) eqn:E3.
  { left. split; [reflexivity|]. intros [H _]. rewrite H in E3. discriminate. }
  unfold broadcast. fold n.
  destruct (broadcastThrows e w n) eqn:E4.
  { left. split; [reflexivity|]. intros [_ H]. rewrite H in E4. discriminate. }
  right. fold (published w n). unfold getAllUsers.
  destruct (allUsers e (published w n)) as [us|].
  - rewrite sendBulkNotification_run. cbn. auto.
  - cbn. auto.
Qed.

End Announcements.

(** X13.  A create, reorder, add, rename or delete request that is
    answered 200 or 201 publishes at most one in-app event and mails only
    after publishing it.  Either the notification service failed and
    nothing was published or mailed; or exactly one event was published, of
    the kind of the route, naming the case file of the response and the
    task concerned, and then either no mail was attempted or, the user
    directory having answered, exactly one mail per distinct non-empty user
    address, all with the same subject and text. *)
Theorem accepted_request_announces_once :
  forall (r : Request) (e : Env) (w w' : World) (resp : Response) (k : NotifKind),
    handle r e w = (Ret resp, w') ->
    status resp = 200 \/ status resp = 201 ->
    announced_kind r = Some k ->
    (notifications w' = notifications w /\ outbox w' = outbox w /\ ~ reliable e)
    \/ exists n : Notification,
         notifications w' = notifications w ++ [n]
         /\ n_kind n = k
         /\ Some (p_daoId (n_data n)) = dao_id <$> response_dao resp
         /\ p_taskId (n_data n) = announced_task r resp
         /\ (outbox w' = outbox w
             \/ exists (us : list AuthUser) (subject text : jsstring),
                  allUsers e (mkWorld (daos w') (notifications w') (outbox w))
                  = Some us
                  /\ outbox w'
                     = outbox w
                       ++ List.map (notification_mail e subject text)
                            (EmailService.unique_recipients (emails_of us))).
Proof.
  intros r e w w' resp k Hrun Hst Hk.
  destruct (handle_plan r e w) as (resp0 & w0 & Hrun0 & Hshape).
  rewrite Hrun in Hrun0. injection Hrun0 as <- <-.
  assert (Hfinish :
    forall (l : list Dao) kind title message data subject text,
      w' = snd (try_ (announce kind title message data subject text) e (stored w l)) ->
      kind = k ->
      Some (p_daoId data) = dao_id <$> response_dao resp ->
      p_taskId data = announced_task r resp ->
      (notifications w' = notifications w /\ outbox w' = outbox w /\ ~ reliable e)
      \/ exists n : Notification,
           notifications w' = notifications w ++ [n]
           /\ n_kind n = k
           /\ Some (p_daoId (n_data n)) = dao_id <$> response_dao resp
           /\ p_taskId (n_data n) = announced_task r resp
           /\ (outbox w' = outbox w
               \/ exists (us : list AuthUser) (subject text : jsstring),
                    allUsers e (mkWorld (daos w') (notifications w') (outbox w))
                    = Some us
                    /\ outbox w'
                       = outbox w
                         ++ List.map (notification_mail e subject text)
                              (EmailService.unique_recipients (emails_of us)))).
  { intros l kind title message data subject text Hw Hkind Hdao Htask.
    destruct (announce_outcome _ _ _ _ _ _ _ _ _ Hw) as [[-> Hrel]|(Hn & Hd & Hmail)].
    - left. auto.
    - right. exists (mkNotification kind title message data).
      split; [exact Hn|]. split; [exact Hkind|]. split; [exact Hdao|].
      split; [exact Htask|].
      unfold published in Hmail. cbn [stored daos notifications outbox] in Hmail, Hn, Hd.
      rewrite Hn, Hd.
      destruct (allUsers e _) as [us|]; [right | left; exact Hmail].
      exists us, subject, text. split; [reflexivity | exact Hmail]. }
  destruct Hshape as [[H _]|[(_ & body & user & -> & Hresp & Hw)
                             |[(_ & id & i & dao & p & Ht & _ & Hfind & Hp & Hresp & Hw)
                              |(H5 & _)]]];
    [| | |destruct Hst as [Hs|Hs]; rewrite Hs in H5; discriminate H5].
  - destruct H as [H|H], Hst as [Hs|Hs]; rewrite Hs in H; discriminate H.
  - injection Hk as <-.
    eapply Hfinish; [exact Hw | reflexivity | rewrite Hresp; reflexivity | reflexivity].
  - pose proof (find_dao_id _ _ _ _ Hfind) as Hdid.
    assert (Htr : task_request r = true)
      by (destruct r; try reflexivity; first [discriminate Hk | discriminate Ht]).
    destruct (task_plan_cases r e dao p Htr Hp)
      as [(id' & l & -> & _ & _ & _ & ->)
         |[(id' & tid' & v & user & j & t & -> & _)
          |[(id' & v & user & -> & _ & ->)
           |[(id' & tid' & name & user & j & t & -> & Hf & ->)
            |(id' & tid' & j & t & -> & Hf & ->)]]]]; try discriminate Hk;
      injection Hk as <-; simpl in Ht; injection Ht as ->;
      cbn [plan_notice plan_update] in Hw, Hresp.
    + eapply Hfinish; [exact Hw | reflexivity | | reflexivity].
      rewrite Hresp. simpl. rewrite Hdid. reflexivity.
    + eapply Hfinish; [exact Hw | reflexivity | |].
      * rewrite Hresp. simpl. rewrite Hdid. reflexivity.
      * cbn [announced_task]. rewrite Hresp, tasks_merge_only, rev_unit.
        reflexivity.
    + eapply Hfinish; [exact Hw | reflexivity | | reflexivity].
      rewrite Hresp. simpl. rewrite Hdid. reflexivity.
    + apply list_find_Some in Hf as (_ & Hid & _).
      eapply Hfinish; [exact Hw | reflexivity | |].
      * rewrite Hresp. simpl. rewrite Hdid. reflexivity.
      * simpl. rewrite Hid. reflexivity.
Qed.

(** X13, for a task added to the sample case file. *)
Lemma accepted_request_announces_once_witness :
  exists (resp : Response) (w' : World),
    handle (AddTask (js "1") (Valid Sample.new_task_body) (js "admin"))
      Sample.env Sample.world = (Ret resp, w')
    /\ ((notifications w' = notifications Sample.world
         /\ outbox w' = outbox Sample.world /\ ~ reliable Sample.env)
        \/ exists n : Notification,
             notifications w' = notifications Sample.world ++ [n]
             /\ n_kind n = task_created
             /\ Some (p_daoId (n_data n)) = dao_id <$> response_dao resp
             /\ p_taskId (n_data n)
                = announced_task
                    (AddTask (js "1") (Valid Sample.new_task_body) (js "admin")) resp
             /\ (outbox w' = outbox Sample.world
                 \/ exists (us : list AuthUser) (subject text : jsstring),
                      allUsers Sample.env
                        (mkWorld (daos w') (notifications w') (outbox Sample.world))
                      = Some us
                      /\ outbox w'
                         = outbox Sample.world
                           ++ List.map (notification_mail Sample.env subject text)
                                (EmailService.unique_recipients (emails_of us)))).
Proof.
  eexists _, _. split.
  { vm_compute. reflexivity. }
  apply (accepted_request_announces_once
           (AddTask (js "1") (Valid Sample.new_task_body) (js "admin"))
           Sample.env Sample.world).
  - vm_compute. reflexivity.
  - right. reflexivity.
  - reflexivity.
Defined.

(* ===================================================================== *)
(** ** The event and the mails of a task update *)
(* ===================================================================== *)

Section TaskUpdateEvent.

Import EmailService.

(** The mail block that ends the notification block: it only appends to
    the outbox. *)
Lemma bulk_block_appends (l : list AuthUser -> list jsstring) s b e w w' :
  w' = snd (try_ (import_ authService ;;
                  users <- getAllUsers ;;
                  sendBulkNotification (l users) s b ;;
                  ret tt) e w) ->
  daos w' = daos w /\ notifications w' = notifications w
  /\ exists rest, outbox w' = outbox w ++ rest.
Proof.
  intros ->. unfold try_, try_catch, bind, import_, getAllUsers.
  destruct (importThrows e w authService).
  { cbn. split; [reflexivity|]. split; [reflexivity|]. exists [].
    rewrite app_nil_r. reflexivity. }
  destruct (allUsers e w) as [us|].
  - rewrite sendBulkNotification_run. cbn.
    split; [reflexivity|]. split; [reflexivity|]. eexists. reflexivity.
  - cbn. split; [reflexivity|]. split; [reflexivity|]. exists [].
    rewrite app_nil_r. reflexivity.
Qed.

(** The one event of the notification block of the task update. *)
Lemma notify_task_update_event e w id dao previous task :
  reliable e ->
  exists title message,
    notifications (snd (try_ (notify_task_update id dao previous task) e w))
    = notifications w
      ++ [if bool_decide (assignedTo previous = assignedTo task) then
            mkNotification task_updated title message
              (mkPayload id (Some (task_id task))
                 (Some (task_changes previous task)) None None)
          else
            mkNotification
              (if truthy_opt (assignedTo task) then task_assigned
               else task_unassigned)
              title message
              (mkPayload id (Some (task_id task)) None None (assignedTo task))].
Proof.
  intros Hrel. unfold notify_task_update.
  erewrite try_bind_ret_run by (apply import_run; exact Hrel).
  erewrite try_bind_ret_run by (apply import_run; exact Hrel).
  cbv zeta. unfold try_ at 1, try_catch.
  destruct (decide (assignedTo previous = assignedTo task)) as [Heq|Hne].
  - rewrite (bool_decide_eq_true_2 _ Heq).
    rewrite (bool_decide_eq_false_2 (assignedTo previous <> assignedTo task))
      by (intros H; exact (H Heq)).
    erewrite bind_ret_run by (apply broadcast_run; exact Hrel).
    eexists _, _.
    match goal with
    | |- context [try_ ?m e ?w2] =>
        assert (Hk : keeps notifications m) by frame;
        pose proof (try_keeps_notifications m e w2 Hk) as Hk2;
        destruct (try_ m e w2) as [[[]|err] w3]; simpl in *; rewrite Hk2;
        reflexivity
    end.
  - rewrite (bool_decide_eq_false_2 _ Hne), (bool_decide_eq_true_2 _ Hne).
    rewrite !bind_assoc.
    erewrite bind_ret_run by (apply broadcast_run; exact Hrel).
    exists (if negb (truthy_opt (assignedTo task)) then js "Tâche désassignée"
            else js "Tâche assignée").
    eexists.
    match goal with
    | |- context [bind ?m ?k e ?w2] =>
        assert (Hk : keeps notifications (bind m k));
        [|specialize (Hk e w2); destruct (bind m k e w2) as [[[]|err] w3];
          simpl in *; rewrite Hk; destruct (truthy_opt (assignedTo task));
          reflexivity]
    end.
    frame.
Qed.

End TaskUpdateEvent.

(** X14.  With the notification service available, a task update that is
    applied publishes exactly one in-app event, naming the case file and
    the task.  Its kind is [task_updated] when the assignee is unchanged
    (the payload then carries the change list, also when it is empty),
    [task_assigned] when the assignee changed to a non-empty value and
    [task_unassigned] when it changed to none; in the last two cases the
    payload carries the new assignee and no change list. *)
Theorem update_task_publishes_one_event :
  forall (e : Env) (w : World) (id : jsstring) (tid : Z) (body : TaskUpdateBody)
         (user : jsstring) (i j : nat) (dao : Dao) (previous : DaoTask),
    reliable e ->
    bad_id id = false ->
    1 <= tid ->
    find_dao id (daos w) = Some (i, dao) ->
    list_find (fun t => task_id t = tid) (tasks dao) = Some (j, previous) ->
    let task := apply_task_update body user (nowISO e) previous in
    let same := bool_decide (assignedTo previous = assignedTo task) in
    exists n : Notification,
      notifications (snd (update_task id (Some tid) (Valid body) user e w))
      = notifications w ++ [n]
      /\ p_daoId (n_data n) = id
      /\ p_taskId (n_data n) = Some tid
      /\ n_kind n
         = (if same then task_updated
            else if truthy_opt (assignedTo task) then task_assigned
                 else task_unassigned)
      /\ p_changes (n_data n)
         = (if same then Some (task_changes previous task) else None)
      /\ p_assignedTo (n_data n) = (if same then None else assignedTo task).
Proof.
  intros e w id tid body user i j dao previous Hrel Hbad Htid Hfind Htask task same.
  assert (Hlt : (tid <? 1) = false) by (apply Z.ltb_ge; exact Htid).
  assert (Hid : task_id task = tid).
  { apply list_find_Some in Htask as (_ & H & _). exact H. }
  rewrite (update_task_run e w id tid body user i dao j previous
             Hbad Hlt Hfind Htask).
  cbv zeta. cbn [snd]. fold task.
  destruct (notify_task_update_event e
              (stored w (<[i := merge dao (only_tasks (<[j := task]> (tasks dao)))
                                  (nowISO e)]> (daos w)))
              id (with_tasks dao (<[j := task]> (tasks dao))) previous task Hrel)
    as (title & message & Hn).
  eexists. split; [exact Hn|]. fold same.
  simpl in Hid. destruct same; cbn; rewrite Hid; repeat split.
Qed.

(** X14, for a progress update of task 1 of the sample case file. *)
Lemma update_task_publishes_one_event_witness :
  let body := mkTaskUpdateBody (Some 80) None None None in
  let task := apply_task_update body (js "admin") (nowISO Sample.env) Sample.task1 in
  let same := bool_decide (assignedTo Sample.task1 = assignedTo task) in
  exists n : Notification,
    notifications
      (snd (update_task (js "1") (Some 1) (Valid body) (js "admin")
              Sample.env Sample.world))
    = notifications Sample.world ++ [n]
    /\ p_daoId (n_data n) = js "1"
    /\ p_taskId (n_data n) = Some 1
    /\ n_kind n
       = (if same then task_updated
          else if truthy_opt (assignedTo task) then task_assigned
               else task_unassigned)
    /\ p_changes (n_data n)
       = (if same then Some (task_changes Sample.task1 task) else None)
    /\ p_assignedTo (n_data n) = (if same then None else assignedTo task).
Proof.
  apply (update_task_publishes_one_event Sample.env Sample.world (js "1") 1
           (mkTaskUpdateBody (Some 80) None None None) (js "admin")
           0%nat 0%nat Sample.dao1 Sample.task1).
  - split; reflexivity.
  - reflexivity.
  - lia.
  - reflexivity.
  - reflexivity.
Defined.

Section AssignmentMail.

Import EmailService.

Lemma sendNotificationEmail_run to s b e w :
  sendNotificationEmail to s b e w
  = ((if sendMailThrows e w (notification_mail e s b to)
      then Throw OtherError else Ret tt),
     mkWorld (daos w) (notifications w)
       (outbox w ++ [notification_mail e s b to])).
Proof.
  unfold sendNotificationEmail, bind, ask, sendMail. simpl.
  fold (notification_mail e s b to).
  destruct (sendMailThrows e w _); reflexivity.
Qed.

(** The notification block of the task update when the task goes to a
    member of the team who has an address: the event, then the personal
    mail, then -- only if that mail went through -- the mail to all. *)
Lemma assignment_block e w id dao previous task m address :
  reliable e ->
  assignedTo previous <> assignedTo task ->
  List.find (fun m => bool_decide (Some (member_id m) = assignedTo task))
    (equipe dao) = Some m ->
  email m = Some address ->
  address <> [] ->
  let n :=
    mkNotification
      (if negb (truthy_opt (assignedTo task)) then task_unassigned
       else task_assigned)
      (if negb (truthy_opt (assignedTo task)) then js "Tâche désassignée"
       else js "Tâche assignée")
      (js "DAO " ++ numeroListe dao ++ js " – Tâche #" ++ showZ (task_id task)
         ++ js " (" ++ task_name task ++ js "): "
         ++ join (js ", ") (task_changes previous task))
      (mkPayload id (Some (task_id task)) None None (assignedTo task)) in
  let text :=
    js "La tâche " ++ dq ++ task_name task ++ dq
      ++ js " vous a été assignée sur le DAO " ++ numeroListe dao ++ js "." in
  let personal := notification_mail e (js "Nouvelle tâche assignée") text address in
  let w' := snd (try_ (notify_task_update id dao previous task) e w) in
  daos w' = daos w
  /\ notifications w' = notifications w ++ [n]
  /\ (exists rest, outbox w' = outbox w ++ personal :: rest)
  /\ (sendMailThrows e (published w n) personal = true ->
      outbox w' = outbox w ++ [personal]).
Proof.
  intros Hrel Hne Hfind Hemail Haddr n text personal w'.
  set (sent := mkWorld (daos w) (notifications w ++ [n]) (outbox w ++ [personal])).
  assert (Hw : exists w2,
             w' = (if sendMailThrows e (published w n) personal then sent else w2)
             /\ daos w2 = daos w
             /\ notifications w2 = notifications w ++ [n]
             /\ exists rest, outbox w2 = outbox w ++ personal :: rest).
  { subst w'. unfold notify_task_update.
    erewrite try_bind_ret_run by (apply import_run; exact Hrel).
    erewrite try_bind_ret_run by (apply import_run; exact Hrel).
    cbv zeta. rewrite (bool_decide_eq_true_2 _ Hne).
    unfold try_ at 1, try_catch. rewrite !bind_assoc.
    erewrite bind_ret_run by (apply broadcast_run; exact Hrel).
    fold n. fold (published w n). rewrite Hfind, Hemail.
    destruct address as [|a0 address]; [congruence|]. cbn [truthy when].
    unfold bind at 1. rewrite sendNotificationEmail_run. fold text. fold personal.
    destruct (sendMailThrows e (published w n) personal) eqn:Ethrow.
    - exists sent. split; [reflexivity|]. split; [reflexivity|].
      split; [reflexivity|]. exists []. reflexivity.
    - match goal with
      | |- context [try_ ?blk e ?w2] =>
          destruct (bulk_block_appends _ _ _ e w2 (snd (try_ blk e w2)) eq_refl)
            as (Hd & Hn & rest & Hrest);
          exists (snd (try_ blk e w2)); split;
          [destruct (try_ blk e w2) as [[[]|err] w3]; reflexivity|]
      end.
      rewrite Hd, Hn, Hrest. cbn. rewrite <- app_assoc.
      split; [reflexivity|]. split; [reflexivity|]. exists rest. reflexivity. }
  destruct Hw as (w2 & -> & Hd & Hn & rest & Hrest).
  destruct (sendMailThrows e (published w n) personal).
  - split; [reflexivity|]. split; [reflexivity|]. split; [|reflexivity].
    exists []. reflexivity.
  - split; [exact Hd|]. split; [exact Hn|]. split; [|discriminate].
    exists rest. exact Hrest.
Qed.

End AssignmentMail.

(** X15.  When a task update assigns the task to a member of the team who
    has a mail address (and the notification service is available), the
    first mail attempted is the personal mail to that address; if the
    transport refuses it, no other mail is attempted for the request: the
    mail to all users is skipped. *)
Theorem assignment_mail_comes_first :
  forall (e : Env) (w : World) (id : jsstring) (tid : Z) (body : TaskUpdateBody)
         (user : jsstring) (i j : nat) (dao : Dao) (previous : DaoTask)
         (m : TeamMember) (address : jsstring),
    reliable e ->
    bad_id id = false ->
    1 <= tid ->
    find_dao id (daos w) = Some (i, dao) ->
    list_find (fun t => task_id t = tid) (tasks dao) = Some (j, previous) ->
    let task := apply_task_update body user (nowISO e) previous in
    assignedTo previous <> assignedTo task ->
    List.find (fun m => bool_decide (Some (member_id m) = assignedTo task))
      (equipe dao) = Some m ->
    email m = Some address ->
    address <> [] ->
    let w' := snd (update_task id (Some tid) (Valid body) user e w) in
    exists text : jsstring,
      let personal :=
        notification_mail e (js "Nouvelle tâche assignée") text address in
      (exists rest, outbox w' = outbox w ++ personal :: rest)
      /\ (sendMailThrows e (mkWorld (daos w') (notifications w') (outbox w))
            personal = true ->
          outbox w' = outbox w ++ [personal]).
Proof.
  intros e w id tid body user i j dao previous m address Hrel Hbad Htid Hfind
    Htask task Hne Hm Hemail Haddr w'.
  assert (Hlt : (tid <? 1) = false) by (apply Z.ltb_ge; exact Htid).
  subst w'.
  rewrite (update_task_run e w id tid body user i dao j previous
             Hbad Hlt Hfind Htask).
  cbv zeta. cbn [snd]. fold task.
  destruct (assignment_block e
              (stored w (<[i := merge dao (only_tasks (<[j := task]> (tasks dao)))
                                  (nowISO e)]> (daos w)))
              id (with_tasks dao (<[j := task]> (tasks dao))) previous task
              m address Hrel Hne Hm Hemail Haddr)
    as (Hd & Hn & Hrest & Hfail).
  eexists. split; [exact Hrest|].
  rewrite Hd, Hn. exact Hfail.
Qed.

(** X15, for task 2 of the sample case file given to member m1 while the
    mail transport is down. *)
Lemma assignment_mail_comes_first_witness :
  let e :=
    mkEnv (nowISO Sample.env) (nowMs Sample.env) (fullYear Sample.env)
      (DEFAULT_TASKS Sample.env) (brandWrap Sample.env)
      (fun _ _ => false) (fun _ _ => false) (allUsers Sample.env)
      (fun _ _ => true) (spreadThrows Sample.env) in
  let body := mkTaskUpdateBody None None None (Some (js "m1")) in
  let w' := snd (update_task (js "1") (Some 2) (Valid body) (js "admin") e
                   Sample.world) in
  exists text : jsstring,
    let personal :=
      notification_mail e (js "Nouvelle tâche assignée") text
        (js "marie.dubois@2snd.fr") in
    (exists rest, outbox w' = outbox Sample.world ++ personal :: rest)
    /\ (sendMailThrows e (mkWorld (daos w') (notifications w') (outbox Sample.world))
          personal = true ->
        outbox w' = outbox Sample.world ++ [personal]).
Proof.
  cbv zeta.
  apply (assignment_mail_comes_first
           (mkEnv (nowISO Sample.env) (nowMs Sample.env) (fullYear Sample.env)
              (DEFAULT_TASKS Sample.env) (brandWrap Sample.env)
              (fun _ _ => false) (fun _ _ => false) (allUsers Sample.env)
              (fun _ _ => true) (spreadThrows Sample.env))
           Sample.world (js "1") 2
           (mkTaskUpdateBody None None None (Some (js "m1"))) (js "admin")
           0%nat 1%nat Sample.dao1 Sample.task2 Sample.marie
           (js "marie.dubois@2snd.fr")).
  - split; reflexivity.
  - reflexivity.
  - lia.
  - reflexivity.
  - reflexivity.
  - vm_compute. discriminate.
  - reflexivity.
  - reflexivity.
  - discriminate.
Defined.

(* ===================================================================== *)
(** ** Change detection *)
(* ===================================================================== *)

Section JsMapFacts.

Context {K V : Type} `{EqDecision K}.

Implicit Types (m : list (K * V)) (k : K) (v : V).

Lemma Map_get_None k m : Map_get k m = None <-> k ∉ List.map fst m.
Proof.
  unfold Map_get.
  destruct (list_find (fun kv => fst kv = k) m) as [[i kv]|] eqn:E; simpl.
  - split; [discriminate|]. intros Hnot. exfalso. apply Hnot.
    apply list_find_Some in E as (Hi & Hk & _).
    apply list_elem_of_In, in_map_iff. exists kv. split; [exact Hk|].
    apply list_elem_of_In. eapply list_elem_of_lookup_2. exact Hi.
  - split; [|reflexivity]. intros _ Hin.
    apply list_find_None in E.
    apply list_elem_of_In, in_map_iff in Hin as (kv & Hk & Hin).
    apply list_elem_of_In in Hin.
    exact (proj1 (list.Forall_forall _ _) E kv Hin Hk).
Qed.

Lemma Map_get_Some_elem k v m : Map_get k m = Some v -> (k, v) ∈ m.
Proof.
  unfold Map_get.
  destruct (list_find (fun kv => fst kv = k) m) as [[i [k' v']]|] eqn:E;
    [|discriminate].
  simpl. intros [= <-]. apply list_find_Some in E as (Hi & Hk & _).
  simpl in Hk. subst k'. eapply list_elem_of_lookup_2. exact Hi.
Qed.

Lemma keys_unique k v v' m :
  NoDup (List.map fst m) -> (k, v) ∈ m -> (k, v') ∈ m -> v = v'.
Proof.
  induction m as [|[k0 v0] m IH]; intros Hnd H1 H2; [inversion H1|].
  simpl in Hnd. apply list.NoDup_cons in Hnd as [Hnot Hnd].
  assert (Hkey : forall x, (k0, x) ∈ m -> False).
  { intros x Hx. apply Hnot. apply list_elem_of_In, in_map_iff.
    exists (k0, x). split; [reflexivity | apply list_elem_of_In; exact Hx]. }
  apply elem_of_cons in H1 as [E1|H1]; apply elem_of_cons in H2 as [E2|H2].
  - congruence.
  - exfalso. injection E1 as -> _. eapply Hkey. exact H2.
  - exfalso. injection E2 as -> _. eapply Hkey. exact H1.
  - apply IH; assumption.
Qed.

Lemma Map_get_elem k v m :
  NoDup (List.map fst m) -> (k, v) ∈ m -> Map_get k m = Some v.
Proof.
  intros Hnd Hin. destruct (Map_get k m) as [v'|] eqn:E.
  - f_equal. apply (keys_unique k v' v m Hnd); [|exact Hin].
    apply Map_get_Some_elem, E.
  - exfalso. apply Map_get_None in E. apply E.
    apply list_elem_of_In, in_map_iff. exists (k, v).
    split; [reflexivity | apply list_elem_of_In; exact Hin].
Qed.

Lemma Map_set_fresh k v m : k ∉ List.map fst m -> Map_set k v m = m ++ [(k, v)].
Proof.
  intros Hnot. apply Map_get_None in Hnot. unfold Map_get, Map_set in *.
  destruct (list_find (fun kv => fst kv = k) m) as [[i kv]|];
    [discriminate | reflexivity].
Qed.

Lemma Map_set_keys k v m :
  NoDup (List.map fst m) -> NoDup (List.map fst (Map_set k v m)).
Proof.
  intros Hnd. unfold Map_set.
  destruct (list_find (fun kv => fst kv = k) m) as [[i kv]|] eqn:E.
  - apply list_find_Some in E as (Hi & Hk & _).
    rewrite (map_insert_same fst m i kv); [exact Hnd | exact Hi|].
    simpl. symmetry. exact Hk.
  - rewrite map_app. apply list.NoDup_app. split; [exact Hnd|]. split.
    + intros x Hx Hin. apply list_elem_of_singleton in Hin. simpl in Hin. subst x.
      apply list_find_None in E.
      apply list_elem_of_In, in_map_iff in Hx as (kv & Hk & Hin).
      apply list_elem_of_In in Hin.
      exact (proj1 (list.Forall_forall _ _) E kv Hin Hk).
    + apply NoDup_singleton.
Qed.

Lemma Map_from_keys (l : list (K * V)) : NoDup (List.map fst (Map_from l)).
Proof.
  unfold Map_from.
  assert (G : forall acc : list (K * V),
             NoDup (List.map fst acc) ->
             NoDup (List.map fst
                      (fold_left (fun m kv => Map_set (fst kv) (snd kv) m) l acc))).
  { induction l as [|kv l IH]; intros acc Hacc; [exact Hacc|].
    simpl. apply IH, Map_set_keys, Hacc. }
  apply G. constructor.
Qed.

Lemma Map_from_distinct (l : list (K * V)) :
  NoDup (List.map fst l) -> Map_from l = l.
Proof.
  unfold Map_from.
  assert (G : forall acc : list (K * V),
             NoDup (List.map fst (acc ++ l)) ->
             fold_left (fun m kv => Map_set (fst kv) (snd kv) m) l acc = acc ++ l).
  { induction l as [|[k v] l IH]; intros acc Hnd.
    - rewrite app_nil_r. reflexivity.
    - simpl. rewrite Map_set_fresh.
      + rewrite IH; rewrite <- app_assoc; [reflexivity | exact Hnd].
      + rewrite map_app in Hnd. apply list.NoDup_app in Hnd as (_ & Hdisj & _).
        intros Hk. apply (Hdisj k Hk). left. }
  intros Hnd. apply (G []). exact Hnd.
Qed.

Lemma flat_map_nil {A B} (f : A -> list B) (l : list A) :
  flat_map f l = [] <-> forall x, x ∈ l -> f x = [].
Proof.
  induction l as [|a l IH]; simpl.
  - split; [intros _ x Hx; inversion Hx | reflexivity].
  - split.
    + intros Happ x Hx. apply app_eq_nil in Happ as [Ha Hl].
      apply elem_of_cons in Hx as [->|Hx]; [exact Ha | apply IH; assumption].
    + intros Hall. rewrite (Hall a) by left. simpl. apply IH.
      intros x Hx. apply Hall. right. exact Hx.
Qed.

End JsMapFacts.

Section TeamChanges.

(** The entry of a member in the maps of the team difference. *)
Lemma team_keys (l : list TeamMember) :
  List.map fst (List.map (fun m => (member_id m, m)) l) = List.map member_id l.
Proof. rewrite List.map_map. reflexivity. Qed.

Lemma team_entry (l : list TeamMember) k x :
  (k, x) ∈ List.map (fun m => (member_id m, m)) l <-> x ∈ l /\ k = member_id x.
Proof.
  rewrite list_elem_of_In, in_map_iff. split.
  - intros (m & [= <- <-] & Hin). split; [apply list_elem_of_In, Hin | reflexivity].
  - intros [Hin ->]. exists x. split; [reflexivity | apply list_elem_of_In, Hin].
Qed.

Lemma team_changes_same (team : list TeamMember) : team_changes team team = [].
Proof.
  unfold team_changes. cbv zeta.
  set (M := Map_from (List.map (fun m => (member_id m, m)) team)).
  pose proof (Map_from_keys (List.map (fun m => (member_id m, m)) team)) as Hnd.
  fold M in Hnd.
  assert (Hget : forall kv, kv ∈ M -> Map_get (fst kv) M = Some (snd kv)).
  { intros [k x] Hin. apply Map_get_elem; assumption. }
  rewrite (proj2 (flat_map_nil _ M)), (proj2 (flat_map_nil _ M)); [reflexivity | |].
  - intros kv Hin. unfold Map_has. rewrite (Hget kv Hin).
    rewrite bool_decide_eq_true_2 by (eexists; reflexivity). reflexivity.
  - intros kv Hin. rewrite (Hget kv Hin).
    rewrite bool_decide_eq_false_2 by (intros Hn; apply Hn; reflexivity).
    reflexivity.
Qed.

End TeamChanges.

(** X16.  Identical states yield no change descriptor: the change list of
    the task update, the per-task difference and the changed-field list of
    the case-file update, and the team difference -- whatever the team,
    also with repeated member ids -- are all empty when both sides are the
    same. *)
Theorem unchanged_state_reports_no_change :
  forall (t : DaoTask) (d : Dao) (team : list TeamMember),
    task_changes t t = []
    /\ dao_task_diffs t t = []
    /\ changed_fields d d = []
    /\ team_changes team team = [].
Proof.
  intros t d team. split; [|split; [|split]].
  - unfold task_changes.
    rewrite !bool_decide_eq_false_2 by (intros Hn; apply Hn; reflexivity).
    reflexivity.
  - unfold dao_task_diffs. cbv zeta.
    rewrite !bool_decide_eq_false_2 by (intros Hn; apply Hn; reflexivity).
    reflexivity.
  - unfold changed_fields.
    rewrite !bool_decide_eq_false_2 by (intros Hn; apply Hn; reflexivity).
    reflexivity.
  - apply team_changes_same.
Qed.

(** X17.  For teams without repeated member ids, the team difference is
    empty exactly when both teams have the same member ids and every member
    has kept their role: a change of name or of mail address, or a change
    of order, is not reported. *)
Theorem team_changes_empty_iff :
  forall before after : list TeamMember,
    NoDup (List.map member_id before) ->
    NoDup (List.map member_id after) ->
    team_changes before after = []
    <-> (forall m, m ∈ after ->
           exists p, p ∈ before /\ member_id p = member_id m /\ role p = role m)
        /\ (forall p, p ∈ before ->
              exists m, m ∈ after /\ member_id m = member_id p).
Proof.
  intros before after Hb Ha. unfold team_changes. cbv zeta.
  rewrite !Map_from_distinct by (rewrite team_keys; assumption).
  set (B := List.map (fun m => (member_id m, m)) before).
  set (A := List.map (fun m => (member_id m, m)) after).
  assert (HB : NoDup (List.map fst B)) by (unfold B; rewrite team_keys; exact Hb).
  assert (HA : NoDup (List.map fst A)) by (unfold A; rewrite team_keys; exact Ha).
  split.
  - intros Hnil. apply app_eq_nil in Hnil as [H1 H2].
    pose proof (proj1 (flat_map_nil _ _) H1) as G1.
    pose proof (proj1 (flat_map_nil _ _) H2) as G2. split.
    + intros m Hm.
      specialize (G1 (member_id m, m) (proj2 (team_entry after _ _) (conj Hm eq_refl))).
      cbn [fst snd] in G1.
      destruct (Map_get (member_id m) B) as [prev|] eqn:E; [|discriminate G1].
      apply Map_get_Some_elem, team_entry in E as [Hin Hid].
      exists prev. split; [exact Hin|]. split; [symmetry; exact Hid|].
      destruct (decide (role prev = role m)) as [Heq|Hne]; [exact Heq|].
      rewrite (bool_decide_eq_true_2 _ Hne) in G1. discriminate G1.
    + intros p Hp.
      specialize (G2 (member_id p, p) (proj2 (team_entry before _ _) (conj Hp eq_refl))).
      cbn [fst snd] in G2. unfold Map_has in G2.
      destruct (Map_get (member_id p) A) as [m|] eqn:E.
      * apply Map_get_Some_elem, team_entry in E as [Hin Hid].
        exists m. split; [exact Hin | symmetry; exact Hid].
      * rewrite bool_decide_eq_false_2 in G2 by (intros [x Hx]; discriminate Hx).
        discriminate G2.
  - intros [G1 G2].
    rewrite (proj2 (flat_map_nil _ A)), (proj2 (flat_map_nil _ B)); [reflexivity | |].
    + intros [k p] Hin. apply team_entry in Hin as [Hp ->]. cbn [fst snd].
      destruct (G2 p Hp) as (m & Hm & Hid). unfold Map_has.
      rewrite (Map_get_elem (member_id p) m A HA);
        [|apply team_entry; split; [exact Hm | symmetry; exact Hid]].
      rewrite bool_decide_eq_true_2 by (eexists; reflexivity). reflexivity.
    + intros [k m] Hin. apply team_entry in Hin as [Hm ->]. cbn [fst snd].
      destruct (G1 m Hm) as (p & Hp & Hid & Hrole).
      rewrite (Map_get_elem (member_id m) p B HB);
        [|apply team_entry; split; [exact Hp | symmetry; exact Hid]].
      rewrite bool_decide_eq_false_2 by (intros Hn; apply Hn; exact Hrole).
      reflexivity.
Qed.

(** X17, for the sample team with its two members swapped and renamed. *)
Lemma team_changes_empty_iff_witness :
  team_changes [Sample.marie; Sample.pierre]
    [mkMember (member_id Sample.pierre) (js "P. Martin") (role Sample.pierre) None;
     Sample.marie] = []
  <-> (forall m,
         m ∈ [mkMember (member_id Sample.pierre) (js "P. Martin")
                (role Sample.pierre) None; Sample.marie] ->
         exists p, p ∈ [Sample.marie; Sample.pierre]
                   /\ member_id p = member_id m /\ role p = role m)
      /\ (forall p, p ∈ [Sample.marie; Sample.pierre] ->
            exists m,
              m ∈ [mkMember (member_id Sample.pierre) (js "P. Martin")
                     (role Sample.pierre) None; Sample.marie]
              /\ member_id m = member_id p).
Proof.
  apply (team_changes_empty_iff [Sample.marie; Sample.pierre]
           [mkMember (member_id Sample.pierre) (js "P. Martin")
              (role Sample.pierre) None; Sample.marie]).
  - by_computation.
  - by_computation.
Defined.

(* ===================================================================== *)
(** ** The password-reset mail *)
(* ===================================================================== *)

Section ResetMail.

Lemma includes_unfold p s :
  includes p s
  = startsWith p s || match s with [] => false | _ :: s' => includes p s' end.
Proof. destruct s; reflexivity. Qed.

Lemma includes_middle p a b : includes p (a ++ p ++ b) = true.
Proof.
  induction a as [|c a IH].
  - simpl app. rewrite includes_unfold, startsWith_app. reflexivity.
  - cbn [app includes]. rewrite IH. apply orb_true_r.
Qed.

End ResetMail.

(** X18.  [sendPasswordResetEmail] hands exactly one mail to the transport,
    addressed to the given address, whose text and whose markup (the part
    given to the brand frame) carry the code; unlike the bulk notification
    it does not swallow a failure of the transport: it throws exactly when
    the transport does. *)
Theorem sendPasswordResetEmail_sends_the_code :
  forall (email code : jsstring) (e : Env) (w : World),
    exists m : Mail,
      EmailService.sendPasswordResetEmail email code e w
      = ((if sendMailThrows e w m then Throw OtherError else Ret tt),
         mkWorld (daos w) (notifications w) (outbox w ++ [m]))
      /\ mail_to m = email
      /\ includes code (mail_text m) = true
      /\ mail_html m
         = brandWrap e (EmailService.reset_inner code) (mail_subject m)
      /\ includes code (EmailService.reset_inner code) = true.
Proof.
  intros email code e w.
  unfold EmailService.sendPasswordResetEmail, bind, ask, sendMail. cbv zeta.
  exists (mkMail email (js "Réinitialisation du mot de passe")
            (js "Code de vérification: " ++ code ++ [10%N]
               ++ js "Valable 15 minutes.")
            (brandWrap e (EmailService.reset_inner code)
               (js "Réinitialisation du mot de passe"))).
  split.
  { destruct (sendMailThrows e w _); reflexivity. }
  cbn [mail_to mail_text mail_html mail_subject].
  split; [reflexivity|]. split; [|split; [reflexivity|]].
  - apply includes_middle.
  - unfold EmailService.reset_inner.
    repeat rewrite (app_assoc _ _ (code ++ _)).
    repeat rewrite <- (app_assoc _ _ (js "</div>" ++ _)).
    apply includes_middle.
Qed.

(* ===================================================================== *)
(** ** The storage mode *)
(* ===================================================================== *)

Section StorageMode.

Import Connection.

Lemma calls_after_attempt db_up n s :
  connectionAttempted s = true ->
  calls db_up n s = (repeat (negb (useInMemory s)) n, s).
Proof.
  intros Hs. induction n as [|n IH]; [reflexivity|].
  cbn [calls]. unfold tryConnect. rewrite Hs, IH. reflexivity.
Qed.

End StorageMode.

(** X19.  [tryConnect] connects at most once.  Over any number of calls
    made one after the other since the module was loaded, the database
    connection is attempted exactly once, by the first call; every call
    reports the outcome of that attempt, and the storage mode it selected
    (in-memory when it failed) never changes afterwards, even if the
    database comes back. *)
Theorem tryConnect_connects_once :
  forall (db_up : nat -> bool) (n : nat),
    Connection.calls db_up (S n) Connection.initial
    = (repeat (db_up 0%nat) (S n),
       Connection.mkState (negb (db_up 0%nat)) true 1).
Proof.
  intros db_up n. cbn [Connection.calls].
  unfold Connection.tryConnect, Connection.initial.
  cbn [Connection.connectionAttempted Connection.connections].
  destruct (db_up 0%nat); rewrite calls_after_attempt by reflexivity; reflexivity.
Qed.

(* ===================================================================== *)
(** ** The generated number is new *)
(* ===================================================================== *)

Section Fresh.

Import NumberingSpec.







End Fresh.





(* ===================================================================== *)
(** ** Header text *)
(* ===================================================================== *)

Section HeaderText.

Lemma plan_update_shape r e dao p :
  plan r e dao = Some p ->
  (exists ts, plan_update p = only_tasks ts)
  \/ (exists v, plan_update p = updates_of v).
Proof.
  intros H.
  destruct r as [body user | id body | id taskIds | id tid body user
                 | id body user | id tid body user | id tid]; cbn [plan] in H;
    repeat match type of H with
           | None = Some _ => discriminate H
           | Some _ = Some _ => injection H as <-
           | context [match ?x with _ => _ end] => destruct x
           end; cbn [plan_update]; eauto.
Qed.

Lemma sanitized_members_tag_free (l : list TeamMember) :
  Forall (fun m => has_tag (member_name m) = false) (List.map sanitize_member l).
Proof.
  induction l as [|m l IH]; constructor; [|exact IH].
  apply sanitizeString_no_tag.
Qed.

Lemma merged_field_tag_free old (o : option jsstring) :
  has_tag old = false -> has_tag (default old (sanitized_field o)) = false.
Proof.
  intros Hold. unfold sanitized_field.
  destruct o as [s|]; [|exact Hold].
  destruct (truthy_opt (Some s)); [apply sanitizeString_no_tag | exact Hold].
Qed.

Lemma merge_keeps_header_tag_free dao u now :
  (exists ts, u = only_tasks ts) \/ (exists v, u = updates_of v) ->
  header_tag_free dao ->
  header_tag_free (merge dao u now).
Proof.
  intros [[ts ->]|[v ->]] (H1 & H2 & H3 & H4).
  - repeat split; assumption.
  - split; [|split; [|split]]; cbn [merge objetDossier reference
                                     autoriteContractante equipe updates_of
                                     u_objetDossier u_reference
                                     u_autoriteContractante u_equipe].
    + apply merged_field_tag_free, H1.
    + apply merged_field_tag_free, H2.
    + apply merged_field_tag_free, H3.
    + destruct (v_equipe v) as [l|]; [apply sanitized_members_tag_free | exact H4].
Qed.

End HeaderText.

(** X22.  Whatever the request, the free text of the header of a stored
    case file (subject, reference, contracting authority) and the names of
    its members stay free of markup tags: when it holds for every stored
    case file before a request, it holds afterwards.  (For the text of the
    tasks this needs the case-file update to be excluded, see X12.) *)
Theorem header_text_stays_tag_free :
  forall (r : Request) (e : Env) (w : World),
    Forall header_tag_free (daos w) ->
    Forall header_tag_free (daos (snd (handle r e w))).
Proof.
  intros r e w Hall.
  destruct (handle_plan r e w) as (resp & w' & Hrun & Hshape).
  rewrite Hrun. cbn [snd].
  destruct Hshape as [[_ ->]|[(_ & body & user & -> & _ & ->)
                              |[(_ & id & i & dao & p & _ & _ & Hfind & Hp & _ & ->)
                               |(_ & -> & _)]]]; [| | |exact Hall].
  - exact Hall.
  - rewrite (keeps_try daos _ (notify_created_keeps _)). cbn [stored daos].
    apply list.Forall_app. split; [exact Hall|].
    constructor; [|constructor].
    split; [|split; [|split]]; try apply sanitizeString_no_tag.
    apply sanitized_members_tag_free.
  - rewrite (plan_notice_keeps r e dao p Hp). cbn [stored daos].
    apply Forall_insert; [exact Hall|].
    apply merge_keeps_header_tag_free; [eapply plan_update_shape; exact Hp|].
    eapply Forall_lookup_1; [exact Hall|]. eapply find_dao_lookup. exact Hfind.
Qed.

(** X22, for a case-file update whose subject and member names carry
    markup. *)
Lemma header_text_stays_tag_free_witness :
  Forall header_tag_free
    (daos (snd (handle
                  (UpdateDao (js "1")
                     (Valid (mkUpdateDaoBody None (Some (js "<b>Serveurs</b>")) None
                               None None
                               (Some [mkMember (js "m9") (js "<i>Zoé</i>")
                                        membre_equipe None])
                               None)))
                  Sample.env Sample.world))).
Proof.
  apply (header_text_stays_tag_free
           (UpdateDao (js "1")
              (Valid (mkUpdateDaoBody None (Some (js "<b>Serveurs</b>")) None
                        None None
                        (Some [mkMember (js "m9") (js "<i>Zoé</i>")
                                 membre_equipe None])
                        None)))
           Sample.env Sample.world).
  constructor; [|constructor].
  split; [vm_compute; reflexivity|]. split; [vm_compute; reflexivity|].
  split; [vm_compute; reflexivity|].
  repeat (constructor; [vm_compute; reflexivity|]). constructor.
Defined.

(* ===================================================================== *)
(** ** The mails of a team change *)
(* ===================================================================== *)

Section TeamMail.

Import EmailService.

Lemma set_from_length seen l : (List.length (set_from seen l) <= List.length l)%nat.
Proof.
  revert seen. induction l as [|x l IH]; intros seen; simpl; [lia|].
  case_bool_decide.
  - specialize (IH seen). lia.
  - specialize (IH (x :: seen)). simpl. lia.
Qed.

Lemma unique_recipients_length l :
  (List.length (unique_recipients l) <= List.length l)%nat.
Proof.
  unfold unique_recipients.
  pose proof (set_from_length [] (List.filter truthy l)).
  pose proof (filter_length_le truthy l). lia.
Qed.

Lemma team_emails_members updated before a :
  a ∈ team_emails updated before ->
  exists member,
    member ∈ equipe updated ++ equipe before /\ email member = Some a.
Proof.
  unfold team_emails. intros Hin.
  apply (subseteq_take 50) in Hin.
  apply list_elem_of_omap in Hin as (member & Hm & He).
  exists member. split; [exact Hm|].
  destruct (truthy_opt (email member)); [exact He | discriminate He].
Qed.

Lemma mail_to_notification_mail e s b (l : list jsstring) :
  List.map mail_to (List.map (notification_mail e s b) l) = l.
Proof. induction l as [|a l IH]; simpl; [|f_equal]; auto. Qed.

End TeamMail.

(** X23.  The mails of a team change are bounded: whatever the two teams
    and whichever collaborator fails, [notify_team] attempts at most 50
    mails, no two to the same address, each to the non-empty address of a
    member of the new or of the old team; and none at all when the team
    difference is empty. *)
Theorem notify_team_mails_are_bounded :
  forall (before updated : Dao) (e : Env) (w : World),
    exists rest : list Mail,
      outbox (snd (notify_team before updated e w)) = outbox w ++ rest
      /\ (List.length rest <= 50)%nat
      /\ NoDup (List.map mail_to rest)
      /\ Forall (fun m =>
                   mail_to m <> []
                   /\ exists member,
                        member ∈ equipe updated ++ equipe before
                        /\ email member = Some (mail_to m)) rest
      /\ (team_changes (equipe before) (equipe updated) = [] -> rest = []).
Proof.
  intros before updated e w.
  assert (Hnone : exists rest : list Mail,
             outbox w = outbox w ++ rest
             /\ (List.length rest <= 50)%nat
             /\ NoDup (List.map mail_to rest)
             /\ Forall (fun m =>
                          mail_to m <> []
                          /\ exists member,
                               member ∈ equipe updated ++ equipe before
                               /\ email member = Some (mail_to m)) rest
             /\ (team_changes (equipe before) (equipe updated) = [] -> rest = [])).
  { exists []. rewrite app_nil_r. split; [reflexivity|]. split; [simpl; lia|].
    split; [constructor|]. split; [constructor | reflexivity]. }
  unfold notify_team. cbv zeta.
  destruct (team_changes (equipe before) (equipe updated)) as [|c cs] eqn:Ech;
    [exact Hnone|].
  cbn [nonempty when]. unfold bind at 1, broadcast.
  destruct (broadcastThrows e w _); [exact Hnone|].
  destruct (team_emails updated before) as [|a l] eqn:Eem; [exact Hnone|].
  cbn [nonempty when]. unfold bind. rewrite sendBulkNotification_run.
  cbn [snd outbox]. rewrite <- Eem.
  eexists. split; [reflexivity|]. split; [|split; [|split]].
  - rewrite length_map.
    pose proof (unique_recipients_length (team_emails updated before)) as H1.
    assert (H2 : (List.length (team_emails updated before) <= 50)%nat).
    { unfold team_emails. rewrite length_take. lia. }
    lia.
  - rewrite mail_to_notification_mail. apply unique_recipients_NoDup.
  - apply list.Forall_forall. intros m Hm.
    apply list_elem_of_In, in_map_iff in Hm as (a' & <- & Ha).
    apply list_elem_of_In, unique_recipients_spec in Ha as [Ha Hne].
    cbn [mail_to notification_mail]. split; [exact Hne|].
    apply team_emails_members, Ha.
  - discriminate.
Qed.

(* ===================================================================== *)
(** ** Round trips through the store *)
(* ===================================================================== *)

Section RoundTrips.

Lemma new_task_id_fresh (l : list DaoTask) :
  Forall (fun t => 0 <= task_id t < 2 ^ 53) l ->
  1 <= new_task_id (List.map task_id l)
  /\ new_task_id (List.map task_id l) ∉ List.map task_id l.
Proof.
  intros Hl.
  assert (Hsafe : Forall safe_integer (List.map task_id l)).
  { apply safe_ids_of. eapply list.Forall_impl; [exact Hl|].
    intros t Ht. cbv beta in Ht. unfold safe_integer. lia. }
  split.
  - destruct (List.map task_id l) as [|x xs] eqn:El; [simpl; lia|].
    rewrite (new_task_id_next x xs Hsafe).
    pose proof (Math_max_in x xs) as Hin. rewrite <- El in Hin.
    apply list_elem_of_In, in_map_iff in Hin as (t & Ht & Hin).
    pose proof (proj1 (List.Forall_forall _ _) Hl t Hin) as Hpos.
    cbv beta in Hpos. lia.
  - intros Hin. pose proof (new_task_id_above _ _ Hsafe Hin). lia.
Qed.


End RoundTrips.

(** X24.  Adding a task and then deleting it is a round trip: on a case
    file whose task ids are not negative and below 2^53, and whose tasks
    are not too many for the call of [Math.max], the task that the add
    route creates can be deleted by the id it was given (the id is at least
    1 and names that task only), and this leaves the case file exactly as
    it was before the addition but for its update stamp. *)
Theorem add_then_delete_restores_tasks :
  forall (e e2 : Env) (w : World) (daoId : jsstring) (body : CreateTaskBody)
         (user : jsstring) (i : nat) (dao : Dao),
    bad_id daoId = false ->
    find_dao daoId (daos w) = Some (i, dao) ->
    Forall (fun t => 0 <= task_id t < 2 ^ 53) (tasks dao) ->
    spread_overflows e (List.map task_id (tasks dao)) = false ->
    let w1 := snd (add_task daoId (Valid body) user e w) in
    let tid := new_task_id (List.map task_id (tasks dao)) in
    let restored := merge dao no_updates (nowISO e2) in
    exists w2 : World,
      delete_task daoId (Some tid) e2 w1
        = (Ret (mkResponse 200
                  (JsonDeleted (js "Task deleted successfully") tid
                     (sanitizeString (ct_name body)) (Some restored))), w2)
      /\ daos w2 = <[i := restored]> (daos w).
Proof.
  intros e e2 w daoId body user i dao Hbad Hfind Hids Hspread w1 tid restored.
  set (newTask := new_task dao body user (nowISO e)).
  set (dao1 := merge dao (only_tasks (tasks dao ++ [newTask])) (nowISO e)).
  destruct (new_task_id_fresh (tasks dao) Hids) as [Hpos Hnew].
  assert (Hd1 : daos w1 = <[i := dao1]> (daos w)).
  { unfold w1. rewrite (add_task_run e w daoId body user i dao Hbad Hfind Hspread).
    cbn [snd]. apply (daos_after_notify _ e w), notify_added_keeps. }
  assert (Hfind1 : find_dao daoId (daos w1) = Some (i, dao1)).
  { rewrite Hd1. apply (find_dao_insert daoId (daos w) i dao); [exact Hfind|].
    simpl. eapply find_dao_id. exact Hfind. }
  assert (Htid : (tid <? 1) = false) by (apply Z.ltb_ge; exact Hpos).
  assert (Hf : list_find (fun t => task_id t = tid) (tasks dao1)
               = Some (List.length (tasks dao), newTask)).
  { change (tasks dao1) with (tasks dao ++ [newTask]).
    apply list_find_first; [reflexivity | exact Hnew]. }
  pose proof (delete_task_run e2 w1 daoId tid i dao1 _ newTask
                Hbad Htid Hfind1 Hf) as Hrun.
  cbv zeta in Hrun.
  change (tasks dao1) with (tasks dao ++ [newTask]) in Hrun.
  rewrite delete_middle, app_nil_r in Hrun.
  eexists. split; [exact Hrun|].
  rewrite (daos_after_notify _ e2 w1 _ (notify_deleted_keeps _ _)).
  rewrite Hd1, list_insert_insert_eq. reflexivity.
Qed.

(** X24, on the sample case file. *)
Lemma add_then_delete_restores_tasks_witness :
  let w1 := snd (add_task (js "1") (Valid Sample.new_task_body) (js "admin")
                   Sample.env Sample.world) in
  let tid := new_task_id (List.map task_id (tasks Sample.dao1)) in
  let restored := merge Sample.dao1 no_updates (nowISO Sample.failing_env) in
  exists w2 : World,
    delete_task (js "1") (Some tid) Sample.failing_env w1
      = (Ret (mkResponse 200
                (JsonDeleted (js "Task deleted successfully") tid
                   (sanitizeString (ct_name Sample.new_task_body))
                   (Some restored))), w2)
    /\ daos w2 = <[0%nat := restored]> (daos Sample.world).
Proof.
  apply (add_then_delete_restores_tasks Sample.env Sample.failing_env Sample.world
           (js "1") Sample.new_task_body (js "admin") 0%nat Sample.dao1).
  - reflexivity.
  - reflexivity.
  - repeat (constructor; [simpl; lia|]). constructor.
  - vm_compute. reflexivity.
Defined.


